(** * random_coffee_bot: registration, one-time codes, lockout and the
      profile wizard

    A shallow embedding of
      - [app/utils/security.py]   (validators, interest normalisation),
      - [app/utils/dt.py]         (time normalisation),
      - [app/models.py]           (the persisted rows),
      - [app/handlers/registration.py], [app/handlers/profile.py],
        [app/handlers/start.py]   (the handlers that drive the stage
        machine),
      - [app/handlers/admin.py], [app/keyboards.py], [app/bot.py]
        (the admin panel, the buttons and the order of the routers),
      - [app/config.py]           (lists read from the environment),
    followed by the properties of the specification stated over it and by
    further properties of the code.

    Modelling conventions.
      - A Python [str] is a [list ascii]: one [ascii] per character, the
        code points 0..255.  On that range [str.strip], [str.lower],
        [str.isdigit] are written out exactly as CPython computes them.
      - Python integers are [Z]; [len] is a [nat].
      - An instant is a [Z] number of microseconds since the epoch, so that
        every stored [datetime] is already "aware UTC";
        [timedelta(seconds=n)] is [seconds n].
      - One SQLAlchemy session is a value of type [DB] threaded through the
        handler; the ORM object [user] is a local record written back into
        the [users] table when the handler commits.  Every read of the
        handler's clock made while one event is handled returns the
        instant carried by the event; the columns with
        [server_default=func.now()] take the reading of the clock of the
        database, which the event carries as well.
      - Whatever a handler sends (chat messages, mails, admin notices) and
        every flushed ledger insert is appended, in program order, to a
        trace of [IO] actions.  The chat transport is taken to succeed;
        [send_otp_email] delivers or raises, as the event says.  The
        per-chat keyboard bookkeeping ([last_kb_mid]) is transport state
        and is left out.
      - A handler that dies on an exception leaves its session without a
        commit: the store is the one the session was opened on. *)

From Stdlib Require Import ZArith Ascii String List Bool Lia.
From Stdlib Require DecimalPos.
From stdpp Require Import base decidable option list gmap strings.
Import ListNotations.

#[local] Open Scope Z_scope.

(** ** Python strings *)

Abbreviation pystr := (list ascii).

(** A string literal as a Python [str]. *)
Definition str (s : string) : pystr := list_ascii_of_string s.

Module Py.

Definition ord (c : ascii) : nat := nat_of_ascii c.

Definition between (lo hi n : nat) : bool :=
  (Nat.leb lo n && Nat.leb n hi)%bool.

(** [str.isspace] on one character: TAB..CR, FS..US, SPACE, NEL, NBSP. *)
Definition isspace (c : ascii) : bool :=
  let n := ord c in
  (between 9 13 n || between 28 32 n || Nat.eqb n 133 || Nat.eqb n 160)%bool.

Fixpoint lstrip (s : pystr) : pystr :=
  match s with
  | c :: s' => if isspace c then lstrip s' else s
  | [] => []
  end.

Definition rstrip (s : pystr) : pystr := rev (lstrip (rev s)).

(** [s.strip()] *)
Definition strip (s : pystr) : pystr := lstrip (rstrip s).

(** [str.lower] on one character: A..Z, and the Latin-1 capitals
    U+00C0..U+00DE except the multiplication sign U+00D7. *)
Definition lower_char (c : ascii) : ascii :=
  let n := ord c in
  if (between 65 90 n || between 192 214 n || between 216 222 n)%bool
  then ascii_of_nat (n + 32) else c.

(** [s.lower()] *)
Definition lower (s : pystr) : pystr := map lower_char s.

(** One character of [str.isdigit]: 0..9 and the superscripts
    U+00B2, U+00B3, U+00B9. *)
Definition isdigit_char (c : ascii) : bool :=
  let n := ord c in
  (between 48 57 n || Nat.eqb n 178 || Nat.eqb n 179 || Nat.eqb n 185)%bool.

(** [s.isdigit()]: false on the empty string. *)
Definition isdigit (s : pystr) : bool :=
  match s with
  | [] => false
  | _ => forallb isdigit_char s
  end.

(** [int(s)] for an [s] that passed [isdigit]: the decimal digits 0..9
    are read, a superscript digit raises [ValueError] ([None]). *)
Fixpoint int_acc (acc : Z) (s : pystr) : option Z :=
  match s with
  | [] => Some acc
  | c :: s' =>
      if between 48 57 (ord c)
      then int_acc (10 * acc + Z.of_nat (ord c - 48)) s'
      else None
  end.

Definition int (s : pystr) : option Z :=
  match s with
  | [] => None
  | _ => int_acc 0 s
  end.

Fixpoint startswith (s p : pystr) : bool :=
  match p, s with
  | [], _ => true
  | _ :: _, [] => false
  | a :: p', b :: s' => (Ascii.eqb a b && startswith s' p')%bool
  end.

(** [w in s] for strings: [w] occurs as a substring of [s]. *)
Fixpoint contains (s w : pystr) : bool :=
  (startswith s w ||
   match s with
   | [] => false
   | _ :: s' => contains s' w
   end)%bool.

(** [sep.join(l)] *)
Fixpoint join (sep : pystr) (l : list pystr) : pystr :=
  match l with
  | [] => []
  | [x] => x
  | x :: l' => x ++ sep ++ join sep l'
  end.

(** Truthiness of a string. *)
Definition truthy (s : pystr) : bool :=
  match s with [] => false | _ => true end.

(** [sum(len(x) for x in l)] *)
Definition sum_len (l : list pystr) : nat :=
  fold_right (fun x n => (length x + n)%nat) 0%nat l.

End Py.

(** ** app/utils/security.py *)

Module Security.

(** The separators of [re.split(r"[,\n;]+", raw)]. *)
Definition is_sep (c : ascii) : bool :=
  let n := Py.ord c in
  (Nat.eqb n 44 || Nat.eqb n 10 || Nat.eqb n 59)%bool.

(** [re.split(r"[,\n;]+", s)]: [s] is cut at every maximal run of
    separators.  [in_run] says that the previous character was a
    separator, [cur] is the piece being read, reversed. *)
Fixpoint re_split_from (in_run : bool) (cur : pystr) (s : pystr)
  : list pystr :=
  match s with
  | [] => [rev cur]
  | c :: s' =>
      if is_sep c then
        if in_run then re_split_from true cur s'
        else rev cur :: re_split_from true [] s'
      else re_split_from false (c :: cur) s'
  end.

Definition re_split (s : pystr) : list pystr := re_split_from false [] s.

(** [contains_banned_words]: the first configured word, stripped and
    lower-cased, that is not empty and occurs in [text.lower()]. *)
Fixpoint banned_loop (low : pystr) (banned_words : list pystr)
  : option pystr :=
  match banned_words with
  | [] => None
  | w :: rest =>
      let w := Py.lower (Py.strip w) in
      if (Py.truthy w && Py.contains low w)%bool then Some w
      else banned_loop low rest
  end.

Definition contains_banned_words (text : pystr) (banned_words : list pystr)
  : option pystr :=
  banned_loop (Py.lower text) banned_words.

(** The four refusals of [normalize_interests]. *)
Inductive InterestsError :=
| TooManyValues
| BadLength (interest : pystr)
| BannedInterest (interest : pystr)
| TotalTooLong.

(** The pair [(list | None, message | None)] returned by
    [normalize_interests]. *)
Inductive Normalized :=
| Interests (result : list pystr)
| Refused (err : InterestsError).

(** The validation loop over [interests]. *)
Fixpoint check_loop (interests : list pystr) (banned_words : list pystr)
  : option InterestsError :=
  match interests with
  | [] => None
  | interest :: rest =>
      if negb (Nat.leb 1 (length interest) && Nat.leb (length interest) 50)
      then Some (BadLength interest)
      else
        match contains_banned_words interest banned_words with
        | Some _ => Some (BannedInterest interest)
        | None => check_loop rest banned_words
        end
  end.

(** The de-duplication loop: [seen] is the set of lower-cased items met
    so far, [result] the list built so far. *)
Fixpoint dedup_loop (seen : gset pystr) (result : list pystr)
    (interests : list pystr) : list pystr :=
  match interests with
  | [] => result
  | it :: rest =>
      if bool_decide (Py.lower it ∉ seen)
      then dedup_loop ({[Py.lower it]} ∪ seen) (result ++ [it]) rest
      else dedup_loop seen result rest
  end.

Definition normalize_interests (raw : pystr) (banned_words : list pystr)
  : Normalized :=
  if negb (Py.truthy (Py.strip raw)) then Interests []
  else
    let parts := re_split raw in
    let interests :=
      map Py.strip (List.filter (fun p => Py.truthy (Py.strip p)) parts) in
    if Nat.ltb 30 (length interests) then Refused TooManyValues
    else
      match check_loop interests banned_words with
      | Some e => Refused e
      | None =>
          let result := dedup_loop ∅ [] interests in
          if Nat.ltb 300 (Py.sum_len result) then Refused TotalTooLong
          else Interests result
      end.

(** The two refusals of [validate_email]. *)
Inductive EmailError :=
| bad_format
| domain_not_allowed (domain : pystr).

(** [email.split("@", 1)[1]]: what follows the first ["@"]; [None] is the
    [IndexError] raised when there is none. *)
Fixpoint after_at (email : pystr) : option pystr :=
  match email with
  | [] => None
  | c :: rest => if Nat.eqb (Py.ord c) 64 then Some rest else after_at rest
  end.

(** [validate_email]: [None] is [(True, None)], [Some e] is
    [(False, message)]. *)
Definition validate_email (email : pystr) (regex : pystr -> bool)
    (allowed_domains : list pystr) : option EmailError :=
  if negb (regex email) then Some bad_format
  else
    match allowed_domains with
    | [] => None
    | _ :: _ =>
        match after_at email with
        | None => Some bad_format
        | Some rest =>
            let domain := Py.lower rest in
            if bool_decide (domain ∉ map Py.lower allowed_domains)
            then Some (domain_not_allowed domain)
            else None
        end
    end.

End Security.

(** ** app/utils/dt.py *)

(** An instant: microseconds since the epoch, in UTC. *)
Abbreviation datetime := Z.

(** [timedelta(seconds=n)] *)
Definition seconds (n : Z) : Z := n * 1000000.

(** [ensure_aware_utc]: [None] stays [None]; a stored instant is already
    in UTC, so both remaining branches return it as it is. *)
Definition ensure_aware_utc (dt : option datetime) : option datetime :=
  match dt with
  | None => None
  | Some t => Some t
  end.

(** ** app/models.py *)

(** [users.status] *)
Inductive Status := status_new | active | blocked | imported.

(** [users.stage] *)
Inductive Stage :=
| stage_new
| verifying_email
| verifying_email_error
| verifying_code
| verifying_code_error
| authorized
| profile_name
| profile_photo
| profile_bio
| profile_age
| profile_interests
| profile_review
| profile_filled.

(** [users.origin] *)
Inductive Origin := origin_self | origin_import.

(** [auth_attempts.type]: ["email"] or ["otp"]. *)
Inductive AttemptType := type_email | type_otp.

#[global] Instance Status_eq_dec : EqDecision Status.
Proof. solve_decision. Defined.
#[global] Instance Stage_eq_dec : EqDecision Stage.
Proof. solve_decision. Defined.
#[global] Instance Origin_eq_dec : EqDecision Origin.
Proof. solve_decision. Defined.
#[global] Instance AttemptType_eq_dec : EqDecision AttemptType.
Proof. solve_decision. Defined.

(** One entry of [photos_json["photos"]]. *)
Record Photo := { file_id : pystr; photo_ts : datetime }.

(** A row of [users].  The unique, indexed column [telegram_id] is the key
    under which the row is stored (see [DB]); the other columns are the
    fields below. *)
Module User.
Record t := {
  id : Z;
  username : option pystr;
  status : Status;
  stage : Stage;
  email : option pystr;
  email_attempts : Z;
  otp_attempts : Z;
  name : option pystr;
  photos_json : option (list Photo);
  bio : option pystr;
  age : option Z;
  interests_json : option (list pystr);
  origin : option Origin;
  import_profile_name : option pystr;
  last_activity : datetime
}.

Definition set_username (v : option pystr) (u : t) : t :=
  {| id := id u; username := v; status := status u; stage := stage u;
     email := email u; email_attempts := email_attempts u;
     otp_attempts := otp_attempts u; name := name u;
     photos_json := photos_json u; bio := bio u; age := age u;
     interests_json := interests_json u; origin := origin u;
     import_profile_name := import_profile_name u;
     last_activity := last_activity u |}.

Definition set_status (v : Status) (u : t) : t :=
  {| id := id u; username := username u; status := v; stage := stage u;
     email := email u; email_attempts := email_attempts u;
     otp_attempts := otp_attempts u; name := name u;
     photos_json := photos_json u; bio := bio u; age := age u;
     interests_json := interests_json u; origin := origin u;
     import_profile_name := import_profile_name u;
     last_activity := last_activity u |}.

Definition set_stage (v : Stage) (u : t) : t :=
  {| id := id u; username := username u; status := status u; stage := v;
     email := email u; email_attempts := email_attempts u;
     otp_attempts := otp_attempts u; name := name u;
     photos_json := photos_json u; bio := bio u; age := age u;
     interests_json := interests_json u; origin := origin u;
     import_profile_name := import_profile_name u;
     last_activity := last_activity u |}.

Definition set_email (v : option pystr) (u : t) : t :=
  {| id := id u; username := username u; status := status u;
     stage := stage u; email := v; email_attempts := email_attempts u;
     otp_attempts := otp_attempts u; name := name u;
     photos_json := photos_json u; bio := bio u; age := age u;
     interests_json := interests_json u; origin := origin u;
     import_profile_name := import_profile_name u;
     last_activity := last_activity u |}.

Definition set_email_attempts (v : Z) (u : t) : t :=
  {| id := id u; username := username u; status := status u;
     stage := stage u; email := email u; email_attempts := v;
     otp_attempts := otp_attempts u; name := name u;
     photos_json := photos_json u; bio := bio u; age := age u;
     interests_json := interests_json u; origin := origin u;
     import_profile_name := import_profile_name u;
     last_activity := last_activity u |}.

Definition set_otp_attempts (v : Z) (u : t) : t :=
  {| id := id u; username := username u; status := status u;
     stage := stage u; email := email u;
     email_attempts := email_attempts u; otp_attempts := v; name := name u;
     photos_json := photos_json u; bio := bio u; age := age u;
     interests_json := interests_json u; origin := origin u;
     import_profile_name := import_profile_name u;
     last_activity := last_activity u |}.

Definition set_name (v : option pystr) (u : t) : t :=
  {| id := id u; username := username u; status := status u;
     stage := stage u; email := email u;
     email_attempts := email_attempts u; otp_attempts := otp_attempts u;
     name := v; photos_json := photos_json u; bio := bio u; age := age u;
     interests_json := interests_json u; origin := origin u;
     import_profile_name := import_profile_name u;
     last_activity := last_activity u |}.

Definition set_photos_json (v : option (list Photo)) (u : t) : t :=
  {| id := id u; username := username u; status := status u;
     stage := stage u; email := email u;
     email_attempts := email_attempts u; otp_attempts := otp_attempts u;
     name := name u; photos_json := v; bio := bio u; age := age u;
     interests_json := interests_json u; origin := origin u;
     import_profile_name := import_profile_name u;
     last_activity := last_activity u |}.

Definition set_bio (v : option pystr) (u : t) : t :=
  {| id := id u; username := username u; status := status u;
     stage := stage u; email := email u;
     email_attempts := email_attempts u; otp_attempts := otp_attempts u;
     name := name u; photos_json := photos_json u; bio := v; age := age u;
     interests_json := interests_json u; origin := origin u;
     import_profile_name := import_profile_name u;
     last_activity := last_activity u |}.

Definition set_age (v : option Z) (u : t) : t :=
  {| id := id u; username := username u; status := status u;
     stage := stage u; email := email u;
     email_attempts := email_attempts u; otp_attempts := otp_attempts u;
     name := name u; photos_json := photos_json u; bio := bio u; age := v;
     interests_json := interests_json u; origin := origin u;
     import_profile_name := import_profile_name u;
     last_activity := last_activity u |}.

Definition set_interests_json (v : option (list pystr)) (u : t) : t :=
  {| id := id u; username := username u; status := status u;
     stage := stage u; email := email u;
     email_attempts := email_attempts u; otp_attempts := otp_attempts u;
     name := name u; photos_json := photos_json u; bio := bio u;
     age := age u; interests_json := v; origin := origin u;
     import_profile_name := import_profile_name u;
     last_activity := last_activity u |}.

Definition set_last_activity (v : datetime) (u : t) : t :=
  {| id := id u; username := username u; status := status u;
     stage := stage u; email := email u;
     email_attempts := email_attempts u; otp_attempts := otp_attempts u;
     name := name u; photos_json := photos_json u; bio := bio u;
     age := age u; interests_json := interests_json u; origin := origin u;
     import_profile_name := import_profile_name u; last_activity := v |}.

(** [User(telegram_id=…, username=…, status="new", stage="new",
    origin="self")] with the column defaults; [last_activity] is the
    server default [now()], the reading [now] of the database's clock. *)
Definition create (new_id : Z) (uname : option pystr) (now : datetime) : t :=
  {| id := new_id; username := uname; status := status_new;
     stage := stage_new; email := None; email_attempts := 0;
     otp_attempts := 0; name := None; photos_json := None; bio := None;
     age := None; interests_json := None; origin := Some origin_self;
     import_profile_name := None; last_activity := now |}.
End User.

(** A row of [otp]. *)
Module Otp.
Record t := {
  id : Z;
  user_id : Z;
  code : pystr;
  session_id : pystr;
  resend_count : Z;
  last_sent_at : datetime;
  created_at : datetime;
  expires_at : datetime;
  used_at : option datetime
}.

Definition set_resend (count : Z) (sent : datetime) (o : t) : t :=
  {| id := id o; user_id := user_id o; code := code o;
     session_id := session_id o; resend_count := count;
     last_sent_at := sent; created_at := created_at o;
     expires_at := expires_at o; used_at := used_at o |}.

Definition set_used_at (v : option datetime) (o : t) : t :=
  {| id := id o; user_id := user_id o; code := code o;
     session_id := session_id o; resend_count := resend_count o;
     last_sent_at := last_sent_at o; created_at := created_at o;
     expires_at := expires_at o; used_at := v |}.
End Otp.

(** A row of [auth_attempts]. *)
Module AuthAttempt.
Record t := {
  id : Z;
  user_id : Z;
  type : AttemptType;
  value : pystr;
  ts : datetime
}.

(** [AuthAttempt(user_id=…, type=…, value=…)] once flushed: the key is
    assigned and [ts] takes the server default [now()], the reading [now]
    of the database's clock. *)
Definition create (new_id user_id : Z) (typ : AttemptType) (value : pystr)
    (now : datetime) : t :=
  {| id := new_id; user_id := user_id; type := typ; value := value;
     ts := now |}.
End AuthAttempt.

(** The reason handed to [_notify_admin_on_block]. *)
Inductive BlockReason := too_many_addresses | too_many_codes.

(** A row of [admin_log] with action ["auth_block_request"]; its JSON
    payload is [{user_id, reason, type, attempts}]. *)
Module AdminLog.
Record t := {
  admin_telegram_id : Z;
  user_id : Z;
  reason : BlockReason;
  type : AttemptType;
  attempts : list pystr;
  ts : datetime
}.
End AdminLog.

(** The store seen by one session. *)
Record DB := {
  users : gmap Z User.t;
  otps : list Otp.t;
  auth_attempts : list AuthAttempt.t;
  admin_log : list AdminLog.t
}.

Definition with_users (v : gmap Z User.t) (d : DB) : DB :=
  {| users := v; otps := otps d; auth_attempts := auth_attempts d;
     admin_log := admin_log d |}.

Definition with_otps (v : list Otp.t) (d : DB) : DB :=
  {| users := users d; otps := v; auth_attempts := auth_attempts d;
     admin_log := admin_log d |}.

Definition with_auth_attempts (v : list AuthAttempt.t) (d : DB) : DB :=
  {| users := users d; otps := otps d; auth_attempts := v;
     admin_log := admin_log d |}.

Definition with_admin_log (v : list AdminLog.t) (d : DB) : DB :=
  {| users := users d; otps := otps d; auth_attempts := auth_attempts d;
     admin_log := v |}.

(** The next value of an autoincremented primary key. *)
Definition next_id {A} (key : A -> Z) (rows : list A) : Z :=
  1 + fold_right (fun r m => Z.max (key r) m) 0 rows.

Definition next_user_id (m : gmap Z User.t) : Z :=
  next_id (fun kv : Z * User.t => User.id kv.2) (map_to_list m).

(** [ORDER BY key DESC]: a stable insertion sort, so rows with equal keys
    keep their table order. *)
Fixpoint insert_desc {A} (key : A -> Z) (x : A) (l : list A) : list A :=
  match l with
  | [] => [x]
  | y :: l' =>
      if key y <=? key x then x :: l else y :: insert_desc key x l'
  end.

Definition order_by_desc {A} (key : A -> Z) (l : list A) : list A :=
  fold_right (insert_desc key) [] l.

(** ** app/config.py: the settings read by the handlers *)

Record Settings := {
  admin_chat_id : option Z;
  (** [email_regex.match]: the compiled pattern, as the predicate it
      decides. *)
  email_regex : pystr -> bool;
  allowed_domains : list pystr;
  otp_ttl_seconds : Z;
  otp_cooldown_seconds : Z;
  resend_max_per_session : Z;
  email_max_attempts : Z;
  otp_max_attempts : Z;
  banned_words : list pystr
}.

(** What the environment supplies while one event is handled: the
    handler's clock; the clock of the database, read by the columns with
    [server_default=func.now()] (whole seconds on SQLite); the order in
    which the engine returns rows that [ORDER BY] leaves tied, as a rank
    of the primary keys (the greater rank first); the digits drawn by
    [generate_otp(6)] and [uuid.uuid4().hex[:8]]; and whether
    [aiosmtplib.send] delivers the mail or raises. *)
Record Env := {
  now_utc : datetime;
  db_now : datetime;
  engine_rank : Z -> Z;
  generate_otp : pystr;
  uuid4_hex8 : pystr;
  smtp_delivers : bool
}.

(** ** What a handler receives and what it emits *)

(** An inbound message: sender, sender's handle and full name, text. *)
Module Message.
Record t := {
  from_id : Z;
  from_username : option pystr;
  full_name : pystr;
  text : pystr
}.
End Message.

(** The advisory returned by [_send_or_resend_otp]. *)
Inductive Warn := warn_cooldown | warn_resend_limit | warn_resent.

(** The texts sent to the user, one constructor per message of the
    source. *)
Inductive Reply :=
| blocked_notice
| email_taken
| email_invalid (err : Security.EmailError) (attempts_left : Z)
| email_lockout
| code_sent (warn : option Warn)
| expect_code
| code_not_found (email : option pystr)
| code_expired (email : option pystr)
| code_already_used
| code_wrong (attempts_left : Z)
| code_lockout
| auth_success
| resend_not_needed
| resend_done (ok : bool) (warn : option Warn)
| ask_new_email
| greet_register
| code_already_sent
| auth_go_profile
| continue_profile
| start_registration
| name_bad_length
| name_banned (word : pystr)
| ask_photos
| bio_too_long
| bio_banned (word : pystr)
| ask_bio
| ask_age
| age_invalid
| ask_interests
| interests_refused (err : Security.InterestsError)
| ask_name
| photos_complete
| photo_saved (count : nat)
| photo_skipped
| photos_taken
| not_at_photo_step
| offer_prefilled (name : pystr)
| profile_saved
| joined
| preview (u : User.t).

(** The actions a handler performs on its collaborators, in program
    order. *)
Inductive IO :=
| Flush (row : AuthAttempt.t)
| SendOtpEmail (to : option pystr) (code : pystr)
| Answer (r : Reply)
| CallbackAnswer (note : option Reply)
| AdminMessage (chat : Z) (user_id : Z) (reason : BlockReason)
    (type : AttemptType) (attempts : list pystr)
| SendMediaGroup (file_ids : list pystr).

(** How a handler ends: it returns, it raises [SkipHandler] so that the
    dispatcher tries the next router, or it dies on an uncaught exception
    (the session is then closed without a commit). *)
Inductive Handled := Done | SkipHandler | Uncaught.

(** ** The session monad *)

Record Session := { db : DB; trace : list IO }.

Definition M (A : Type) : Type := Session -> A * Session.

Definition ret {A} (a : A) : M A := fun s => (a, s).

Definition bind {A B} (m : M A) (k : A -> M B) : M B :=
  fun s => let (a, s') := m s in k a s'.

Notation "'do' x <- m ; k" := (bind m (fun x => k))
  (at level 10, x pattern, m at level 100, k at level 200).
Notation "'do_' m ; k" := (bind m (fun _ => k))
  (at level 10, m at level 100, k at level 200).

Definition get_db : M DB := fun s => (db s, s).

Definition put_db (d : DB) : M unit :=
  fun s => (tt, {| db := d; trace := trace s |}).

Definition emit (io : IO) : M unit :=
  fun s => (tt, {| db := db s; trace := trace s ++ [io] |}).

Definition answer (r : Reply) : M unit := emit (Answer r).

(** [session.commit()] seen from the ORM object [user]: its columns are
    written to the row stored under its [telegram_id]. *)
Definition commit (tg_id : Z) (user : User.t) : M unit :=
  do d <- get_db;
  put_db (with_users (<[tg_id := user]> (users d)) d).

(** [_user]: the row of [tg_id], created when missing. *)
Definition _user (env : Env) (tg_id : Z) : M User.t :=
  do d <- get_db;
  match users d !! tg_id with
  | Some user => ret user
  | None =>
      let user := User.create (next_user_id (users d)) None (db_now env) in
      do_ put_db (with_users (<[tg_id := user]> (users d)) d);
      ret user
  end.

(** [for x in l: f(x)] *)
Fixpoint for_each {A} (f : A -> M unit) (l : list A) : M unit :=
  match l with
  | [] => ret tt
  | x :: l' => do_ f x; for_each f l'
  end.

(** ** app/utils/email_sender.py *)

(** [send_otp_email]: the mail goes out, or [aiosmtplib.send] raises and
    the error is handed upwards ([None]). *)
Definition send_otp_email (env : Env) (to : option pystr) (code : pystr)
  : M (option unit) :=
  if smtp_delivers env then do_ emit (SendOtpEmail to code); ret (Some tt)
  else ret None.

(** ** app/handlers/registration.py *)

Module Registration.

(** [select(AuthAttempt).where(user_id, type).order_by(desc(ts))]: the
    rows of the account and category, the latest [ts] first; rows with the
    same [ts] come in the order of the engine. *)
Definition attempts_desc (env : Env) (d : DB) (user_id : Z)
    (typ : AttemptType) : list AuthAttempt.t :=
  order_by_desc AuthAttempt.ts
    (order_by_desc (fun a => engine_rank env (AuthAttempt.id a))
       (List.filter
          (fun a => bool_decide (AuthAttempt.user_id a = user_id
                                 /\ AuthAttempt.type a = typ))
          (auth_attempts d))).

(** [session.delete(old)] as the source writes it, without [await]:
    [AsyncSession.delete] is a coroutine function, so the call only makes
    a coroutine object, which is dropped; the session is not touched and
    no row is deleted. *)
Definition delete_not_awaited (old : AuthAttempt.t) : M unit := ret tt.

Definition _log_attempt (env : Env) (user_id : Z) (typ : AttemptType)
    (value : pystr) : M unit :=
  do d <- get_db;
  let row :=
    AuthAttempt.create (next_id AuthAttempt.id (auth_attempts d)) user_id
      typ value (db_now env) in
  let d := with_auth_attempts (auth_attempts d ++ [row]) d in
  do_ put_db d;
  do_ emit (Flush row);
  let rows := attempts_desc env d user_id typ in
  if Nat.ltb 3 (length rows) then for_each delete_not_awaited (skipn 3 rows)
  else ret tt.

Definition _last_attempts (env : Env) (user_id : Z) (typ : AttemptType)
    (limit : nat) : M (list AuthAttempt.t) :=
  do d <- get_db;
  ret (firstn limit (attempts_desc env d user_id typ)).

(** [existing.resend_count += 1; existing.last_sent_at = now] and
    [otp_row.used_at = now]: the row with that primary key is rewritten. *)
Definition update_otp (row : Otp.t) (d : DB) : DB :=
  with_otps
    (map (fun o => if bool_decide (Otp.id o = Otp.id row) then row else o)
       (otps d))
    d.

(** The newest unused code of the account. *)
Definition existing_otp (d : DB) (user_id : Z) : option Otp.t :=
  head (order_by_desc Otp.created_at
          (List.filter
             (fun o => bool_decide (Otp.user_id o = user_id
                                    /\ Otp.used_at o = None))
             (otps d))).

(** The newest code of the account, used or not. *)
Definition latest_otp (d : DB) (user_id : Z) : option Otp.t :=
  head (order_by_desc Otp.created_at
          (List.filter (fun o => bool_decide (Otp.user_id o = user_id))
             (otps d))).

Definition later (a : option datetime) (b : datetime) : bool :=
  match a with
  | Some t => b <? t
  | None => false
  end.

(** [_send_or_resend_otp]: [Some (ok, warn)] is the returned pair, [None]
    the exception of [send_otp_email], which is not caught here. *)
Definition _send_or_resend_otp (settings : Settings) (env : Env)
    (user : User.t) : M (option (bool * option Warn)) :=
  let now := now_utc env in
  do d <- get_db;
  let mint :=
    let code := generate_otp env in
    let session_id := uuid4_hex8 env in
    let expires := now + seconds (otp_ttl_seconds settings) in
    let otp :=
      {| Otp.id := next_id Otp.id (otps d);
         Otp.user_id := User.id user;
         Otp.code := code;
         Otp.session_id := session_id;
         Otp.resend_count := 0;
         Otp.last_sent_at := now;
         Otp.created_at := now;
         Otp.expires_at := expires;
         Otp.used_at := None |} in
    do_ put_db (with_otps (otps d ++ [otp]) d);
    do sent <- send_otp_email env (User.email user) code;
    match sent with
    | None => ret None
    | Some _ => ret (Some (true, None))
    end in
  match existing_otp d (User.id user) with
  | Some existing =>
      let ex_expires_at := ensure_aware_utc (Some (Otp.expires_at existing)) in
      let ex_last_sent_at :=
        ensure_aware_utc (Some (Otp.last_sent_at existing)) in
      if later ex_expires_at now then
        if later
             (option_map
                (fun t => t + seconds (otp_cooldown_seconds settings))
                ex_last_sent_at)
             now
        then ret (Some (true, Some warn_cooldown))
        else if resend_max_per_session settings <=? Otp.resend_count existing
        then ret (Some (true, Some warn_resend_limit))
        else
          do sent <- send_otp_email env (User.email user)
                       (Otp.code existing);
          match sent with
          | None => ret None
          | Some _ =>
              do_ put_db
                    (update_otp
                       (Otp.set_resend (Otp.resend_count existing + 1) now
                          existing)
                       d);
              ret (Some (true, Some warn_resent))
          end
      else mint
  | None => mint
  end.

(** Truthiness of [settings.admin_chat_id]. *)
Definition admin_chat (settings : Settings) : option Z :=
  match admin_chat_id settings with
  | Some c => if c =? 0 then None else Some c
  | None => None
  end.

Definition _notify_admin_on_block (settings : Settings) (env : Env)
    (tg_id : Z) (user : User.t) (reason : BlockReason) (typ : AttemptType)
  : M unit :=
  match admin_chat settings with
  | None => ret tt
  | Some chat =>
      do attempts <- _last_attempts env (User.id user) typ 3;
      let values := map AuthAttempt.value attempts in
      do d <- get_db;
      do_ put_db
            (with_admin_log
               (admin_log d ++
                [{| AdminLog.admin_telegram_id := 0;
                    AdminLog.user_id := User.id user;
                    AdminLog.reason := reason;
                    AdminLog.type := typ;
                    AdminLog.attempts := values;
                    AdminLog.ts := db_now env |}])
               d);
      do_ commit tg_id user;
      emit (AdminMessage chat (User.id user) reason typ values)
  end.

Definition email_stage (s : Stage) : bool :=
  match s with
  | stage_new | verifying_email | verifying_email_error => true
  | _ => false
  end.

Definition code_stage (s : Stage) : bool :=
  match s with
  | verifying_code | verifying_code_error => true
  | _ => false
  end.

(** [select(User).where(User.email == email,
    User.telegram_id != user.telegram_id)] returns a row. *)
Definition email_bound_elsewhere (d : DB) (email : pystr) (tg_id : Z)
  : bool :=
  existsb
    (fun kv : Z * User.t =>
       bool_decide (User.email kv.2 = Some email /\ kv.1 <> tg_id))
    (map_to_list (users d)).

(** The text handler of the registration.  When [send_otp_email] raises
    the handler dies before its commit. *)
Definition on_email_or_code (settings : Settings) (env : Env)
    (message : Message.t) : M Handled :=
  fun opened =>
  (let tg_id := Message.from_id message in
  do user <- _user env tg_id;
  if negb (email_stage (User.stage user) || code_stage (User.stage user))
  then do_ commit tg_id user; ret SkipHandler
  else
  let user := User.set_last_activity (now_utc env) user in
  let text := Py.strip (Message.text message) in
  if bool_decide (User.status user = blocked)
  then do_ commit tg_id user; do_ answer blocked_notice; ret Done
  else
  if email_stage (User.stage user) then
    let email := text in
    do_ _log_attempt env (User.id user) type_email email;
    do d <- get_db;
    if email_bound_elsewhere d email tg_id
    then do_ commit tg_id user; do_ answer email_taken; ret Done
    else
    match Security.validate_email email (email_regex settings)
            (allowed_domains settings) with
    | Some err =>
        let user :=
          User.set_email_attempts (User.email_attempts user + 1) user in
        let user := User.set_stage verifying_email user in
        if email_max_attempts settings <? User.email_attempts user then
          let user := User.set_status blocked user in
          let user := User.set_stage verifying_email_error user in
          do_ _notify_admin_on_block settings env tg_id user
                too_many_addresses type_email;
          do_ commit tg_id user;
          do_ answer email_lockout;
          ret Done
        else
          do_ commit tg_id user;
          do_ answer
                (email_invalid err
                   (email_max_attempts settings
                    - User.email_attempts user + 1));
          ret Done
    | None =>
        let user := User.set_email (Some email) user in
        let user := User.set_email_attempts 0 user in
        let user := User.set_stage verifying_code user in
        do sent <- _send_or_resend_otp settings env user;
        match sent with
        | None => do_ put_db (db opened); ret Uncaught
        | Some (ok, warn) =>
            do_ commit tg_id user;
            do_ answer (code_sent warn);
            ret Done
        end
    end
  else
    if (negb (Py.isdigit text)
        || negb (Nat.leb 4 (length text) && Nat.leb (length text) 8))%bool
    then do_ answer expect_code; do_ commit tg_id user; ret Done
    else
    let code := text in
    do_ _log_attempt env (User.id user) type_otp code;
    let now := now_utc env in
    do d <- get_db;
    match latest_otp d (User.id user) with
    | None =>
        do_ commit tg_id user;
        do_ answer (code_not_found (User.email user));
        ret Done
    | Some otp_row =>
        let exp := ensure_aware_utc (Some (Otp.expires_at otp_row)) in
        let used_at := ensure_aware_utc (Otp.used_at otp_row) in
        if negb (later exp now) then
          do_ commit tg_id user;
          do_ answer (code_expired (User.email user));
          ret Done
        else if bool_decide (used_at <> None) then
          do_ commit tg_id user;
          do_ answer code_already_used;
          ret Done
        else if bool_decide (code <> Otp.code otp_row) then
          let user :=
            User.set_otp_attempts (User.otp_attempts user + 1) user in
          let user := User.set_stage verifying_code user in
          if otp_max_attempts settings <? User.otp_attempts user then
            let user := User.set_status blocked user in
            let user := User.set_stage verifying_code_error user in
            do_ _notify_admin_on_block settings env tg_id user
                  too_many_codes type_otp;
            do_ commit tg_id user;
            do_ answer code_lockout;
            ret Done
          else
            do_ commit tg_id user;
            do_ answer
                  (code_wrong
                     (otp_max_attempts settings
                      - User.otp_attempts user + 1));
            ret Done
        else
          do_ put_db (update_otp (Otp.set_used_at (Some now) otp_row) d);
          let user := User.set_status active user in
          let user := User.set_stage authorized user in
          let user := User.set_email_attempts 0 user in
          let user := User.set_otp_attempts 0 user in
          do_ commit tg_id user;
          do_ answer auth_success;
          ret Done
    end) opened.

(** Callback ["otp:resend"].  When [send_otp_email] raises the handler
    dies before its commit. *)
Definition cb_otp_resend (settings : Settings) (env : Env) (from_id : Z)
  : M Handled :=
  fun opened =>
  (do user <- _user env from_id;
  let user := User.set_last_activity (now_utc env) user in
  if bool_decide (User.status user = blocked) then
    do_ commit from_id user;
    do_ answer blocked_notice;
    do_ emit (CallbackAnswer None);
    ret Done
  else if negb (code_stage (User.stage user)) then
    do_ commit from_id user;
    do_ emit (CallbackAnswer (Some resend_not_needed));
    ret Done
  else
    do sent <- _send_or_resend_otp settings env user;
    match sent with
    | None => do_ put_db (db opened); ret Uncaught
    | Some (ok, warn) =>
        do_ commit from_id user;
        do_ answer (resend_done ok warn);
        do_ emit (CallbackAnswer None);
        ret Done
    end) opened.

(** Callback ["otp:change_email"]. *)
Definition cb_change_email (settings : Settings) (env : Env) (from_id : Z)
  : M Handled :=
  do user <- _user env from_id;
  let user := User.set_last_activity (now_utc env) user in
  if bool_decide (User.status user = blocked) then
    do_ commit from_id user;
    do_ answer blocked_notice;
    do_ emit (CallbackAnswer None);
    ret Done
  else
    let user := User.set_stage verifying_email user in
    do_ commit from_id user;
    do_ answer ask_new_email;
    do_ emit (CallbackAnswer None);
    ret Done.

End Registration.

(** ** app/handlers/profile.py *)

Module Profile.

(** [(user.photos_json or {}).get("photos", [])] *)
Definition photos_of (user : User.t) : list Photo :=
  match User.photos_json user with
  | Some photos => photos
  | None => []
  end.

Definition _photos_count (user : User.t) : nat := length (photos_of user).

(** [_append_photo] on the object of the session. *)
Definition _append_photo (env : Env) (user : User.t) (fid : pystr)
  : User.t :=
  let photos := photos_of user in
  if Nat.leb 3 (length photos) then user
  else
    User.set_photos_json
      (Some (photos ++ [{| file_id := fid; photo_ts := now_utc env |}]))
      user.

(** [session.commit()] for an account that [_append_photo] has worked on.
    [_append_photo] appends to the list inside the loaded dict and then
    assigns a new dict around that same list; the unit of work compares
    the assigned value with the loaded one, finds them equal, and leaves
    the column out of the UPDATE.  So [photos_json] is written only when
    the account was loaded (or created) without one. *)
Definition commit_photos (tg_id : Z) (loaded user : User.t) : M unit :=
  commit tg_id
    match User.photos_json loaded with
    | None => user
    | Some photos => User.set_photos_json (Some photos) user
    end.

(** [_send_profile_preview_with_photos]: the album when there are photos,
    then the preview text. *)
Definition _send_profile_preview_with_photos (user : User.t) : M unit :=
  let file_ids :=
    List.filter Py.truthy (map file_id (photos_of user)) in
  match file_ids with
  | [] => answer (preview user)
  | _ :: _ =>
      do_ emit (SendMediaGroup (firstn 10 file_ids));
      answer (preview user)
  end.

Definition profile_step (s : Stage) : bool :=
  match s with
  | profile_name | profile_photo | profile_bio | profile_age
  | profile_interests | profile_review | profile_filled => true
  | _ => false
  end.

Definition text_step (s : Stage) : bool :=
  match s with
  | profile_name | profile_bio | profile_age | profile_interests => true
  | _ => false
  end.

(** Callback ["prof:start"]. *)
Definition cb_prof_start (settings : Settings) (env : Env) (from_id : Z)
  : M Handled :=
  do user <- _user env from_id;
  let user := User.set_last_activity (now_utc env) user in
  if bool_decide (User.status user = blocked) then
    do_ commit from_id user;
    do_ answer blocked_notice;
    do_ emit (CallbackAnswer None);
    ret Done
  else if negb (profile_step (User.stage user)) then
    let user := User.set_stage profile_name user in
    let ask :=
      do_ commit from_id user;
      do_ answer ask_name;
      do_ emit (CallbackAnswer None);
      ret Done in
    if bool_decide (User.origin user = Some origin_import) then
      match User.import_profile_name user with
      | Some prefilled =>
          if (Py.truthy prefilled
              && Nat.leb 2 (length prefilled)
              && Nat.leb (length prefilled) 100)%bool
          then
            match Security.contains_banned_words prefilled
                    (banned_words settings) with
            | None =>
                do_ commit from_id user;
                do_ answer (offer_prefilled prefilled);
                do_ emit (CallbackAnswer None);
                ret Done
            | Some _ => ask
            end
          else ask
      | None => ask
      end
    else ask
  else
    do_ commit from_id user;
    do_ match User.stage user with
        | profile_name => answer ask_name
        | profile_photo => answer ask_photos
        | profile_bio => answer ask_bio
        | profile_age => answer ask_age
        | profile_interests => answer ask_interests
        | profile_review => _send_profile_preview_with_photos user
        | profile_filled => answer (preview user)
        | _ => ret tt
        end;
    do_ emit (CallbackAnswer None);
    ret Done.

(** Callback ["prof:prefilled:keep"]. *)
Definition cb_prefilled_keep (settings : Settings) (env : Env) (from_id : Z)
  : M Handled :=
  do user <- _user env from_id;
  let user := User.set_stage profile_photo user in
  let user :=
    match User.import_profile_name user with
    | Some n => if Py.truthy n then User.set_name (Some n) user else user
    | None => user
    end in
  do_ commit from_id user;
  do_ answer ask_photos;
  do_ emit (CallbackAnswer None);
  ret Done.

(** Callback ["prof:prefilled:new"]. *)
Definition cb_prefilled_new (settings : Settings) (env : Env) (from_id : Z)
  : M Handled :=
  do user <- _user env from_id;
  let user := User.set_stage profile_name user in
  do_ commit from_id user;
  do_ answer ask_name;
  do_ emit (CallbackAnswer None);
  ret Done.

(** The text handler of the wizard. *)
Definition on_profile_text (settings : Settings) (env : Env)
    (message : Message.t) : M Handled :=
  fun opened =>
  (let tg_id := Message.from_id message in
   do user <- _user env tg_id;
   if negb (text_step (User.stage user))
   then do_ commit tg_id user; ret SkipHandler
   else
   let user := User.set_last_activity (now_utc env) user in
   let text := Py.strip (Message.text message) in
   if bool_decide (User.status user = blocked)
   then do_ commit tg_id user; do_ answer blocked_notice; ret Done
   else
   match User.stage user with
   | profile_name =>
       if negb (Nat.leb 2 (length text) && Nat.leb (length text) 100)
       then do_ answer name_bad_length; do_ commit tg_id user; ret Done
       else
       match Security.contains_banned_words text (banned_words settings) with
       | Some word =>
           do_ answer (name_banned word); do_ commit tg_id user; ret Done
       | None =>
           let user := User.set_name (Some text) user in
           let user := User.set_stage profile_photo user in
           do_ commit tg_id user;
           do_ answer ask_photos;
           ret Done
       end
   | profile_bio =>
       if Nat.ltb 500 (length text)
       then do_ answer bio_too_long; do_ commit tg_id user; ret Done
       else
       match Security.contains_banned_words text (banned_words settings) with
       | Some word =>
           do_ answer (bio_banned word); do_ commit tg_id user; ret Done
       | None =>
           let user := User.set_bio (Some text) user in
           let user := User.set_stage profile_age user in
           do_ commit tg_id user;
           do_ answer ask_age;
           ret Done
       end
   | profile_age =>
       if negb (Py.isdigit text)
       then do_ answer age_invalid; do_ commit tg_id user; ret Done
       else
       match Py.int text with
       | None => do_ put_db (db opened); ret Uncaught
       | Some age =>
           if negb ((18 <=? age) && (age <=? 50))
           then do_ answer age_invalid; do_ commit tg_id user; ret Done
           else
           let user := User.set_age (Some age) user in
           let user := User.set_stage profile_interests user in
           do_ commit tg_id user;
           do_ answer ask_interests;
           ret Done
       end
   | profile_interests =>
       match Security.normalize_interests text (banned_words settings) with
       | Security.Refused err =>
           do_ answer (interests_refused err);
           do_ commit tg_id user;
           ret Done
       | Security.Interests interests =>
           let user := User.set_interests_json (Some interests) user in
           let user := User.set_stage profile_review user in
           do_ commit tg_id user;
           do_ _send_profile_preview_with_photos user;
           ret Done
       end
   | _ => do_ put_db (db opened); ret Done
   end) opened.

(** [cb_photo_from_profile]'s loop over [photos.photos]; every entry is
    the list of sizes of one picture, the last one being the largest. *)
Fixpoint take_profile_photos (env : Env) (user : User.t) (count : nat)
    (photos : list (list pystr)) : User.t :=
  match photos with
  | [] => user
  | p :: rest =>
      match last p with
      | None => take_profile_photos env user count rest
      | Some fid =>
          let user := _append_photo env user fid in
          let count := S count in
          if Nat.leb 3 count then user
          else take_profile_photos env user count rest
      end
  end.

(** Callback ["prof:photo:from_profile"]; [photos] is the answer of
    [get_user_profile_photos(limit=3)]. *)
Definition cb_photo_from_profile (settings : Settings) (env : Env)
    (from_id : Z) (photos : list (list pystr)) : M Handled :=
  do user <- _user env from_id;
  let user := User.set_last_activity (now_utc env) user in
  if negb (bool_decide (User.stage user = profile_photo)) then
    do_ commit from_id user;
    do_ emit (CallbackAnswer (Some not_at_photo_step));
    ret Done
  else
    let loaded := user in
    let user := take_profile_photos env user 0 photos in
    let user := User.set_stage profile_bio user in
    do_ commit_photos from_id loaded user;
    do_ answer photos_taken;
    do_ emit (CallbackAnswer None);
    ret Done.

(** Callback ["prof:photo:skip"]. *)
Definition cb_photo_skip (settings : Settings) (env : Env) (from_id : Z)
  : M Handled :=
  do user <- _user env from_id;
  let user := User.set_last_activity (now_utc env) user in
  if negb (bool_decide (User.stage user = profile_photo)) then
    do_ commit from_id user;
    do_ emit (CallbackAnswer None);
    ret Done
  else
    let user := User.set_stage profile_bio user in
    do_ commit from_id user;
    do_ answer photo_skipped;
    do_ emit (CallbackAnswer None);
    ret Done.

(** A message carrying a photo; [fid] is [message.photo[-1].file_id]. *)
Definition on_photo (settings : Settings) (env : Env) (from_id : Z)
    (fid : pystr) : M Handled :=
  do user <- _user env from_id;
  let user := User.set_last_activity (now_utc env) user in
  if bool_decide (User.status user = blocked)
  then do_ commit from_id user; ret Done
  else if negb (bool_decide (User.stage user = profile_photo))
  then do_ commit from_id user; ret Done
  else
    let loaded := user in
    let user := _append_photo env user fid in
    if Nat.leb 3 (_photos_count user) then
      let user := User.set_stage profile_bio user in
      do_ commit_photos from_id loaded user;
      do_ answer photos_complete;
      ret Done
    else
      do_ commit_photos from_id loaded user;
      do_ answer (photo_saved (_photos_count user));
      ret Done.

(** Callback ["prof:save"]. *)
Definition cb_prof_save (settings : Settings) (env : Env) (from_id : Z)
  : M Handled :=
  do user <- _user env from_id;
  let user := User.set_stage profile_filled user in
  do_ commit from_id user;
  do_ answer profile_saved;
  do_ emit (CallbackAnswer None);
  ret Done.

(** Callback ["prof:edit:review"]. *)
Definition cb_prof_edit_review (settings : Settings) (env : Env)
    (from_id : Z) : M Handled :=
  do user <- _user env from_id;
  let user := User.set_stage profile_review user in
  do_ commit from_id user;
  do_ _send_profile_preview_with_photos user;
  do_ emit (CallbackAnswer None);
  ret Done.

(** Callback ["prof:edit:<field>"]; [field] is
    [cq.data.split(":", 2)[2]].  For a field name it does not know the
    handler changes nothing and commits nothing. *)
Definition cb_prof_edit_field (settings : Settings) (env : Env)
    (from_id : Z) (field : pystr) : M Handled :=
  fun opened =>
  (do user <- _user env from_id;
   let jump (stage : Stage) (ask : Reply) :=
     let user := User.set_stage stage user in
     do_ commit from_id user;
     do_ answer ask;
     do_ emit (CallbackAnswer None);
     ret Done in
   if bool_decide (field = str "name") then jump profile_name ask_name
   else if bool_decide (field = str "photo") then jump profile_photo ask_photos
   else if bool_decide (field = str "bio") then jump profile_bio ask_bio
   else if bool_decide (field = str "age") then jump profile_age ask_age
   else if bool_decide (field = str "interests")
   then jump profile_interests ask_interests
   else
     do_ put_db (db opened);
     do_ emit (CallbackAnswer None);
     ret Done) opened.

(** Callback ["prof:join"]. *)
Definition cb_prof_join : M Handled :=
  do_ answer joined;
  do_ emit (CallbackAnswer None);
  ret Done.

End Profile.

(** ** app/handlers/start.py *)

Module Start.

Definition _get_or_create_user (env : Env) (tg_id : Z)
    (username : option pystr) : M User.t :=
  do d <- get_db;
  match users d !! tg_id with
  | Some user =>
      match username with
      | Some n =>
          if (Py.truthy n && bool_decide (User.username user <> username))%bool
          then ret (User.set_username username user)
          else ret user
      | None => ret user
      end
  | None =>
      let user :=
        User.create (next_user_id (users d)) username (db_now env) in
      do_ put_db (with_users (<[tg_id := user]> (users d)) d);
      ret user
  end.

(** [/start] *)
Definition cmd_start (settings : Settings) (env : Env)
    (message : Message.t) : M Handled :=
  let tg_id := Message.from_id message in
  do user <- _get_or_create_user env tg_id (Message.from_username message);
  let user := User.set_last_activity (now_utc env) user in
  if bool_decide (User.status user = blocked)
  then do_ commit tg_id user; do_ answer blocked_notice; ret Done
  else
  match User.stage user with
  | stage_new | verifying_email | verifying_email_error =>
      let user := User.set_stage verifying_email user in
      do_ commit tg_id user;
      do_ answer greet_register;
      ret Done
  | verifying_code | verifying_code_error =>
      do_ commit tg_id user;
      do_ answer code_already_sent;
      ret Done
  | authorized =>
      do_ commit tg_id user;
      do_ answer auth_go_profile;
      ret Done
  | profile_filled =>
      let user := User.set_stage profile_filled user in
      do_ commit tg_id user;
      do_ Profile._send_profile_preview_with_photos user;
      ret Done
  | _ =>
      do_ commit tg_id user;
      do_ answer continue_profile;
      ret Done
  end.

End Start.

(** ** app/bot.py: the order of the routers *)

(** The events of one conversation that the user routers handle. *)
Inductive Event :=
| Text (message : Message.t)
| CommandStart (message : Message.t)
| PhotoMessage (from_id : Z) (fid : pystr)
| OtpResend (from_id : Z)
| OtpChangeEmail (from_id : Z)
| ProfStart (from_id : Z)
| ProfPrefilledKeep (from_id : Z)
| ProfPrefilledNew (from_id : Z)
| ProfPhotoFromProfile (from_id : Z) (photos : list (list pystr))
| ProfPhotoSkip (from_id : Z)
| ProfSave (from_id : Z)
| ProfEdit (from_id : Z) (field : pystr)
| ProfJoin (from_id : Z).

(** The filter [F.text & ~F.text.startswith("/")] of both text handlers. *)
Definition plain_text (message : Message.t) : bool :=
  (Py.truthy (Message.text message)
   && negb (Py.startswith (Message.text message) (str "/")))%bool.

(** A text that is not a command goes to the profile router first; when
    that handler raises [SkipHandler] the registration router is tried.
    [SkipHandler] as the final answer means that no handler took the
    event. *)
Definition dispatch_text (settings : Settings) (env : Env)
    (message : Message.t) : M Handled :=
  if negb (plain_text message) then ret SkipHandler
  else
    do r <- Profile.on_profile_text settings env message;
    match r with
    | SkipHandler => Registration.on_email_or_code settings env message
    | _ => ret r
    end.

Definition dispatch (settings : Settings) (env : Env) (ev : Event)
  : M Handled :=
  match ev with
  | Text message => dispatch_text settings env message
  | CommandStart message => Start.cmd_start settings env message
  | PhotoMessage from_id fid => Profile.on_photo settings env from_id fid
  | OtpResend from_id => Registration.cb_otp_resend settings env from_id
  | OtpChangeEmail from_id =>
      Registration.cb_change_email settings env from_id
  | ProfStart from_id => Profile.cb_prof_start settings env from_id
  | ProfPrefilledKeep from_id =>
      Profile.cb_prefilled_keep settings env from_id
  | ProfPrefilledNew from_id => Profile.cb_prefilled_new settings env from_id
  | ProfPhotoFromProfile from_id photos =>
      Profile.cb_photo_from_profile settings env from_id photos
  | ProfPhotoSkip from_id => Profile.cb_photo_skip settings env from_id
  | ProfSave from_id => Profile.cb_prof_save settings env from_id
  | ProfEdit from_id field =>
      if bool_decide (field = str "review")
      then Profile.cb_prof_edit_review settings env from_id
      else Profile.cb_prof_edit_field settings env from_id field
  | ProfJoin _ => Profile.cb_prof_join
  end.

(** One event handled in a fresh session on the store [d]: the store
    afterwards and what was emitted. *)
Definition handle (settings : Settings) (env : Env) (ev : Event) (d : DB)
  : Handled * Session :=
  dispatch settings env ev {| db := d; trace := [] |}.

(** The store after a sequence of events, each with its environment. *)
Fixpoint run (settings : Settings) (evs : list (Env * Event)) (d : DB)
  : DB :=
  match evs with
  | [] => d
  | (env, ev) :: rest =>
      run settings rest (db (handle settings env ev d).2)
  end.

(** ** [normalize_interests] as a function on lists of items

    The loops of [normalize_interests] written as operations on the list
    of items, in the terms of the code ([Security.is_sep], [Py.strip],
    [Py.lower], ...); the proofs about the function go through this
    form. *)

Module InterestsItems.

(** The pieces between separators. *)
Fixpoint pieces (s : pystr) : list pystr :=
  match s with
  | [] => [[]]
  | c :: s' =>
      if Security.is_sep c then [] :: pieces s'
      else
        match pieces s' with
        | p :: ps => (c :: p) :: ps
        | [] => [[c]]
        end
  end.

(** The stripped pieces that are not empty. *)
Definition items (raw : pystr) : list pystr :=
  List.filter Py.truthy (map Py.strip (pieces raw)).

(** Some configured word, stripped and lower-cased, is not empty and
    occurs in the lower-cased item. *)
Definition has_banned (banned_words : list pystr) (item : pystr) : bool :=
  existsb
    (fun w =>
       (Py.truthy (Py.lower (Py.strip w))
        && Py.contains (Py.lower item) (Py.lower (Py.strip w)))%bool)
    banned_words.

(** [1 <= len(it) <= 50] *)
Definition length_ok (item : pystr) : bool :=
  (Nat.leb 1 (length item) && Nat.leb (length item) 50)%bool.

Definition same_ci (x y : pystr) : bool :=
  bool_decide (Py.lower x = Py.lower y).

(** An item stays, and what follows it loses every item with the same
    lower-cased form. *)
Fixpoint dedup_ci (l : list pystr) : list pystr :=
  match l with
  | [] => []
  | x :: l' => x :: List.filter (fun y => negb (same_ci x y)) (dedup_ci l')
  end.

Definition normalize_interests_items (raw : pystr)
    (banned_words : list pystr) : Security.Normalized :=
  if negb (Py.truthy (Py.strip raw)) then Security.Interests []
  else if Nat.ltb 30 (length (items raw))
  then Security.Refused Security.TooManyValues
  else
    match
      List.find
        (fun it => (negb (length_ok it) || has_banned banned_words it)%bool)
        (items raw)
    with
    | Some it =>
        Security.Refused
          (if length_ok it then Security.BannedInterest it
           else Security.BadLength it)
    | None =>
        if Nat.ltb 300 (Py.sum_len (dedup_ci (items raw)))
        then Security.Refused Security.TotalTooLong
        else Security.Interests (dedup_ci (items raw))
    end.

(** A string is trimmed when neither end is a space. *)
Definition trimmed (s : pystr) : Prop :=
  Py.lstrip s = s /\ Py.lstrip (rev s) = rev s.

(** What may stand between two items when a list of interests is written
    back as one string: a separator character, with optional white space
    on either side (["," ], [", "], ["; "], a newline, ...). *)
Definition padding (w : pystr) : Prop :=
  Forall (fun c => Py.isspace c = true /\ Security.is_sep c = false) w.

Definition item_separator (sep : pystr) : Prop :=
  exists w1 c w2,
    sep = w1 ++ c :: w2 /\ Security.is_sep c = true
    /\ padding w1 /\ padding w2.

(** What every produced item looks like. *)
Definition well_formed_item (r : pystr) : Prop :=
  trimmed r /\ r <> [] /\ Forall (fun c => Security.is_sep c = false) r.

End InterestsItems.

(** ** The specification's reading of [normalize_interests]

    The function as the specification words it.  Nothing here refers to
    the embedding of the code but the type of the result: the separators,
    the white space, the letter cases, the occurrence of a word and the
    total length are spelled out afresh. *)

Module InterestsSpec.

(** "comma/semicolon/newline" *)
Definition separators : pystr := [","%char; ";"%char; "010"%char].

Definition separator (c : ascii) : bool := existsb (Ascii.eqb c) separators.

(** "split on": the text is cut at every separator. *)
Fixpoint split_on (s : pystr) : list pystr :=
  match s with
  | [] => [[]]
  | c :: s' =>
      if separator c then [] :: split_on s'
      else
        match split_on s' with
        | p :: ps => (c :: p) :: ps
        | [] => [[c]]
        end
  end.

(** White space, by code point: the controls TAB, LF, VT, FF, CR, the
    separators FS, GS, RS, US, the space, NEL and the no-break space. *)
Definition white_space : list nat :=
  [9; 10; 11; 12; 13; 28; 29; 30; 31; 32; 133; 160]%nat.

Definition white (c : ascii) : bool :=
  existsb (Nat.eqb (nat_of_ascii c)) white_space.

Fixpoint trim_left (s : pystr) : pystr :=
  match s with
  | c :: s' => if white c then trim_left s' else s
  | [] => []
  end.

(** "trimmed": without the white space at either end. *)
Definition trim (s : pystr) : pystr :=
  trim_left (rev (trim_left (rev s))).

Definition blank (s : pystr) : bool :=
  match s with [] => true | _ => false end.

(** "split on comma/semicolon/newline, each trimmed": a piece that is
    blank is no item. *)
Definition entries (raw : pystr) : list pystr :=
  List.filter (fun p => negb (blank p)) (map trim (split_on raw)).

(** The capital letters among the code points 0..255 and, in the same
    order, their small forms. *)
Definition capital_letters : pystr :=
  list_ascii_of_string "ABCDEFGHIJKLMNOPQRSTUVWXYZ"
  ++ map ascii_of_nat (seq 192 23 ++ seq 216 7).

Definition small_letters : pystr :=
  list_ascii_of_string "abcdefghijklmnopqrstuvwxyz"
  ++ map ascii_of_nat (seq 224 23 ++ seq 248 7).

Fixpoint small_of (c : ascii) (capitals smalls : pystr) : ascii :=
  match capitals, smalls with
  | C :: capitals', s :: smalls' =>
      if Ascii.eqb c C then s else small_of c capitals' smalls'
  | _, _ => c
  end.

(** "case-insensitive": texts are compared with every capital letter
    replaced by its small form. *)
Definition in_small (s : pystr) : pystr :=
  map (fun c => small_of c capital_letters small_letters) s.

Definition same_up_to_case (x y : pystr) : bool :=
  bool_decide (in_small x = in_small y).

(** "containing": the word stands at some position of the text. *)
Definition occurs_in (w s : pystr) : bool :=
  existsb (fun k => bool_decide (firstn (length w) (skipn k s) = w))
    (seq 0 (S (length s))).

(** "containing a banned word (case-insensitive)"; a configured word
    counts trimmed, and not when it is blank. *)
Definition has_banned_word (banned_words : list pystr) (item : pystr)
  : bool :=
  existsb
    (fun w =>
       (negb (blank (in_small (trim w)))
        && occurs_in (in_small (trim w)) (in_small item))%bool)
    banned_words.

(** "each item length 1-50" *)
Definition right_length (item : pystr) : bool :=
  (Nat.leb 1 (length item) && Nat.leb (length item) 50)%bool.

(** "case-insensitive dedup preserving first-seen order": an item stays,
    with its own casing, and no later item equal to it up to case does. *)
Fixpoint first_occurrences (l : list pystr) : list pystr :=
  match l with
  | [] => []
  | x :: l' =>
      x :: List.filter (fun y => negb (same_up_to_case x y))
             (first_occurrences l')
  end.

(** "summed character length" *)
Definition total_length (l : list pystr) : nat := length (concat l).

(** The whole: empty input gives the empty list; more than 30 items are
    refused; then the first item of a wrong length or with a banned word;
    then a final list of more than 300 characters. *)
Definition normalize_interests_spec (raw : pystr)
    (banned_words : list pystr) : Security.Normalized :=
  if blank (trim raw) then Security.Interests []
  else if Nat.ltb 30 (length (entries raw))
  then Security.Refused Security.TooManyValues
  else
    match
      List.find
        (fun it =>
           (negb (right_length it) || has_banned_word banned_words it)%bool)
        (entries raw)
    with
    | Some it =>
        Security.Refused
          (if right_length it then Security.BannedInterest it
           else Security.BadLength it)
    | None =>
        if Nat.ltb 300 (total_length (first_occurrences (entries raw)))
        then Security.Refused Security.TotalTooLong
        else Security.Interests (first_occurrences (entries raw))
    end.

End InterestsSpec.

(** ** Vocabulary of the statements *)

(** A session opened on the store [d], nothing emitted yet. *)
Definition opened (d : DB) : Session := {| db := d; trace := [] |}.

(** The gate of the code branch: [text.isdigit()] and
    [4 <= len(text) <= 8]. *)
Definition well_formed_code (text : pystr) : bool :=
  (Py.isdigit text
   && (Nat.leb 4 (length text) && Nat.leb (length text) 8))%bool.





(** The ledger rows of one account and category. *)
Definition ledger_of (d : DB) (user_id : Z) (typ : AttemptType)
  : list AuthAttempt.t :=
  List.filter
    (fun a => bool_decide (AuthAttempt.user_id a = user_id
                           /\ AuthAttempt.type a = typ))
    (auth_attempts d).


Definition is_flush (io : IO) : bool :=
  match io with Flush _ => true | _ => false end.

Definition is_answer (io : IO) : bool :=
  match io with Answer _ => true | _ => false end.

Definition is_auth_success (io : IO) : bool :=
  match io with Answer auth_success => true | _ => false end.

(** Who sent an event. *)
Definition sender (ev : Event) : Z :=
  match ev with
  | Text m | CommandStart m => Message.from_id m
  | PhotoMessage f _ | OtpResend f | OtpChangeEmail f | ProfStart f
  | ProfPrefilledKeep f | ProfPrefilledNew f | ProfPhotoFromProfile f _
  | ProfPhotoSkip f | ProfSave f | ProfEdit f _ | ProfJoin f => f
  end.

(** The code consumed by an event: when the event is answered with the
    success message, the key of the code that was checked, which is the
    newest code of the sender's account. *)
Definition verified (settings : Settings) (env : Env) (ev : Event) (d : DB)
  : option Z :=
  if existsb is_auth_success (trace (handle settings env ev d).2) then
    match users d !! sender ev with
    | Some user =>
        option_map Otp.id (Registration.latest_otp d (User.id user))
    | None => None
    end
  else None.

(** The codes consumed along a sequence of events, in order. *)
Fixpoint verifications (settings : Settings) (evs : list (Env * Event))
    (d : DB) : list Z :=
  match evs with
  | [] => []
  | (env, ev) :: rest =>
      match verified settings env ev d with
      | Some i => [i]
      | None => []
      end ++ verifications settings rest (db (handle settings env ev d).2)
  end.

(** The code with key [i] is spent: it is stored and [used_at] is set on
    every row that carries the key. *)
Definition spent (d : DB) (i : Z) : Prop :=
  (exists o, In o (otps d) /\ Otp.id o = i)
  /\ forall o, In o (otps d) -> Otp.id o = i -> Otp.used_at o <> None.

(** What one event may do to the table of codes: nothing, mint one code
    under a fresh key, or rewrite the rows that carry the key of a stored
    unused code [ex]. *)
Definition codes_step (d d' : DB) : Prop :=
  otps d' = otps d
  \/ (exists new,
        otps d' = otps d ++ [new]
        /\ Otp.id new = next_id Otp.id (otps d)
        /\ Otp.used_at new = None)
  \/ (exists ex ex',
        In ex (otps d) /\ Otp.used_at ex = None
        /\ Otp.id ex' = Otp.id ex
        /\ otps d' = otps (Registration.update_otp ex' d)).

(** A handler that neither touches the codes nor answers with the success
    message, whatever the store it starts from. *)
Definition leaves_codes (m : M Handled) : Prop :=
  forall d r s',
    m (opened d) = (r, s') ->
    otps (db s') = otps d /\ existsb is_auth_success (trace s') = false.

(** The collection stage of a field of the review keyboard. *)
Definition collection_stage (field : pystr) : option Stage :=
  if bool_decide (field = str "name") then Some profile_name
  else if bool_decide (field = str "photo") then Some profile_photo
  else if bool_decide (field = str "bio") then Some profile_bio
  else if bool_decide (field = str "age") then Some profile_age
  else if bool_decide (field = str "interests") then Some profile_interests
  else None.

(** The counter, limit, frozen stage and reason of a category. *)
Definition attempts_of (typ : AttemptType) (user : User.t) : Z :=
  match typ with
  | type_email => User.email_attempts user
  | type_otp => User.otp_attempts user
  end.

Definition max_attempts (settings : Settings) (typ : AttemptType) : Z :=
  match typ with
  | type_email => email_max_attempts settings
  | type_otp => otp_max_attempts settings
  end.

Definition error_stage (typ : AttemptType) : Stage :=
  match typ with
  | type_email => verifying_email_error
  | type_otp => verifying_code_error
  end.

Definition reason_of (typ : AttemptType) : BlockReason :=
  match typ with
  | type_email => too_many_addresses
  | type_otp => too_many_codes
  end.

(** A submission that the handler counts as a failure of the category:
    an address in an e-mail stage that nobody else holds and that
    [validate_email] refuses; a well-formed code in a code stage that
    differs from the newest code of the account, this code being neither
    expired nor used. *)
Definition counted_failure (settings : Settings) (env : Env) (d : DB)
    (tg_id : Z) (user : User.t) (text : pystr) (typ : AttemptType) : Prop :=
  match typ with
  | type_email =>
      Registration.email_stage (User.stage user) = true
      /\ Registration.email_bound_elsewhere d text tg_id = false
      /\ Security.validate_email text (email_regex settings)
           (allowed_domains settings) <> None
  | type_otp =>
      Registration.code_stage (User.stage user) = true
      /\ well_formed_code text = true
      /\ exists otp_row,
           Registration.latest_otp d (User.id user) = Some otp_row
           /\ now_utc env < Otp.expires_at otp_row
           /\ Otp.used_at otp_row = None
           /\ text <> Otp.code otp_row
  end.






(** The events with which a field of the profile is filled in: a text, a
    photo, and the two buttons of the photo step. *)
Definition fills_in (ev : Event) : bool :=
  match ev with
  | Text _ | PhotoMessage _ _ | ProfPhotoFromProfile _ _ | ProfPhotoSkip _ =>
      true
  | _ => false
  end.

(** The collection stages before the last one. *)
Definition before_interests (s : Stage) : bool :=
  match s with
  | profile_name | profile_photo | profile_bio | profile_age => true
  | _ => false
  end.


(** The sequence of the wizard. *)
Definition next_stage (s : Stage) : Stage :=
  match s with
  | profile_name => profile_photo
  | profile_photo => profile_bio
  | profile_bio => profile_age
  | profile_age => profile_interests
  | profile_interests => profile_review
  | profile_review => profile_filled
  | _ => s
  end.

(** A text that the wizard accepts for the field collected at [s]. *)
Definition completes (settings : Settings) (s : Stage) (text : pystr)
  : Prop :=
  match s with
  | profile_name =>
      (2 <= length text <= 100)%nat
      /\ Security.contains_banned_words text (banned_words settings) = None
  | profile_bio =>
      (length text <= 500)%nat
      /\ Security.contains_banned_words text (banned_words settings) = None
  | profile_age =>
      Py.isdigit text = true
      /\ exists age, Py.int text = Some age /\ 18 <= age <= 50
  | profile_interests =>
      exists l,
        Security.normalize_interests text (banned_words settings)
        = Security.Interests l
  | _ => False
  end.

(** ** Sample data: the defaults of [Settings.load] and a small store *)

Module Sample.

Definition alnum (c : ascii) : bool :=
  let n := Py.ord c in
  (Py.between 48 57 n || Py.between 65 90 n || Py.between 97 122 n)%bool.

Definition alpha (c : ascii) : bool :=
  let n := Py.ord c in (Py.between 65 90 n || Py.between 97 122 n)%bool.

Definition one_of (chars : string) (c : ascii) : bool :=
  existsb (Ascii.eqb c) (list_ascii_of_string chars).

(** [s] cut at its first ["@"]. *)
Fixpoint cut_at (s : pystr) : option (pystr * pystr) :=
  match s with
  | [] => None
  | c :: s' =>
      if Nat.eqb (Py.ord c) 64 then Some ([], s')
      else
        match cut_at s' with
        | Some (l, r) => Some (c :: l, r)
        | None => None
        end
  end.

(** [s] cut at its last ["."]. *)
Fixpoint cut_last_dot (s : pystr) : option (pystr * pystr) :=
  match s with
  | [] => None
  | c :: s' =>
      match cut_last_dot s' with
      | Some (l, r) => Some (c :: l, r)
      | None => if Nat.eqb (Py.ord c) 46 then Some ([], s') else None
      end
  end.

(** The default [EMAIL_REGEX],
    [^[A-Za-z0-9._%+\-]+@[A-Za-z0-9.\-]+\.[A-Za-z]{2,}$], as the predicate
    [re.match] decides; [$] also matches before a final newline. *)
Definition default_email_regex (s : pystr) : bool :=
  let s :=
    match rev s with
    | c :: r => if Nat.eqb (Py.ord c) 10 then rev r else s
    | [] => s
    end in
  match cut_at s with
  | Some (loc, rest) =>
      match cut_last_dot rest with
      | Some (dom, tld) =>
          (Py.truthy loc
           && forallb (fun c => alnum c || one_of "._%+-" c) loc
           && Py.truthy dom
           && forallb (fun c => alnum c || one_of ".-" c) dom
           && Nat.leb 2 (length tld) && forallb alpha tld)%bool
      | None => false
      end
  | None => false
  end.

(** [Settings.load()] with nothing but the limits' defaults. *)
Definition defaults : Settings :=
  {| admin_chat_id := None;
     email_regex := default_email_regex;
     allowed_domains := [];
     otp_ttl_seconds := 120;
     otp_cooldown_seconds := 120;
     resend_max_per_session := 3;
     email_max_attempts := 3;
     otp_max_attempts := 3;
     banned_words := [] |}.

(** The same with an admin chat, one allowed domain and one banned word. *)
Definition corp : Settings :=
  {| admin_chat_id := Some (-1001);
     email_regex := default_email_regex;
     allowed_domains := [str "corp.com"];
     otp_ttl_seconds := 120;
     otp_cooldown_seconds := 120;
     resend_max_per_session := 3;
     email_max_attempts := 3;
     otp_max_attempts := 3;
     banned_words := [str "rust"] |}.

(** The environment at second [t]: both clocks read [t], tied rows come
    newest key first, and the mail is delivered. *)
Definition at_second (t : Z) : Env :=
  {| now_utc := seconds t;
     db_now := seconds t;
     engine_rank := fun key => key;
     generate_otp := str "424242";
     uuid4_hex8 := str "0a1b2c3d";
     smtp_delivers := true |}.

(** The same with the mail server down. *)
Definition smtp_down (t : Z) : Env :=
  {| now_utc := seconds t;
     db_now := seconds t;
     engine_rank := fun key => key;
     generate_otp := str "424242";
     uuid4_hex8 := str "0a1b2c3d";
     smtp_delivers := false |}.

Definition says (tg_id : Z) (text : string) : Message.t :=
  {| Message.from_id := tg_id;
     Message.from_username := None;
     Message.full_name := str "Ann";
     Message.text := str text |}.

(** An account with key [id], verified address [mail] if any, at [stage]
    with [status], and the two counters. *)
Definition account (id : Z) (mail : option pystr) (st : Status)
    (sg : Stage) (email_attempts otp_attempts : Z) : User.t :=
  {| User.id := id; User.username := None; User.status := st;
     User.stage := sg; User.email := mail;
     User.email_attempts := email_attempts;
     User.otp_attempts := otp_attempts; User.name := None;
     User.photos_json := None; User.bio := None; User.age := None;
     User.interests_json := None; User.origin := Some origin_self;
     User.import_profile_name := None; User.last_activity := 0 |}.

(** A code of account [user_id], minted and last sent at second [t]. *)
Definition code_row (id user_id : Z) (code : string) (t : Z)
    (used : option datetime) : Otp.t :=
  {| Otp.id := id; Otp.user_id := user_id; Otp.code := str code;
     Otp.session_id := str "00000000"; Otp.resend_count := 0;
     Otp.last_sent_at := seconds t; Otp.created_at := seconds t;
     Otp.expires_at := seconds (t + 120); Otp.used_at := used |}.

Definition store (accounts : list (Z * User.t)) (codes : list Otp.t) : DB :=
  {| users := list_to_map accounts; otps := codes; auth_attempts := [];
     admin_log := [] |}.

(** Account 7 waits for its code ["123456"], minted at second 100. *)
Definition waiting (otp_attempts : Z) (used : option datetime) : DB :=
  store
    [(7, account 1 (Some (str "a@corp.com")) status_new verifying_code 0
           otp_attempts)]
    [code_row 1 1 "123456" 100 used].

(** Two accounts: 7 is entering its address, 8 holds ["a@corp.com"]. *)
Definition two_accounts (st : Status) (sg : Stage) : DB :=
  store
    [(7, account 1 None st sg 0 0);
     (8, account 2 (Some (str "a@corp.com")) active authorized 0 0)]
    [].

End Sample.

(** ** Python built-ins used by the admin panel and the keyboards *)

Module Builtins.

(** [s.split(sep)] for a separator of one character. *)
Fixpoint split (sep : ascii) (s : pystr) : list pystr :=
  match s with
  | [] => [[]]
  | c :: s' =>
      if Ascii.eqb c sep then [] :: split sep s'
      else
        match split sep s' with
        | p :: ps => (c :: p) :: ps
        | [] => [[c]]
        end
  end.

(** The white space that [int] skips at both ends of its argument: TAB..CR
    and SPACE, and the two Latin-1 spaces NEL and NBSP, which it first
    turns into SPACE.  (FS..US are white space for [str.strip] but not
    for [int].) *)
Definition int_space (c : ascii) : bool :=
  let n := Py.ord c in
  (Py.between 9 13 n || Nat.eqb n 32 || Nat.eqb n 133 || Nat.eqb n 160)%bool.

Fixpoint lskip (s : pystr) : pystr :=
  match s with
  | c :: s' => if int_space c then lskip s' else s
  | [] => []
  end.

(** The digits of an [int] literal: decimal digits, single underscores
    allowed between two digits.  [after_digit] says that the previous
    character was a digit. *)
Fixpoint int_digits (acc : Z) (after_digit : bool) (s : pystr) : option Z :=
  match s with
  | [] => if after_digit then Some acc else None
  | c :: s' =>
      if Py.between 48 57 (Py.ord c)
      then int_digits (10 * acc + Z.of_nat (Py.ord c - 48)) true s'
      else if Nat.eqb (Py.ord c) 95
      then if after_digit then int_digits acc false s' else None
      else None
  end.

(** [int(s)] in base ten; [None] is [ValueError].  (The limit that recent
    versions of CPython put on the number of digits, 4300, is out of reach
    of callback data, which has at most 64 bytes.) *)
Definition int (s : pystr) : option Z :=
  match lskip (rev (lskip (rev s))) with
  | [] => None
  | c :: s' =>
      if Nat.eqb (Py.ord c) 43 then int_digits 0 false s'
      else if Nat.eqb (Py.ord c) 45
      then option_map Z.opp (int_digits 0 false s')
      else int_digits 0 false (c :: s')
  end.

Fixpoint digits (u : Decimal.uint) : pystr :=
  match u with
  | Decimal.Nil => []
  | Decimal.D0 u => "0"%char :: digits u
  | Decimal.D1 u => "1"%char :: digits u
  | Decimal.D2 u => "2"%char :: digits u
  | Decimal.D3 u => "3"%char :: digits u
  | Decimal.D4 u => "4"%char :: digits u
  | Decimal.D5 u => "5"%char :: digits u
  | Decimal.D6 u => "6"%char :: digits u
  | Decimal.D7 u => "7"%char :: digits u
  | Decimal.D8 u => "8"%char :: digits u
  | Decimal.D9 u => "9"%char :: digits u
  end.

(** [str(n)] for an integer: its decimal digits, ["-"] first when it is
    negative. *)
Definition str_of_int (n : Z) : pystr :=
  match Z.to_int n with
  | Decimal.Pos u => digits u
  | Decimal.Neg u => "-"%char :: digits u
  end.

End Builtins.

(** ** app/config.py: reading a list from the environment *)

Module Config.

(** The separators of [re.split(r"[,\s]+", raw)]: the comma and what
    [\s] matches in a [str] pattern, which is what [str.isspace]
    accepts. *)
Definition list_sep (c : ascii) : bool :=
  (Nat.eqb (Py.ord c) 44 || Py.isspace c)%bool.

(** [re.split(r"[,\s]+", s)]: [s] is cut at every maximal run of
    separators.  [in_run] says that the previous character was a
    separator, [cur] is the piece being read, reversed. *)
Fixpoint re_split_from (in_run : bool) (cur : pystr) (s : pystr)
  : list pystr :=
  match s with
  | [] => [rev cur]
  | c :: s' =>
      if list_sep c then
        if in_run then re_split_from true cur s'
        else rev cur :: re_split_from true [] s'
      else re_split_from false (c :: cur) s'
  end.

Definition re_split (s : pystr) : list pystr := re_split_from false [] s.

(** [_parse_list].  [json_loads raw] stands for the attempt
    [json.loads(raw)]: [Some data] when it returns a list, [data] being
    [str(x)] for every element [x] of it; [None] when it raises or
    returns something else. *)
Definition _parse_list (json_loads : pystr -> option (list pystr))
    (raw : pystr) : list pystr :=
  if negb (Py.truthy raw) then []
  else
    let raw := Py.strip raw in
    let parts := re_split raw in
    let csv :=
      map Py.strip (List.filter (fun x => Py.truthy (Py.strip x)) parts) in
    if Py.startswith raw (str "[") then
      match json_loads raw with
      | Some data =>
          map Py.strip (List.filter (fun x => Py.truthy (Py.strip x)) data)
      | None => csv
      end
    else csv.

End Config.

(** ** app/keyboards.py *)

(** A keyboard as the rows of the [callback_data] of its buttons. *)
Module Keyboards.

Definition kb_auth_code_wait : list (list pystr) :=
  [[str "otp:resend"]; [str "otp:change_email"]].

Definition kb_start_authorized : list (list pystr) :=
  [[str "prof:start"]].

Definition kb_profile_filled : list (list pystr) :=
  [[str "prof:edit:review"]; [str "prof:join"]].

Definition kb_profile_photo : list (list pystr) :=
  [[str "prof:photo:from_profile"]; [str "prof:photo:skip"]].

Definition kb_prefilled_data : list (list pystr) :=
  [[str "prof:prefilled:keep"]; [str "prof:prefilled:new"]].

Definition kb_profile_review : list (list pystr) :=
  [[str "prof:save"];
   [str "prof:edit:name"; str "prof:edit:photo"];
   [str "prof:edit:bio"; str "prof:edit:age"];
   [str "prof:edit:interests"]].

Definition kb_admin_decision (user_id : Z) : list (list pystr) :=
  [[str "admin:block:" ++ Builtins.str_of_int user_id;
    str "admin:unblock:" ++ Builtins.str_of_int user_id]].

End Keyboards.

(** ** app/handlers/admin.py *)

Module Admin.

(** A row of [roles]. *)
Module Role.
Record t := { id : Z; name : pystr }.
End Role.

(** A row of [user_roles]. *)
Module UserRole.
Record t := { id : Z; user_id : Z; role_id : Z }.
End UserRole.

(** The actions that the panel writes to [admin_log]; the payload of each
    is [{"user_id": …}]. *)
Inductive Action := open_admin | block | unblock.

#[global] Instance Action_eq_dec : EqDecision Action.
Proof. solve_decision. Defined.

Module PanelLog.
Record t := {
  admin_telegram_id : Z;
  action : Action;
  user_id : Z;
  ts : datetime
}.
End PanelLog.

(** The store seen by a session of the panel: the tables of the user
    flows, the two tables of the roles, and the rows of [admin_log] that
    the panel writes (those of the registration flow are in
    [admin_log base]). *)
Record Store := {
  base : DB;
  roles : list Role.t;
  user_roles : list UserRole.t;
  panel_log : list PanelLog.t
}.

Definition with_base (v : DB) (s : Store) : Store :=
  {| base := v; roles := roles s; user_roles := user_roles s;
     panel_log := panel_log s |}.

Definition with_roles (v : list Role.t) (s : Store) : Store :=
  {| base := base s; roles := v; user_roles := user_roles s;
     panel_log := panel_log s |}.

Definition with_user_roles (v : list UserRole.t) (s : Store) : Store :=
  {| base := base s; roles := roles s; user_roles := v;
     panel_log := panel_log s |}.

Definition with_panel_log (v : list PanelLog.t) (s : Store) : Store :=
  {| base := base s; roles := roles s; user_roles := user_roles s;
     panel_log := v |}.

(** [Result.scalar_one_or_none()]: no row, one row, or
    [MultipleResultsFound]. *)
Inductive Scalar (A : Type) := NoRow | OneRow (a : A) | ManyRows.
Arguments NoRow {A}.
Arguments OneRow {A} a.
Arguments ManyRows {A}.

Definition scalar_one_or_none {A} (rows : list A) : Scalar A :=
  match rows with
  | [] => NoRow
  | [a] => OneRow a
  | _ :: _ :: _ => ManyRows
  end.

(** [User(telegram_id=…, username=…, status="new", stage="new")] of this
    module: no [origin] is given; [last_activity] is the server default
    [now()], the reading [now] of the database's clock. *)
Definition new_user (new_id : Z) (uname : option pystr) (now : datetime)
  : User.t :=
  {| User.id := new_id; User.username := uname; User.status := status_new;
     User.stage := stage_new; User.email := None; User.email_attempts := 0;
     User.otp_attempts := 0; User.name := None; User.photos_json := None;
     User.bio := None; User.age := None; User.interests_json := None;
     User.origin := None; User.import_profile_name := None;
     User.last_activity := now |}.

(** [_get_user] *)
Definition _get_user (s : Store) (tg_id : Z) : option User.t :=
  users (base s) !! tg_id.

(** [select(Role).where(Role.name == "admin")] *)
Definition admin_roles (s : Store) : list Role.t :=
  List.filter (fun r => bool_decide (Role.name r = str "admin")) (roles s).

(** [select(UserRole).where(UserRole.user_id == user_id,
    UserRole.role_id == role_id)] *)
Definition links (s : Store) (user_id role_id : Z) : list UserRole.t :=
  List.filter
    (fun l => bool_decide (UserRole.user_id l = user_id
                           /\ UserRole.role_id l = role_id))
    (user_roles s).

(** [select(Role).join(UserRole, UserRole.role_id == Role.id)
    .where(UserRole.user_id == user_id, Role.name == "admin")]: one row
    for every pair of a role and a link that match. *)
Definition admin_grants (s : Store) (user_id : Z) : list Role.t :=
  flat_map
    (fun r => map (fun _ => r) (links s user_id (Role.id r)))
    (admin_roles s).

(** The synchronisation of the role with [ADMIN_IDS]: the role ["admin"]
    and the link of the account to it are added when missing.  [None] is
    [MultipleResultsFound]. *)
Definition sync_role (user : User.t) (s : Store) : option Store :=
  match
    match scalar_one_or_none (admin_roles s) with
    | ManyRows => None
    | OneRow role => Some (role, s)
    | NoRow =>
        let role :=
          {| Role.id := next_id Role.id (roles s);
             Role.name := str "admin" |} in
        Some (role, with_roles (roles s ++ [role]) s)
    end
  with
  | None => None
  | Some (role, s) =>
      match scalar_one_or_none (links s (User.id user) (Role.id role)) with
      | ManyRows => None
      | OneRow _ => Some s
      | NoRow =>
          Some
            (with_user_roles
               (user_roles s ++
                [{| UserRole.id := next_id UserRole.id (user_roles s);
                    UserRole.user_id := User.id user;
                    UserRole.role_id := Role.id role |}])
               s)
      end
  end.

(** [_is_admin]: the answer and the session afterwards; [None] is an
    exception raised by a query. *)
Definition _is_admin (admin_ids : gset Z) (env : Env) (tg_id : Z)
    (s : Store) : option (bool * Store) :=
  match
    match _get_user s tg_id with
    | Some user => Some (user, s)
    | None =>
        if bool_decide (tg_id ∈ admin_ids) then
          let user :=
            new_user (next_user_id (users (base s))) None (db_now env) in
          Some
            (user,
             with_base (with_users (<[tg_id := user]> (users (base s)))
                          (base s)) s)
        else None
    end
  with
  | None => Some (false, s)
  | Some (user, s) =>
      match
        if bool_decide (tg_id ∈ admin_ids) then sync_role user s else Some s
      with
      | None => None
      | Some s =>
          match scalar_one_or_none (admin_grants s (User.id user)) with
          | ManyRows => None
          | OneRow _ => Some (true, s)
          | NoRow => Some (false, s)
          end
      end
  end.

(** The texts of the panel. *)
Inductive Note := no_rights | no_rights_blocked | panel_opened
                | user_not_found.

(** What the panel does on its collaborators: answers to a message, the
    answer to a callback query, the decision appended to the request in
    the admin chat, the message to the account decided upon, the removal
    of the buttons. *)
Inductive IO :=
| Answer (note : Note)
| CallbackAnswer (note : option Note)
| EditDecision (action : Action) (username reviewed_by : pystr)
| Notify (telegram_id : Z) (action : Action)
| DropKeyboard.

(** [/admin] *)
Definition cmd_admin (admin_ids : gset Z) (env : Env) (message : Message.t)
    (s : Store) : Handled * Store * list IO :=
  let from_id := Message.from_id message in
  match
    match _get_user s from_id with
    | Some user => Some (user, s)
    | None =>
        if bool_decide (from_id ∈ admin_ids) then
          let user :=
            new_user (next_user_id (users (base s)))
              (Message.from_username message) (db_now env) in
          Some
            (user,
             with_base (with_users (<[from_id := user]> (users (base s)))
                          (base s)) s)
        else None
    end
  with
  | None => (Done, s, [Answer no_rights])
  | Some (user, s1) =>
      if bool_decide (User.status user = blocked)
      then (Done, s, [Answer no_rights_blocked])
      else
        match _is_admin admin_ids env from_id s1 with
        | None => (Uncaught, s, [])
        | Some (false, _) => (Done, s, [Answer no_rights])
        | Some (true, s2) =>
            let user := User.set_last_activity (now_utc env) user in
            let s3 :=
              with_panel_log
                (panel_log s2 ++
                 [{| PanelLog.admin_telegram_id := from_id;
                     PanelLog.action := open_admin;
                     PanelLog.user_id := User.id user;
                     PanelLog.ts := db_now env |}])
                (with_base
                   (with_users (<[from_id := user]> (users (base s2)))
                      (base s2)) s2) in
            (Done, s3, [Answer panel_opened])
        end
  end.

(** A callback query as the panel sees it: who pressed, the data of the
    button, and the text of the message that carries the button. *)
Module Callback.
Record t := {
  from_id : Z;
  from_username : option pystr;
  data : pystr;
  message_text : option pystr
}.
End Callback.

(** [select(User).where(User.id == target_id)] *)
Definition users_by_id (s : Store) (target_id : Z) : list (Z * User.t) :=
  List.filter (fun kv : Z * User.t => bool_decide (User.id kv.2 = target_id))
    (map_to_list (users (base s))).

(** What is sent once a decision is stored, for a query that carries its
    message.  The request is rewritten only
    when it has a text and the account has a handle (["@" + None] raises
    inside the [try]); the account is told when its [telegram_id] is not
    zero; the buttons go and the query is answered. *)
Definition announce (cq : Callback.t) (tg_id : Z) (user : User.t)
    (action : Action) : list IO :=
  let reviewed_by :=
    match Callback.from_username cq with
    | Some n =>
        if Py.truthy n then n
        else Builtins.str_of_int (Callback.from_id cq)
    | None => Builtins.str_of_int (Callback.from_id cq)
    end in
  match Callback.message_text cq, User.username user with
  | Some _, Some n => [EditDecision action n reviewed_by]
  | _, _ => []
  end
  ++ (if tg_id =? 0 then [] else [Notify tg_id action])
  ++ [DropKeyboard; CallbackAnswer None].

(** The catch-all callback handler of the admin router. *)
Definition admin_callbacks (admin_ids : gset Z) (env : Env)
    (cq : Callback.t) (s : Store) : Handled * Store * list IO :=
  let data := Callback.data cq in
  if negb (Py.startswith data (str "admin:block:")
           || Py.startswith data (str "admin:unblock:"))
  then (Done, s, [])
  else
    match _is_admin admin_ids env (Callback.from_id cq) s with
    | None => (Uncaught, s, [])
    | Some (false, _) => (Done, s, [CallbackAnswer (Some no_rights)])
    | Some (true, s1) =>
        match Builtins.split ":"%char data with
        | [_; action; user_id_str] =>
            match Builtins.int user_id_str with
            | None => (Uncaught, s, [])
            | Some target_id =>
                match scalar_one_or_none (users_by_id s1 target_id) with
                | ManyRows => (Uncaught, s, [])
                | NoRow => (Done, s, [CallbackAnswer (Some user_not_found)])
                | OneRow (tg_id, user) =>
                    let decide (action : Action) (user : User.t) :=
                      (Done,
                       with_panel_log
                         (panel_log s1 ++
                          [{| PanelLog.admin_telegram_id :=
                                Callback.from_id cq;
                              PanelLog.action := action;
                              PanelLog.user_id := User.id user;
                              PanelLog.ts := db_now env |}])
                         (with_base
                            (with_users
                               (<[tg_id := user]> (users (base s1)))
                               (base s1)) s1),
                       announce cq tg_id user action) in
                    if bool_decide (action = str "block")
                    then decide block (User.set_status blocked user)
                    else
                      decide unblock
                        (User.set_otp_attempts 0
                           (User.set_email_attempts 0
                              (User.set_stage verifying_email
                                 (User.set_status status_new user))))
                end
            end
        | _ => (Uncaught, s, [])
        end
    end.

End Admin.

(** ** app/bot.py: the callback handlers in the order of the routers *)

(** The event that a callback query with [data] is, for the handlers of
    the profile and registration routers, tried in the order in which they
    are registered; [None] when none of their filters matches, so that the
    query reaches the catch-all handler of the admin router.  [photos] is
    what Telegram would answer to [get_user_profile_photos]. *)
Definition callback_event (from_id : Z) (photos : list (list pystr))
    (data : pystr) : option Event :=
  if bool_decide (data = str "prof:start") then Some (ProfStart from_id)
  else if bool_decide (data = str "prof:prefilled:keep")
  then Some (ProfPrefilledKeep from_id)
  else if bool_decide (data = str "prof:prefilled:new")
  then Some (ProfPrefilledNew from_id)
  else if bool_decide (data = str "prof:photo:from_profile")
  then Some (ProfPhotoFromProfile from_id photos)
  else if bool_decide (data = str "prof:photo:skip")
  then Some (ProfPhotoSkip from_id)
  else if bool_decide (data = str "prof:save") then Some (ProfSave from_id)
  else if bool_decide (data = str "prof:edit:review")
  then Some (ProfEdit from_id (str "review"))
  else if Py.startswith data (str "prof:edit:")
  then Some (ProfEdit from_id (skipn 10 data))
  else if bool_decide (data = str "prof:join") then Some (ProfJoin from_id)
  else if bool_decide (data = str "otp:resend")
  then Some (OtpResend from_id)
  else if bool_decide (data = str "otp:change_email")
  then Some (OtpChangeEmail from_id)
  else None.

(** ** Vocabulary of the further properties *)

(** The code that [_send_or_resend_otp] mints for [user] on the store
    [d]. *)
Definition minted (settings : Settings) (env : Env) (d : DB) (user : User.t)
  : Otp.t :=
  {| Otp.id := next_id Otp.id (otps d);
     Otp.user_id := User.id user;
     Otp.code := generate_otp env;
     Otp.session_id := uuid4_hex8 env;
     Otp.resend_count := 0;
     Otp.last_sent_at := now_utc env;
     Otp.created_at := now_utc env;
     Otp.expires_at := now_utc env + seconds (otp_ttl_seconds settings);
     Otp.used_at := None |}.

(** What one event may do to the table of codes, in full: nothing; mint
    the code of [minted] for some account; send a live, unused code once
    more while it has resends left; mark a live, unused code as used. *)
Inductive codes_change (settings : Settings) (env : Env) (d d' : DB)
  : Prop :=
| codes_kept :
    otps d' = otps d -> codes_change settings env d d'
| code_minted (user : User.t) :
    otps d' = otps d ++ [minted settings env d user] ->
    codes_change settings env d d'
| code_resent (ex : Otp.t) :
    In ex (otps d) ->
    Otp.used_at ex = None ->
    now_utc env < Otp.expires_at ex ->
    Otp.resend_count ex < resend_max_per_session settings ->
    otps d'
    = otps (Registration.update_otp
              (Otp.set_resend (Otp.resend_count ex + 1) (now_utc env) ex) d) ->
    codes_change settings env d d'
| code_used (ex : Otp.t) :
    In ex (otps d) ->
    Otp.used_at ex = None ->
    now_utc env < Otp.expires_at ex ->
    otps d'
    = otps (Registration.update_otp
              (Otp.set_used_at (Some (now_utc env)) ex) d) ->
    codes_change settings env d d'.

(** One code at two moments: key, owner, value, session and the instants
    of minting and expiry are the same; [used_at], once set, stays as it
    is; the number of resends has not gone down. *)
Definition same_code (o o' : Otp.t) : Prop :=
  Otp.id o' = Otp.id o
  /\ Otp.user_id o' = Otp.user_id o
  /\ Otp.code o' = Otp.code o
  /\ Otp.session_id o' = Otp.session_id o
  /\ Otp.created_at o' = Otp.created_at o
  /\ Otp.expires_at o' = Otp.expires_at o
  /\ (Otp.used_at o <> None -> Otp.used_at o' = Otp.used_at o)
  /\ Otp.resend_count o <= Otp.resend_count o'.

(** A code within the configured limits: its resends do not exceed
    [resend_max_per_session] and it lives [otp_ttl_seconds]. *)
Definition within_limits (settings : Settings) (o : Otp.t) : Prop :=
  Otp.resend_count o <= resend_max_per_session settings
  /\ Otp.expires_at o = Otp.created_at o + seconds (otp_ttl_seconds settings).

(** What one event of the sender [tg] may do to the accounts: every other
    account is left as it is; the sender's account, when there is one, is
    still there with the same key, and blocked when it was blocked; when
    there is none, one may have been created, under a key that no account
    had.  An address that the sender's account holds afterwards is the one
    it held before or one that no other account holds. *)
Definition accounts_step (tg : Z) (d d' : DB) : Prop :=
  (forall k, k <> tg -> users d' !! k = users d !! k)
  /\ (forall user' e,
        users d' !! tg = Some user' -> User.email user' = Some e ->
        (exists user, users d !! tg = Some user /\ User.email user = Some e)
        \/ forall k u, k <> tg -> users d !! k = Some u ->
                       User.email u <> Some e)
  /\ match users d !! tg with
     | Some user =>
         exists user',
           users d' !! tg = Some user'
           /\ User.id user' = User.id user
           /\ (User.status user = blocked -> User.status user' = blocked)
     | None =>
         users d' !! tg = None
         \/ exists user',
              users d' !! tg = Some user'
              /\ User.id user' = next_user_id (users d)
     end.

(** The accounts have distinct keys. *)
Definition distinct_ids (d : DB) : Prop :=
  forall k1 k2 u1 u2,
    users d !! k1 = Some u1 -> users d !! k2 = Some u2 ->
    User.id u1 = User.id u2 -> k1 = k2.

(** No address is held by two accounts. *)
Definition distinct_emails (d : DB) : Prop :=
  forall k1 k2 u1 u2 e,
    users d !! k1 = Some u1 -> users d !! k2 = Some u2 ->
    User.email u1 = Some e -> User.email u2 = Some e -> k1 = k2.

(** How a handler got hold of the sender's account [user]: it is the
    stored one, possibly with the sender's handle, or it was created. *)
Definition fetched (tg : Z) (d d0 : DB) (user : User.t) : Prop :=
  match users d !! tg with
  | Some stored =>
      users d0 = users d
      /\ User.id user = User.id stored
      /\ User.status user = User.status stored
      /\ User.email user = User.email stored
  | None =>
      users d0 = <[tg := user]> (users d)
      /\ User.id user = next_user_id (users d)
      /\ User.email user = None
  end.

(** The role tables are consistent for the account with key [user_id]: at
    most one role is called ["admin"], and the account has at most one
    link to any role. *)
Definition roles_consistent (s : Admin.Store) (user_id : Z) : Prop :=
  (length (Admin.admin_roles s) <= 1)%nat
  /\ forall role_id, (length (Admin.links s user_id role_id) <= 1)%nat.

(** The key the account of [tg_id] has, or would get if it were created
    now. *)
Definition key_of (s : Admin.Store) (tg_id : Z) : Z :=
  match Admin._get_user s tg_id with
  | Some user => User.id user
  | None => next_user_id (users (Admin.base s))
  end.

(** The store once the decision [action] on the account of [tg_id], then
    stored as [user], has been committed by the admin [admin_tg]. *)
Definition decided (env : Env) (admin_tg : Z) (action : Admin.Action)
    (tg_id : Z) (user : User.t) (s : Admin.Store) : Admin.Store :=
  Admin.with_panel_log
    (Admin.panel_log s ++
     [{| Admin.PanelLog.admin_telegram_id := admin_tg;
         Admin.PanelLog.action := action;
         Admin.PanelLog.user_id := User.id user;
         Admin.PanelLog.ts := db_now env |}])
    (Admin.with_base
       (with_users (<[tg_id := user]> (users (Admin.base s)))
          (Admin.base s)) s).

(** The account as an unblocking leaves it. *)
Definition unblocked (user : User.t) : User.t :=
  User.set_otp_attempts 0
    (User.set_email_attempts 0
       (User.set_stage verifying_email (User.set_status status_new user))).

(** A separator written between the entries of a list in the environment:
    commas and white space, at least one character. *)
Definition list_separator (sep : pystr) : Prop :=
  sep <> [] /\ Forall (fun c => Config.list_sep c = true) sep.

(** An entry that [_parse_list] gives back as it is: not empty and free of
    commas and white space. *)
Definition plain_entry (x : pystr) : Prop :=
  x <> [] /\ Forall (fun c => Config.list_sep c = false) x.

(** A decimal digit, as [str(int)] writes them. *)
Definition decimal (c : ascii) : Prop := Py.between 48 57 (Py.ord c) = true.

(** ** Sample data of the further properties *)

Module Cases.

Import Sample.

(** [corp] with a cooldown of 30 seconds. *)
Definition brisk : Settings :=
  {| admin_chat_id := Some (-1001);
     email_regex := default_email_regex;
     allowed_domains := [str "corp.com"];
     otp_ttl_seconds := 120;
     otp_cooldown_seconds := 30;
     resend_max_per_session := 3;
     email_max_attempts := 3;
     otp_max_attempts := 3;
     banned_words := [str "rust"] |}.

(** The code ["123456"] of account 1, minted at second 100 and sent [n]
    more times since. *)
Definition sent_again (n : Z) : Otp.t :=
  {| Otp.id := 1; Otp.user_id := 1; Otp.code := str "123456";
     Otp.session_id := str "00000000"; Otp.resend_count := n;
     Otp.last_sent_at := seconds 100; Otp.created_at := seconds 100;
     Otp.expires_at := seconds 220; Otp.used_at := None |}.

(** Account 7 waits for that code. *)
Definition resent (n : Z) : DB :=
  store
    [(7, account 1 (Some (str "a@corp.com")) status_new verifying_code 0 0)]
    [sent_again n].

(** Account 7 alone, with [status] at [stage], and no code. *)
Definition alone (st : Status) (sg : Stage) : DB :=
  store [(7, account 1 (Some (str "a@corp.com")) st sg 0 0)] [].

(** Account 7 is asked for its address again while its code of second 100
    is live. *)
Definition changing : DB :=
  store
    [(7, account 1 (Some (str "a@corp.com")) status_new verifying_email 0 0)]
    [code_row 1 1 "123456" 100 None].

(** The superscript two, U+00B2. *)
Definition superscript_two : pystr := [Ascii.ascii_of_nat 178].

(** A text message of [tg_id] with the characters [text]. *)
Definition writes (tg_id : Z) (text : pystr) : Message.t :=
  {| Message.from_id := tg_id;
     Message.from_username := None;
     Message.full_name := str "Ann";
     Message.text := text |}.

(** The account with key 2 and the handle ["bob"], locked out after four
    wrong codes unless [status] says otherwise. *)
Definition bob (st : Status) : User.t :=
  {| User.id := 2; User.username := Some (str "bob"); User.status := st;
     User.stage := verifying_code_error;
     User.email := Some (str "b@corp.com"); User.email_attempts := 0;
     User.otp_attempts := 4; User.name := None; User.photos_json := None;
     User.bio := None; User.age := None; User.interests_json := None;
     User.origin := Some origin_self; User.import_profile_name := None;
     User.last_activity := 0 |}.

(** The store of the panel before any role exists: account 7 alone. *)
Definition bare : Admin.Store :=
  {| Admin.base := alone active authorized;
     Admin.roles := [];
     Admin.user_roles := [];
     Admin.panel_log := [] |}.

(** The store of the panel: the admin 7 holds the role, and [bob] is
    account 8. *)
Definition desk (st : Status) : Admin.Store :=
  {| Admin.base :=
       store
         [(7, account 1 (Some (str "a@corp.com")) active authorized 0 0);
          (8, bob st)]
         [];
     Admin.roles := [{| Admin.Role.id := 1; Admin.Role.name := str "admin" |}];
     Admin.user_roles :=
       [{| Admin.UserRole.id := 1; Admin.UserRole.user_id := 1;
           Admin.UserRole.role_id := 1 |}];
     Admin.panel_log := [] |}.

(** The button with [data] under a request in the admin chat, pressed by
    [from_id]. *)
Definition press (from_id : Z) (data : string) : Admin.Callback.t :=
  {| Admin.Callback.from_id := from_id;
     Admin.Callback.from_username := Some (str "ann");
     Admin.Callback.data := str data;
     Admin.Callback.message_text := Some (str "request") |}.

(** A list of the environment is no JSON. *)
Definition no_json (raw : pystr) : option (list pystr) := None.

End Cases.

(** * Properties *)

Example scenario_D_accept :
  Security.normalize_interests (str "go, Go, music") [str "rust"]
  = Security.Interests [str "go"; str "music"].
Proof. vm_compute. reflexivity. Qed.

Example scenario_D_reject :
  Security.normalize_interests (str "go, Go, rust,  , music") [str "rust"]
  = Security.Refused (Security.BannedInterest (str "rust")).
Proof. vm_compute. reflexivity. Qed.

(** ** Strings *)

Section StripFacts.

Import InterestsItems.

Lemma lstrip_idem (s : pystr) : Py.lstrip (Py.lstrip s) = Py.lstrip s.
Proof.
  induction s as [|c s IH]; simpl; [reflexivity|].
  destruct (Py.isspace c) eqn:E; [exact IH|].
  simpl. rewrite E. reflexivity.
Qed.

Lemma lstrip_stops (a b : pystr) (c : ascii) :
  Py.isspace c = false ->
  Py.lstrip (a ++ c :: b) = Py.lstrip a ++ c :: b.
Proof.
  intros Hc. induction a as [|x a IH]; simpl.
  - rewrite Hc. reflexivity.
  - destruct (Py.isspace x); [exact IH|reflexivity].
Qed.

Lemma lstrip_fixed_head (c : ascii) (s : pystr) :
  Py.lstrip (c :: s) = c :: s -> Py.isspace c = false.
Proof.
  simpl. destruct (Py.isspace c) eqn:E; [|reflexivity].
  intros H. exfalso.
  assert (Hlen : forall t, (length (Py.lstrip t) <= length t)%nat).
  { induction t as [|x t IHt]; simpl; [lia|].
    destruct (Py.isspace x); simpl; lia. }
  specialize (Hlen s). rewrite H in Hlen. simpl in Hlen. lia.
Qed.

Lemma rstrip_keeps_lstripped (s : pystr) :
  Py.lstrip s = s -> Py.lstrip (Py.rstrip s) = Py.rstrip s.
Proof.
  unfold Py.rstrip. destruct s as [|c s]; [reflexivity|].
  intros H. apply lstrip_fixed_head in H.
  simpl rev. rewrite (lstrip_stops (rev s) [] c H).
  rewrite rev_app_distr. simpl. rewrite H. reflexivity.
Qed.

Lemma strip_trimmed (s : pystr) : trimmed (Py.strip s).
Proof.
  unfold trimmed, Py.strip. split; [apply lstrip_idem|].
  set (t := Py.rstrip s).
  assert (Ht : Py.lstrip (rev t) = rev t).
  { unfold t, Py.rstrip. rewrite rev_involutive. apply lstrip_idem. }
  (* lstrip t is a suffix of t whose reverse still starts at rev t *)
  clearbody t. revert Ht.
  induction t as [|c t IH]; simpl; [reflexivity|].
  intros Ht. destruct (Py.isspace c) eqn:E; [|exact Ht].
  apply IH. remember (rev t) as rt eqn:Er.
  destruct rt as [|x r]; [reflexivity|].
  simpl in Ht.
  assert (Hx : Py.isspace x = false).
  { apply (lstrip_fixed_head x (r ++ [c])). exact Ht. }
  simpl. rewrite Hx. reflexivity.
Qed.

Lemma strip_of_trimmed (s : pystr) : trimmed s -> Py.strip s = s.
Proof.
  intros [H1 H2]. unfold Py.strip, Py.rstrip.
  rewrite H2, rev_involutive. exact H1.
Qed.

Lemma strip_idem (s : pystr) : Py.strip (Py.strip s) = Py.strip s.
Proof. apply strip_of_trimmed, strip_trimmed. Qed.

Lemma lstrip_Forall (P : ascii -> Prop) (s : pystr) :
  Forall P s -> Forall P (Py.lstrip s).
Proof.
  induction 1 as [|c s Hc Hs IH]; simpl; [constructor|].
  destruct (Py.isspace c); [exact IH|constructor; assumption].
Qed.

Lemma strip_Forall (P : ascii -> Prop) (s : pystr) :
  Forall P s -> Forall P (Py.strip s).
Proof.
  intros H. unfold Py.strip, Py.rstrip.
  apply lstrip_Forall, Forall_rev, lstrip_Forall, Forall_rev, H.
Qed.

End StripFacts.

(** ** [normalize_interests] against its list form and against the
    specification's reading *)

Section InterestsRefinement.

Import Security InterestsItems.

Lemma re_split_from_pieces (s cur : pystr) (in_run : bool) :
  (in_run = true -> cur = []) ->
  List.filter (fun p => Py.truthy (Py.strip p)) (re_split_from in_run cur s)
  = List.filter (fun p => Py.truthy (Py.strip p))
      match pieces s with
      | q :: qs => (rev cur ++ q) :: qs
      | [] => [rev cur]
      end.
Proof.
  revert cur in_run.
  induction s as [|c s IH]; intros cur in_run Hrun; simpl.
  - rewrite app_nil_r. reflexivity.
  - destruct (is_sep c) eqn:E.
    + rewrite app_nil_r.
      assert (Htail :
        List.filter (fun p => Py.truthy (Py.strip p))
          (re_split_from true [] s)
        = List.filter (fun p => Py.truthy (Py.strip p)) (pieces s)).
      { rewrite (IH [] true) by reflexivity.
        destruct (pieces s); reflexivity. }
      destruct in_run.
      * rewrite (Hrun eq_refl). simpl. exact Htail.
      * simpl. rewrite Htail. reflexivity.
    + rewrite (IH (c :: cur) false) by discriminate.
      destruct (pieces s) as [|p ps]; simpl.
      * reflexivity.
      * rewrite <- app_assoc. reflexivity.
Qed.

Lemma strip_filter_swap (l : list pystr) :
  map Py.strip (List.filter (fun p => Py.truthy (Py.strip p)) l)
  = List.filter Py.truthy (map Py.strip l).
Proof.
  induction l as [|p l IH]; simpl; [reflexivity|].
  destruct (Py.truthy (Py.strip p)); simpl; rewrite IH; reflexivity.
Qed.

(** The list comprehension of the source computes the items. *)
Lemma interests_are_items (raw : pystr) :
  map Py.strip
    (List.filter (fun p => Py.truthy (Py.strip p)) (re_split raw))
  = items raw.
Proof.
  unfold re_split, items.
  rewrite (re_split_from_pieces raw [] false) by discriminate.
  simpl. rewrite strip_filter_swap.
  destruct (pieces raw); reflexivity.
Qed.

Lemma banned_loop_has (low : pystr) (bw : list pystr) :
  match banned_loop low bw with Some _ => true | None => false end
  = existsb
      (fun w =>
         (Py.truthy (Py.lower (Py.strip w))
          && Py.contains low (Py.lower (Py.strip w)))%bool)
      bw.
Proof.
  induction bw as [|w bw IH]; simpl; [reflexivity|].
  destruct (Py.truthy (Py.lower (Py.strip w))
            && Py.contains low (Py.lower (Py.strip w)))%bool;
    [reflexivity|exact IH].
Qed.

Lemma check_loop_find (l bw : list pystr) :
  check_loop l bw
  = match
      List.find
        (fun it => (negb (length_ok it) || has_banned bw it)%bool) l
    with
    | Some it =>
        Some (if length_ok it then BannedInterest it else BadLength it)
    | None => None
    end.
Proof.
  induction l as [|it l IH]; [reflexivity|].
  cbn [check_loop List.find].
  change (Nat.leb 1 (length it) && Nat.leb (length it) 50)%bool
    with (length_ok it).
  destruct (length_ok it) eqn:El; cbn [negb orb].
  - pose proof (banned_loop_has (Py.lower it) bw) as Hb.
    unfold contains_banned_words, has_banned.
    destruct (banned_loop (Py.lower it) bw); rewrite <- Hb.
    + rewrite El. reflexivity.
    + exact IH.
  - rewrite El. reflexivity.
Qed.

Lemma filter_swap {A} (P Q : A -> bool) (l : list A) :
  List.filter P (List.filter Q l) = List.filter Q (List.filter P l).
Proof.
  induction l as [|a l IH]; simpl; [reflexivity|].
  destruct (P a) eqn:EP, (Q a) eqn:EQ; simpl; rewrite ?EP, ?EQ, IH;
    reflexivity.
Qed.

Lemma filter_both {A} (P Q : A -> bool) (l : list A) :
  List.filter P (List.filter Q l)
  = List.filter (fun a => (Q a && P a)%bool) l.
Proof.
  induction l as [|a l IH]; simpl; [reflexivity|].
  destruct (Q a) eqn:EQ; simpl; [destruct (P a)|]; rewrite IH; reflexivity.
Qed.

Lemma filter_dedup_ci (P : pystr -> bool) (l : list pystr) :
  (forall x y, Py.lower x = Py.lower y -> P x = P y) ->
  List.filter P (dedup_ci l) = dedup_ci (List.filter P l).
Proof.
  intros HP. induction l as [|x l IH]; simpl; [reflexivity|].
  destruct (P x) eqn:Ex; simpl.
  - rewrite <- IH. f_equal. apply filter_swap.
  - rewrite <- IH. clear IH.
    induction (dedup_ci l) as [|y r IHr]; simpl; [reflexivity|].
    unfold same_ci at 1. destruct (bool_decide_reflect (Py.lower x = Py.lower y))
      as [Heq|Hne]; simpl.
    + rewrite <- (HP x y Heq), Ex. exact IHr.
    + rewrite IHr. reflexivity.
Qed.

Lemma dedup_loop_spec (l : list pystr) (seen : gset pystr)
    (result : list pystr) :
  dedup_loop seen result l
  = result ++
    dedup_ci (List.filter (fun y => bool_decide (Py.lower y ∉ seen)) l).
Proof.
  revert seen result.
  induction l as [|it l IH]; intros seen result; simpl.
  - rewrite app_nil_r. reflexivity.
  - destruct (bool_decide_reflect (Py.lower it ∉ seen)) as [Hin|Hin]; simpl.
    + rewrite IH, <- app_assoc. simpl. do 2 f_equal.
      rewrite filter_dedup_ci.
      * f_equal. rewrite filter_both. apply filter_ext.
        intros y. unfold same_ci.
        rewrite <- bool_decide_not, <- bool_decide_and.
        apply bool_decide_ext.
        rewrite not_elem_of_union, not_elem_of_singleton.
        split; intros [? ?]; split; congruence.
      * intros x y Hxy. unfold same_ci. rewrite Hxy. reflexivity.
    + apply IH.
Qed.

Lemma dedup_loop_dedup_ci (l : list pystr) : dedup_loop ∅ [] l = dedup_ci l.
Proof.
  rewrite dedup_loop_spec. simpl. f_equal.
  induction l as [|x l IH]; simpl; [reflexivity|].
  rewrite bool_decide_true by apply not_elem_of_empty. f_equal. exact IH.
Qed.

(** [normalize_interests] in its list form. *)
Lemma normalize_interests_as_items (raw : pystr) (bw : list pystr) :
  normalize_interests raw bw = normalize_interests_items raw bw.
Proof.
  unfold normalize_interests, normalize_interests_items.
  destruct (negb (Py.truthy (Py.strip raw))); [reflexivity|].
  rewrite interests_are_items.
  destruct (Nat.ltb 30 (length (items raw))); [reflexivity|].
  rewrite check_loop_find.
  destruct (List.find _ (items raw)); [reflexivity|].
  rewrite dedup_loop_dedup_ci. reflexivity.
Qed.

Lemma separator_is_sep (c : ascii) : InterestsSpec.separator c = is_sep c.
Proof. destruct c as [[] [] [] [] [] [] [] []]; reflexivity. Qed.

Lemma white_isspace (c : ascii) : InterestsSpec.white c = Py.isspace c.
Proof. destruct c as [[] [] [] [] [] [] [] []]; reflexivity. Qed.

Lemma small_lower_char (c : ascii) :
  InterestsSpec.small_of c InterestsSpec.capital_letters
    InterestsSpec.small_letters
  = Py.lower_char c.
Proof. destruct c as [[] [] [] [] [] [] [] []]; reflexivity. Qed.

Lemma split_on_pieces (s : pystr) : InterestsSpec.split_on s = pieces s.
Proof.
  induction s as [|c s IH]; [reflexivity|].
  cbn [InterestsSpec.split_on pieces].
  rewrite separator_is_sep, IH. reflexivity.
Qed.

Lemma trim_left_lstrip (s : pystr) : InterestsSpec.trim_left s = Py.lstrip s.
Proof.
  induction s as [|c s IH]; [reflexivity|].
  cbn [InterestsSpec.trim_left Py.lstrip].
  rewrite white_isspace, IH. reflexivity.
Qed.

Lemma trim_strip (s : pystr) : InterestsSpec.trim s = Py.strip s.
Proof.
  unfold InterestsSpec.trim, Py.strip, Py.rstrip.
  rewrite !trim_left_lstrip. reflexivity.
Qed.

Lemma in_small_lower (s : pystr) : InterestsSpec.in_small s = Py.lower s.
Proof.
  unfold InterestsSpec.in_small, Py.lower.
  apply map_ext. exact small_lower_char.
Qed.

Lemma blank_truthy (s : pystr) : negb (InterestsSpec.blank s) = Py.truthy s.
Proof. destruct s; reflexivity. Qed.

Lemma startswith_firstn (w s : pystr) :
  Py.startswith s w = bool_decide (firstn (length w) s = w).
Proof.
  revert s. induction w as [|a w IH]; intros s.
  - destruct s; reflexivity.
  - destruct s as [|b s]; [reflexivity|].
    cbn [Py.startswith length firstn]. rewrite IH.
    destruct (Ascii.eqb_spec a b) as [->|Hne]; cbn [andb].
    + apply bool_decide_ext. split; [intros ->; reflexivity|].
      intros [= H]. exact H.
    + symmetry. apply bool_decide_eq_false. intros [= H _].
      apply Hne. symmetry. exact H.
Qed.

Lemma existsb_seq_S (f : nat -> bool) (start len : nat) :
  existsb f (seq (S start) len) = existsb (fun k => f (S k)) (seq start len).
Proof.
  revert start. induction len as [|len IH]; intros start; [reflexivity|].
  cbn [seq existsb]. rewrite IH. reflexivity.
Qed.

Lemma occurs_in_contains (w s : pystr) :
  InterestsSpec.occurs_in w s = Py.contains s w.
Proof.
  unfold InterestsSpec.occurs_in.
  induction s as [|c s IH].
  - cbn [length seq existsb skipn Py.contains].
    rewrite startswith_firstn. reflexivity.
  - change (seq 0 (S (length (c :: s))))
      with (0%nat :: seq 1 (S (length s))).
    cbn [existsb Py.contains]. rewrite existsb_seq_S.
    cbn [skipn]. rewrite IH, startswith_firstn. reflexivity.
Qed.

Lemma existsb_same {A} (f g : A -> bool) (l : list A) :
  (forall a, f a = g a) -> existsb f l = existsb g l.
Proof.
  intros H. induction l as [|a l IH]; [reflexivity|].
  cbn [existsb]. rewrite H, IH. reflexivity.
Qed.

Lemma find_same {A} (f g : A -> bool) (l : list A) :
  (forall a, f a = g a) -> List.find f l = List.find g l.
Proof.
  intros H. induction l as [|a l IH]; [reflexivity|].
  cbn [List.find]. rewrite H, IH. reflexivity.
Qed.

Lemma entries_items (raw : pystr) : InterestsSpec.entries raw = items raw.
Proof.
  unfold InterestsSpec.entries, items.
  rewrite split_on_pieces, (map_ext _ _ trim_strip).
  apply filter_ext. exact blank_truthy.
Qed.

Lemma has_banned_word_has_banned (bw : list pystr) (it : pystr) :
  InterestsSpec.has_banned_word bw it = has_banned bw it.
Proof.
  unfold InterestsSpec.has_banned_word, has_banned.
  apply existsb_same. intros w.
  rewrite trim_strip, !in_small_lower, blank_truthy, occurs_in_contains.
  reflexivity.
Qed.

Lemma first_occurrences_dedup_ci (l : list pystr) :
  InterestsSpec.first_occurrences l = dedup_ci l.
Proof.
  induction l as [|x l IH]; [reflexivity|].
  cbn [InterestsSpec.first_occurrences dedup_ci]. rewrite IH. f_equal.
  apply filter_ext. intros y.
  unfold InterestsSpec.same_up_to_case, same_ci.
  rewrite !in_small_lower. reflexivity.
Qed.

Lemma total_length_sum_len (l : list pystr) :
  InterestsSpec.total_length l = Py.sum_len l.
Proof.
  unfold InterestsSpec.total_length.
  induction l as [|x l IH]; [reflexivity|].
  cbn [concat Py.sum_len fold_right]. rewrite length_app, IH. reflexivity.
Qed.

(** C8. [normalize_interests] is the function the specification
    describes: the input is split on comma, semicolon and newline, every
    piece is trimmed (blank pieces are no items), more than 30 items are
    refused, the first item whose length is outside 1..50 or that contains
    a banned word (case-insensitively) is refused, the items are
    de-duplicated case-insensitively keeping first occurrences, with their
    casing, in order, a result of more than 300 characters in total is
    refused, and an input that is empty after trimming gives the empty
    list.  The right-hand side is written from these words only, with
    its own separators, white space, letter cases, occurrence test and
    total length. *)
Theorem normalize_interests_meets_spec (raw : pystr) (bw : list pystr) :
  normalize_interests raw bw = InterestsSpec.normalize_interests_spec raw bw.
Proof.
  rewrite normalize_interests_as_items.
  unfold normalize_interests_items, InterestsSpec.normalize_interests_spec.
  rewrite trim_strip, entries_items, <- blank_truthy, negb_involutive.
  destruct (InterestsSpec.blank (Py.strip raw)); [reflexivity|].
  destruct (Nat.ltb 30 (length (items raw))); [reflexivity|].
  rewrite (find_same
             (fun it =>
                (negb (InterestsSpec.right_length it)
                 || InterestsSpec.has_banned_word bw it)%bool)
             (fun it => (negb (length_ok it) || has_banned bw it)%bool))
    by (intros it; rewrite has_banned_word_has_banned; reflexivity).
  destruct (List.find _ (items raw)); [reflexivity|].
  rewrite first_occurrences_dedup_ci, total_length_sum_len. reflexivity.
Qed.

(** Scenario D of the specification, read off the specification's side of
    C8: with the banned word ["rust"], ["go, Go, rust,  , music"] is
    refused for its item ["rust"], and ["go, Go, music"] becomes
    [["go"; "music"]]. *)
Lemma normalize_interests_meets_spec_witness :
  normalize_interests (str "go, Go, rust,  , music") [str "rust"]
  = Refused (BannedInterest (str "rust"))
  /\ normalize_interests (str "go, Go, music") [str "rust"]
     = Interests [str "go"; str "music"].
Proof.
  rewrite !normalize_interests_meets_spec.
  split; vm_compute; reflexivity.
Defined.

End InterestsRefinement.

(** ** Idempotence of [normalize_interests] *)

Section InterestsIdempotence.

Import Security InterestsItems.

Lemma lstrip_padding (w s : pystr) :
  Forall (fun c => Py.isspace c = true) w -> Py.lstrip (w ++ s) = Py.lstrip s.
Proof.
  induction 1 as [|c w Hc _ IH]; simpl; [reflexivity|].
  rewrite Hc. exact IH.
Qed.

Lemma lstrip_head (c : ascii) (s : pystr) :
  Py.isspace c = false -> Py.lstrip (c :: s) = c :: s.
Proof. intros H. simpl. rewrite H. reflexivity. Qed.

Lemma trimmed_ends (r : pystr) :
  trimmed r -> r <> [] ->
  (exists c t, r = c :: t /\ Py.isspace c = false)
  /\ (exists c t, rev r = c :: t /\ Py.isspace c = false).
Proof.
  intros [H1 H2] Hne. split.
  - destruct r as [|c t]; [congruence|].
    exists c, t. split; [reflexivity|]. eapply lstrip_fixed_head, H1.
  - destruct (rev r) as [|c t] eqn:Er.
    + apply (f_equal (@rev ascii)) in Er. rewrite rev_involutive in Er.
      simpl in Er. congruence.
    + exists c, t. split; [reflexivity|]. eapply lstrip_fixed_head, H2.
Qed.

Lemma strip_padded (a r b : pystr) :
  trimmed r -> r <> [] ->
  Forall (fun c => Py.isspace c = true) a ->
  Forall (fun c => Py.isspace c = true) b ->
  Py.strip (a ++ r ++ b) = r.
Proof.
  intros Ht Hne Ha Hb.
  destruct (trimmed_ends r Ht Hne) as [_ (c & t & Er & Hc)].
  unfold Py.strip, Py.rstrip.
  rewrite !rev_app_distr, <- app_assoc.
  rewrite (lstrip_padding (rev b)) by (apply Forall_rev; exact Hb).
  rewrite Er. simpl app. rewrite (lstrip_head c _ Hc).
  change (c :: t ++ rev a) with ((c :: t) ++ rev a).
  rewrite <- Er, <- rev_app_distr, rev_involutive.
  rewrite (lstrip_padding a) by exact Ha.
  apply Ht.
Qed.

Lemma strip_nonempty (c : ascii) (s : pystr) :
  Py.isspace c = false -> Py.strip (c :: s) <> [].
Proof.
  intros Hc. unfold Py.strip, Py.rstrip. simpl rev.
  rewrite (lstrip_stops (rev s) [] c Hc), rev_app_distr. simpl.
  rewrite Hc. discriminate.
Qed.

Lemma pieces_no_sep (s : pystr) :
  Forall (fun c => is_sep c = false) s -> pieces s = [s].
Proof.
  induction 1 as [|c s Hc _ IH]; simpl; [reflexivity|].
  rewrite Hc, IH. reflexivity.
Qed.

Lemma pieces_cut (a b : pystr) (c : ascii) :
  Forall (fun c => is_sep c = false) a -> is_sep c = true ->
  pieces (a ++ c :: b) = a :: pieces b.
Proof.
  intros Ha Hc. induction Ha as [|x a Hx _ IH]; simpl.
  - rewrite Hc. reflexivity.
  - rewrite Hx, IH. reflexivity.
Qed.

Lemma pieces_clean (s : pystr) :
  Forall (Forall (fun c => is_sep c = false)) (pieces s).
Proof.
  induction s as [|c s IH]; simpl.
  - repeat constructor.
  - destruct (is_sep c) eqn:E.
    + constructor; [constructor|exact IH].
    + destruct (pieces s) as [|p ps]; [repeat constructor; exact E|].
      inversion IH; subst. constructor; [constructor|]; assumption.
Qed.

Lemma items_well_formed (raw : pystr) :
  Forall well_formed_item (items raw).
Proof.
  unfold items. apply List.Forall_forall. intros r Hr.
  apply filter_In in Hr. destruct Hr as [Hin Hne].
  apply in_map_iff in Hin. destruct Hin as (p & <- & Hp).
  repeat split.
  - apply strip_trimmed.
  - apply strip_trimmed.
  - intros E. rewrite E in Hne. discriminate.
  - apply strip_Forall.
    pose proof (pieces_clean raw) as Hc.
    rewrite List.Forall_forall in Hc. apply Hc, Hp.
Qed.

Lemma padding_space (w : pystr) :
  padding w -> Forall (fun c => Py.isspace c = true) w.
Proof.
  intros H. eapply List.Forall_impl; [|exact H]. intros c [Hc _]. exact Hc.
Qed.

Lemma padding_clean (w : pystr) :
  padding w -> Forall (fun c => is_sep c = false) w.
Proof.
  intros H. eapply List.Forall_impl; [|exact H]. intros c [_ Hc]. exact Hc.
Qed.

Lemma strip_pieces_join (sep : pystr) (rs : list pystr) (r w : pystr) :
  item_separator sep -> padding w ->
  Forall well_formed_item (r :: rs) ->
  map Py.strip (pieces (w ++ Py.join sep (r :: rs))) = r :: rs.
Proof.
  intros (w1 & c & w2 & -> & Hc & Hw1 & Hw2).
  revert r w. induction rs as [|r2 rs IH]; intros r w Hw Hall.
  - inversion Hall as [|? ? (Ht & Hne & Hclean) _]; subst. simpl Py.join.
    rewrite pieces_no_sep
      by (apply Forall_app; split; [apply padding_clean, Hw|exact Hclean]).
    simpl. f_equal.
    rewrite <- (app_nil_r r) at 1.
    apply strip_padded; auto using padding_space.
  - inversion Hall as [|? ? (Ht & Hne & Hclean) Hrest]; subst.
    change (Py.join (w1 ++ c :: w2) (r :: r2 :: rs))
      with (r ++ (w1 ++ c :: w2) ++ Py.join (w1 ++ c :: w2) (r2 :: rs)).
    replace (w ++ r ++ (w1 ++ c :: w2) ++ Py.join (w1 ++ c :: w2) (r2 :: rs))
      with ((w ++ r ++ w1) ++ c ::
            (w2 ++ Py.join (w1 ++ c :: w2) (r2 :: rs)))
      by (rewrite <- !app_assoc; simpl; reflexivity).
    rewrite pieces_cut; [|repeat (apply Forall_app; split);
                           auto using padding_clean|exact Hc].
    simpl map. f_equal.
    + apply strip_padded; auto using padding_space.
    + apply IH; assumption.
Qed.

Lemma filter_all {A} (P : A -> bool) (l : list A) :
  (forall x, In x l -> P x = true) -> List.filter P l = l.
Proof.
  induction l as [|a l IH]; intros H; simpl; [reflexivity|].
  rewrite (H a) by (left; reflexivity).
  f_equal. apply IH. intros x Hx. apply H. right. exact Hx.
Qed.

(** Writing well-formed items back with a separator and cutting the string
    again gives the same items. *)
Lemma items_join (sep : pystr) (rs : list pystr) :
  item_separator sep -> Forall well_formed_item rs ->
  items (Py.join sep rs) = rs.
Proof.
  intros Hsep Hall. unfold items.
  destruct rs as [|r rs]; [reflexivity|].
  change (Py.join sep (r :: rs)) with ([] ++ Py.join sep (r :: rs)).
  rewrite strip_pieces_join by (auto; constructor).
  apply filter_all. intros x Hx.
  rewrite List.Forall_forall in Hall. destruct (Hall x Hx) as (_ & Hne & _).
  destruct x; [congruence|reflexivity].
Qed.

Lemma dedup_ci_incl (l : list pystr) (x : pystr) :
  In x (dedup_ci l) -> In x l.
Proof.
  revert x. induction l as [|a l IH]; intros x; simpl; [tauto|].
  intros [->|H]; [left; reflexivity|].
  apply filter_In in H. right. apply IH, H.
Qed.

Lemma dedup_ci_length (l : list pystr) :
  (length (dedup_ci l) <= length l)%nat.
Proof.
  induction l as [|a l IH]; simpl; [lia|].
  pose proof (filter_length_le (fun y => negb (same_ci a y)) (dedup_ci l)).
  lia.
Qed.

Lemma NoDup_map_filter {A B} (f : A -> B) (P : A -> bool) (l : list A) :
  List.NoDup (map f l) -> List.NoDup (map f (List.filter P l)).
Proof.
  induction l as [|a l IH]; simpl; intros H; [exact H|].
  inversion H as [|? ? Hnotin Hnd]; subst.
  destruct (P a); simpl; [constructor|]; auto.
  intros Hin. apply Hnotin.
  apply in_map_iff in Hin. destruct Hin as (y & Hy & Hin).
  apply filter_In in Hin. apply in_map_iff. exists y. tauto.
Qed.

Lemma dedup_ci_NoDup (l : list pystr) :
  List.NoDup (map Py.lower (dedup_ci l)).
Proof.
  induction l as [|a l IH]; simpl; constructor.
  - intros Hin. apply in_map_iff in Hin. destruct Hin as (y & Hy & Hin).
    apply filter_In in Hin. destruct Hin as [_ Hne].
    unfold same_ci in Hne. rewrite bool_decide_true in Hne by congruence.
    discriminate.
  - apply NoDup_map_filter, IH.
Qed.

Lemma dedup_ci_fixed (l : list pystr) :
  List.NoDup (map Py.lower l) -> dedup_ci l = l.
Proof.
  induction l as [|a l IH]; simpl; intros H; [reflexivity|].
  inversion H as [|? ? Hnotin Hnd]; subst.
  rewrite (IH Hnd). f_equal. apply filter_all. intros y Hy.
  unfold same_ci. rewrite bool_decide_false; [reflexivity|].
  intros E. apply Hnotin. rewrite E. apply in_map, Hy.
Qed.

Lemma dedup_ci_idem (l : list pystr) : dedup_ci (dedup_ci l) = dedup_ci l.
Proof. apply dedup_ci_fixed, dedup_ci_NoDup. Qed.

Lemma find_none_sub {A} (P : A -> bool) (l m : list A) :
  (forall x, In x m -> In x l) -> List.find P l = None -> List.find P m = None.
Proof.
  intros Hsub Hl.
  destruct (List.find P m) as [x|] eqn:E; [|reflexivity].
  apply find_some in E. destruct E as [Hin Hx].
  rewrite (find_none P l Hl x (Hsub x Hin)) in Hx. discriminate.
Qed.

(** C9. [normalize_interests] is idempotent: when it succeeds on [raw]
    with the list [result], writing [result] back as one string, its items
    joined by a separator, and normalising that string under the same
    banned words succeeds with the same [result]. *)
Theorem normalize_interests_idempotent
    (raw sep : pystr) (bw : list pystr) (result : list pystr) :
  item_separator sep ->
  normalize_interests raw bw = Interests result ->
  normalize_interests (Py.join sep result) bw = Interests result.
Proof.
  intros Hsep. rewrite !normalize_interests_as_items.
  unfold normalize_interests_items.
  destruct (negb (Py.truthy (Py.strip raw))).
  { intros [= <-]. reflexivity. }
  destruct (Nat.ltb 30 (length (items raw))) eqn:Elen; [discriminate|].
  destruct (List.find _ (items raw)) eqn:Efind; [discriminate|].
  destruct (Nat.ltb 300 (Py.sum_len (dedup_ci (items raw)))) eqn:Esum;
    [discriminate|].
  intros [= <-].
  set (R := dedup_ci (items raw)) in *.
  assert (Hwf : Forall well_formed_item R).
  { apply List.Forall_forall. intros x Hx.
    pose proof (items_well_formed raw) as Hi.
    rewrite List.Forall_forall in Hi. apply Hi, dedup_ci_incl, Hx. }
  rewrite (items_join sep R Hsep Hwf).
  destruct R as [|r rs] eqn:ER; [reflexivity|].
  assert (Hne : Py.truthy (Py.strip (Py.join sep (r :: rs))) = true).
  { inversion Hwf as [|? ? (Ht & Hr & _) _]; subst.
    destruct (trimmed_ends r Ht Hr) as [(c & t & -> & Hc) _].
    assert (Hj : exists rest, Py.join sep ((c :: t) :: rs) = c :: rest).
    { destruct rs; simpl; eauto. }
    destruct Hj as (rest & ->).
    pose proof (strip_nonempty c rest Hc).
    destruct (Py.strip (c :: rest)); [congruence|reflexivity]. }
  rewrite Hne. simpl negb. cbv iota.
  rewrite <- ER in *.
  assert (Hlen : Nat.ltb 30 (length R) = false).
  { apply Nat.ltb_ge. apply Nat.ltb_ge in Elen.
    pose proof (dedup_ci_length (items raw)). unfold R. lia. }
  rewrite Hlen.
  rewrite (find_none_sub _ (items raw) R (dedup_ci_incl (items raw)) Efind).
  assert (Hid : dedup_ci R = R) by (unfold R; apply dedup_ci_idem).
  rewrite Hid, Esum. reflexivity.
Qed.

(** The instance of C9 for ["go, Go, music"] written back with [", "]. *)
Lemma normalize_interests_idempotent_witness :
  Security.normalize_interests
    (Py.join (str ", ") [str "go"; str "music"]) [str "rust"]
  = Security.Interests [str "go"; str "music"].
Proof.
  apply (normalize_interests_idempotent
           (str "go, Go, music") (str ", ") [str "rust"]).
  - exists [], ","%char, [" "%char].
    repeat split; repeat constructor.
  - vm_compute. reflexivity.
Defined.

End InterestsIdempotence.

(** ** Tables: ordering and fresh keys *)

Section Tables.

Context {A : Type} (key : A -> Z).

Lemma In_insert_desc (x a : A) (l : list A) :
  In a (insert_desc key x l) <-> a = x \/ In a l.
Proof.
  induction l as [|y l IH]; simpl.
  - intuition congruence.
  - destruct (key y <=? key x); simpl; [intuition congruence|].
    rewrite IH. intuition congruence.
Qed.

Lemma In_order_by_desc (a : A) (l : list A) :
  In a (order_by_desc key l) <-> In a l.
Proof.
  induction l as [|y l IH]; simpl; [tauto|].
  rewrite In_insert_desc, IH. intuition congruence.
Qed.

Lemma order_by_desc_newest (l : list A) (x : A) :
  (forall a, In a l -> key a < key x) ->
  order_by_desc key (l ++ [x]) = x :: order_by_desc key l.
Proof.
  induction l as [|y l IH]; intros H; simpl; [reflexivity|].
  rewrite IH by (intros a Ha; apply H; right; exact Ha).
  simpl. destruct (Z.leb_spec (key x) (key y)) as [Hle|_]; [|reflexivity].
  specialize (H y (or_introl eq_refl)). lia.
Qed.

Lemma next_id_above (l : list A) (a : A) :
  In a l -> key a < next_id key l.
Proof.
  unfold next_id. induction l as [|y l IH]; simpl; [tauto|].
  intros [->|H]; [lia|]. specialize (IH H). lia.
Qed.

End Tables.

Lemma In_skipn {A} (n : nat) (l : list A) (a : A) :
  In a (skipn n l) -> In a l.
Proof.
  revert l. induction n as [|n IH]; intros [|y l]; simpl; auto.
Qed.

Lemma In_firstn {A} (n : nat) (l : list A) (a : A) :
  In a (firstn n l) -> In a l.
Proof.
  revert l. induction n as [|n IH]; intros [|y l]; simpl; intuition.
Qed.

(** Reading a column of an account after assignments to its columns. *)
Ltac user_fields :=
  cbn [User.id User.username User.status User.stage User.email
       User.email_attempts User.otp_attempts User.name User.photos_json
       User.bio User.age User.interests_json User.origin
       User.import_profile_name User.last_activity
       User.set_username User.set_status User.set_stage User.set_email
       User.set_email_attempts User.set_otp_attempts User.set_name
       User.set_photos_json User.set_bio User.set_age
       User.set_interests_json User.set_last_activity].

(** ** The helpers of the registration flow *)

Section RegistrationHelpers.

Import Registration.

Lemma _user_found (env : Env) (tg_id : Z) (d : DB) (tr : list IO)
    (user : User.t) :
  users d !! tg_id = Some user ->
  _user env tg_id {| db := d; trace := tr |}
  = (user, {| db := d; trace := tr |}).
Proof.
  intros H. unfold _user, bind, get_db. simpl. rewrite H. reflexivity.
Qed.

Lemma code_stage_not_email (st : Stage) :
  code_stage st = true -> email_stage st = false.
Proof. destruct st; simpl; congruence. Qed.

(** The loop over the old rows changes nothing. *)
Lemma for_each_delete_not_awaited (olds : list AuthAttempt.t) (s : Session) :
  for_each delete_not_awaited olds s = (tt, s).
Proof.
  induction olds as [|old olds IH]; [reflexivity|].
  cbn [for_each]. unfold bind, delete_not_awaited, ret. exact IH.
Qed.

(** [_log_attempt] adds one row and tells the store; it touches nothing
    but the ledger, which keeps every row it had. *)
Lemma _log_attempt_run (env : Env) (user_id : Z) (typ : AttemptType)
    (value : pystr) (d : DB) (tr : list IO) :
  let row :=
    AuthAttempt.create (next_id AuthAttempt.id (auth_attempts d)) user_id
      typ value (db_now env) in
  exists ledger,
    _log_attempt env user_id typ value {| db := d; trace := tr |}
    = (tt, {| db := with_auth_attempts ledger d;
              trace := tr ++ [Flush row] |})
    /\ (forall a, In a ledger -> a = row \/ In a (auth_attempts d))
    /\ ledger = auth_attempts d ++ [row].
Proof.
  intros row. exists (auth_attempts d ++ [row]).
  split; [|split; [|reflexivity]].
  - unfold _log_attempt, bind, get_db, put_db, emit, ret.
    cbn [db trace]. fold row.
    destruct (Nat.ltb 3 _); [|reflexivity].
    rewrite for_each_delete_not_awaited. reflexivity.
  - intros a Ha. apply in_app_iff in Ha. simpl in Ha. intuition.
Qed.

Lemma _notify_admin_on_block_run (settings : Settings) (env : Env)
    (tg_id : Z) (user : User.t) (reason : BlockReason) (typ : AttemptType)
    (d : DB) (tr : list IO) :
  _notify_admin_on_block settings env tg_id user reason typ
    {| db := d; trace := tr |}
  = match admin_chat settings with
    | None => (tt, {| db := d; trace := tr |})
    | Some chat =>
        let values :=
          map AuthAttempt.value
            (firstn 3 (attempts_desc env d (User.id user) typ)) in
        (tt,
         {| db :=
              with_users (<[tg_id := user]> (users d))
                (with_admin_log
                   (admin_log d ++
                    [{| AdminLog.admin_telegram_id := 0;
                        AdminLog.user_id := User.id user;
                        AdminLog.reason := reason;
                        AdminLog.type := typ;
                        AdminLog.attempts := values;
                        AdminLog.ts := db_now env |}])
                   d);
            trace :=
              tr ++ [AdminMessage chat (User.id user) reason typ values] |})
    end.
Proof.
  unfold _notify_admin_on_block. destruct (admin_chat settings); reflexivity.
Qed.

(** [_send_or_resend_otp] either raises, the mail having failed, or
    reports [True]; it sends at most mails, leaves users, ledger and admin
    log alone, and either keeps the codes, mints one more, or rewrites the
    newest unused code. *)
Lemma _send_or_resend_otp_run (settings : Settings) (env : Env)
    (user : User.t) (d : DB) (tr : list IO) :
  (exists d',
     _send_or_resend_otp settings env user {| db := d; trace := tr |}
     = (None, {| db := d'; trace := tr |})
     /\ smtp_delivers env = false)
  \/ exists warn d' out,
       _send_or_resend_otp settings env user {| db := d; trace := tr |}
       = (Some (true, warn), {| db := d'; trace := tr ++ out |})
       /\ users d' = users d
       /\ auth_attempts d' = auth_attempts d
       /\ admin_log d' = admin_log d
       /\ forallb (fun io => negb (is_answer io || is_flush io)) out = true
       /\ (otps d' = otps d
           \/ (exists new,
                 otps d' = otps d ++ [new]
                 /\ Otp.id new = next_id Otp.id (otps d)
                 /\ Otp.used_at new = None)
           \/ (exists ex count sent,
                 existing_otp d (User.id user) = Some ex
                 /\ d' = update_otp (Otp.set_resend count sent ex) d)).
Proof.
  unfold _send_or_resend_otp, send_otp_email, bind, get_db, put_db, emit,
    ret.
  cbn [db trace].
  destruct (existing_otp d (User.id user)) as [ex|] eqn:Eex.
  - cbn [ensure_aware_utc option_map].
    destruct (later (Some (Otp.expires_at ex)) (now_utc env)).
    + destruct (later _ (now_utc env)).
      * right. exists (Some warn_cooldown), d, [].
        rewrite app_nil_r. repeat split; auto.
      * destruct (resend_max_per_session settings <=? Otp.resend_count ex).
        -- right. exists (Some warn_resend_limit), d, [].
           rewrite app_nil_r. repeat split; auto.
        -- destruct (smtp_delivers env) eqn:Hsmtp.
           ++ right. do 3 eexists. split; [reflexivity|].
              repeat split. right. right. eauto.
           ++ left. eexists. split; reflexivity.
    + destruct (smtp_delivers env) eqn:Hsmtp.
      * right. do 3 eexists. split; [reflexivity|].
        repeat split. right. left. eexists.
        repeat split; reflexivity.
      * left. eexists. split; reflexivity.
  - destruct (smtp_delivers env) eqn:Hsmtp.
    + right. do 3 eexists. split; [reflexivity|].
      repeat split. right. left. eexists.
      repeat split; reflexivity.
    + left. eexists. split; reflexivity.
Qed.

(** [_user] returns the stored account, or stores and returns a new one
    at stage [new]; codes, ledger and admin log are not touched. *)
Lemma _user_run (env : Env) (tg_id : Z) (d : DB) (tr : list IO) :
  exists user d0,
    _user env tg_id {| db := d; trace := tr |}
    = (user, {| db := d0; trace := tr |})
    /\ otps d0 = otps d
    /\ auth_attempts d0 = auth_attempts d
    /\ admin_log d0 = admin_log d
    /\ users d0 !! tg_id = Some user
    /\ ((users d !! tg_id = Some user /\ d0 = d)
        \/ (users d !! tg_id = None
            /\ User.stage user = stage_new
            /\ User.status user = status_new)).
Proof.
  unfold _user, bind, get_db, put_db, ret. cbn [db trace].
  destruct (users d !! tg_id) as [user|] eqn:E.
  - exists user, d. repeat split; auto.
  - do 2 eexists. split; [reflexivity|]. cbn.
    rewrite lookup_insert_eq. repeat split; auto.
Qed.

Lemma head_In {A} (l : list A) (a : A) : head l = Some a -> In a l.
Proof. destruct l; simpl; [discriminate|]. intros [= ->]. left. reflexivity. Qed.

Lemma latest_otp_In (d : DB) (user_id : Z) (o : Otp.t) :
  latest_otp d user_id = Some o -> In o (otps d).
Proof.
  unfold latest_otp. intros H. apply head_In in H.
  apply In_order_by_desc in H. apply filter_In in H. apply H.
Qed.

Lemma existing_otp_In (d : DB) (user_id : Z) (o : Otp.t) :
  existing_otp d user_id = Some o -> In o (otps d) /\ Otp.used_at o = None.
Proof.
  unfold existing_otp. intros H. apply head_In in H.
  apply In_order_by_desc in H. apply filter_In in H.
  destruct H as [Hin H]. apply bool_decide_eq_true in H. tauto.
Qed.

Lemma latest_otp_otps (d d' : DB) (user_id : Z) :
  otps d' = otps d -> latest_otp d' user_id = latest_otp d user_id.
Proof. intros H. unfold latest_otp. rewrite H. reflexivity. Qed.

Lemma codes_step_otps (d0 d d' : DB) :
  otps d0 = otps d -> codes_step d0 d' -> codes_step d d'.
Proof.
  intros H. unfold codes_step, update_otp. cbn [otps with_otps].
  rewrite H. tauto.
Qed.

Lemma email_bound_elsewhere_users (d d' : DB) (email : pystr) (tg_id : Z) :
  users d' = users d ->
  email_bound_elsewhere d' email tg_id = email_bound_elsewhere d email tg_id.
Proof. intros H. unfold email_bound_elsewhere. rewrite H. reflexivity. Qed.

End RegistrationHelpers.

(** ** The registration flow *)

Section RegistrationFlow.

Import Registration.

Variable settings : Settings.
Variable env : Env.
Variable message : Message.t.

#[local] Abbreviation tg_id := (Message.from_id message).
#[local] Abbreviation text := (Py.strip (Message.text message)).






(** C5 as amended. An account in an e-mail stage that sends an address
    bound to another account never has it counted, whatever
    [validate_email] would say about the address: the stored account keeps
    [email_attempts], [stage] and [status], and codes and admin log are
    untouched.  When the account is not blocked the answer is "already
    taken", sent after the ledger row has been flushed; a blocked account
    gets the blocked notice instead. *)
Theorem taken_email_not_counted (d : DB) (user : User.t) :
  users d !! tg_id = Some user ->
  email_stage (User.stage user) = true ->
  email_bound_elsewhere d text tg_id = true ->
  exists s' user',
    on_email_or_code settings env message (opened d) = (Done, s')
    /\ users (db s') = <[tg_id := user']> (users d)
    /\ User.email_attempts user' = User.email_attempts user
    /\ User.stage user' = User.stage user
    /\ User.status user' = User.status user
    /\ otps (db s') = otps d
    /\ admin_log (db s') = admin_log d
    /\ (User.status user <> blocked ->
        exists row, trace s' = [Flush row; Answer email_taken])
    /\ (User.status user = blocked -> trace s' = [Answer blocked_notice]).
Proof.
  intros Hu Hs Htaken.
  destruct (_log_attempt_run env (User.id user) type_email text d [])
    as (ledger & Hrun & _ & _).
  unfold on_email_or_code, opened. unfold bind at 1.
  rewrite (_user_found _ _ _ _ _ Hu).
  cbn [User.stage User.status User.set_last_activity User.id].
  rewrite Hs. cbn [orb negb].
  destruct (bool_decide_reflect (User.status user = blocked)) as [Hb|Hb].
  - do 2 eexists. split; [reflexivity|].
    cbn. repeat split; try reflexivity. intros H. contradiction.
  - unfold bind at 1. rewrite Hrun.
    unfold bind at 1, get_db at 1. cbn [db].
    rewrite (email_bound_elsewhere_users d) by reflexivity.
    rewrite Htaken.
    do 2 eexists. split; [reflexivity|].
    cbn. repeat split; try reflexivity.
    + intros _. eexists. reflexivity.
    + intros H. contradiction.
Qed.


(** The counter of a category is incremented by a submission only when the
    account is not blocked and the submission is a counted failure of that
    category. *)
Lemma counter_grows_only_by_counted_failure (d : DB) (user user' : User.t)
    (typ : AttemptType) (r : Handled) (s' : Session) :
  users d !! tg_id = Some user ->
  0 <= attempts_of typ user ->
  on_email_or_code settings env message (opened d) = (r, s') ->
  users (db s') !! tg_id = Some user' ->
  attempts_of typ user' = attempts_of typ user + 1 ->
  User.status user <> blocked
  /\ counted_failure settings env d tg_id user text typ.
Proof.
  intros Hu Hnn Hrun. revert user'.
  change s' with (r, s').2. rewrite <- Hrun. clear Hrun r s'.
  set (counted := User.status user <> blocked
                  /\ counted_failure settings env d tg_id user text typ).
  set (P := fun out : Handled * Session =>
    forall user', users (db out.2) !! tg_id = Some user' ->
                  attempts_of typ user' = attempts_of typ user + 1 ->
                  counted).
  change (P (on_email_or_code settings env message (opened d))).
  assert (Hsame : forall (d1 : DB) (tr : list IO) (u : User.t) (h : Handled),
    attempts_of typ u = attempts_of typ user \/ attempts_of typ u = 0 ->
    P (h, {| db := with_users (<[tg_id := u]> (users d1)) d1;
             trace := tr |})).
  { intros d1 tr u h Hattempts user' Hl Hinc.
    cbn [db users with_users snd] in Hl.
    rewrite lookup_insert_eq in Hl. injection Hl as <-.
    exfalso. lia. }
  assert (Hback : forall (tr : list IO) (h : Handled),
    P (h, {| db := d; trace := tr |})).
  { intros tr h user' Hl Hinc. cbn [db snd] in Hl.
    rewrite Hu in Hl. injection Hl as <-. exfalso. lia. }
  assert (Hdone : counted -> forall out, P out)
    by (intros H out user' _ _; exact H).
  unfold on_email_or_code, opened. unfold bind at 1.
  rewrite (_user_found _ _ _ _ _ Hu). user_fields.
  destruct (negb (email_stage (User.stage user)
                  || code_stage (User.stage user))) eqn:Hreg.
  { cbn [bind commit get_db put_db ret db trace].
    apply Hsame. left. reflexivity. }
  destruct (bool_decide_reflect (User.status user = blocked)) as [Hb|Hb].
  { cbn [bind commit get_db put_db ret db trace answer emit].
    apply Hsame. left. destruct typ; reflexivity. }
  destruct (email_stage (User.stage user)) eqn:Hs.
  - (* the e-mail branch *)
    destruct (_log_attempt_run env (User.id user) type_email text d [])
      as (ledger & Hlog & _ & _).
    cbn [app] in Hlog.
    unfold bind at 1. rewrite Hlog.
    unfold bind at 1, get_db at 1. cbn [db].
    rewrite (email_bound_elsewhere_users d) by reflexivity.
    destruct (email_bound_elsewhere d text tg_id) eqn:Hfree.
    { cbn [bind commit get_db put_db ret db trace answer emit].
      apply Hsame. left. destruct typ; reflexivity. }
    destruct (Security.validate_email text _ _) as [err|] eqn:Hbad.
    + assert (Hcounted : typ = type_email -> counted).
      { intros ->. split; [exact Hb|]. cbn [counted_failure].
        rewrite Hbad. repeat split; auto; discriminate. }
      user_fields.
      destruct (email_max_attempts settings <? _).
      * unfold bind at 1. rewrite _notify_admin_on_block_run.
        destruct (admin_chat settings);
          cbn [bind commit get_db put_db ret db trace answer emit];
          (destruct typ;
           [apply Hdone, Hcounted; reflexivity
           |apply Hsame; left; reflexivity]).
      * cbn [bind commit get_db put_db ret db trace answer emit].
        destruct typ;
          [apply Hdone, Hcounted; reflexivity
          |apply Hsame; left; reflexivity].
    + unfold bind at 1.
      match goal with
      | |- context [_send_or_resend_otp settings env ?u ?s] =>
          destruct (_send_or_resend_otp_run settings env u
                      (with_auth_attempts ledger d)
                      [Flush (AuthAttempt.create
                                (next_id AuthAttempt.id (auth_attempts d))
                                (User.id user) type_email text
                                (db_now env))])
            as [(d' & Hsend & _)|(warn & d' & out & Hsend & _)]
      end; rewrite Hsend.
      * cbn [bind put_db ret db trace]. apply Hback.
      * cbn [bind commit get_db put_db ret db trace answer emit].
        apply Hsame. destruct typ; [right|left]; reflexivity.
  - (* the code branch *)
    apply negb_false_iff in Hreg. cbn [orb] in Hreg.
    destruct (negb (Py.isdigit text) || _)%bool eqn:Hgate.
    { cbn [bind commit get_db put_db ret db trace answer emit].
      apply Hsame. left. destruct typ; reflexivity. }
    destruct (_log_attempt_run env (User.id user) type_otp text d [])
      as (ledger & Hlog & _ & _).
    cbn [app] in Hlog.
    unfold bind at 1. rewrite Hlog.
    unfold bind at 1, get_db at 1. cbn [db].
    change (latest_otp (with_auth_attempts ledger d) (User.id user))
      with (latest_otp d (User.id user)).
    destruct (latest_otp d (User.id user)) as [otp_row|] eqn:Hrow.
    2: { cbn [bind commit get_db put_db ret db trace answer emit].
         apply Hsame. left. destruct typ; reflexivity. }
    destruct (negb (later _ (now_utc env))) eqn:Hlive.
    { cbn [bind commit get_db put_db ret db trace answer emit].
      apply Hsame. left. destruct typ; reflexivity. }
    destruct (bool_decide_reflect
                (ensure_aware_utc (Otp.used_at otp_row) <> None))
      as [Hused|Hunused].
    { cbn [bind commit get_db put_db ret db trace answer emit].
      apply Hsame. left. destruct typ; reflexivity. }
    destruct (bool_decide_reflect (text <> Otp.code otp_row)) as [Hne|Heq].
    + assert (Hcounted : typ = type_otp -> counted).
      { intros ->. split; [exact Hb|]. cbn [counted_failure].
        split; [exact Hreg|]. split.
        { unfold well_formed_code. rewrite <- negb_andb in Hgate.
          apply negb_false_iff in Hgate. exact Hgate. }
        exists otp_row. split; [exact Hrow|]. split.
        { apply negb_false_iff in Hlive. cbn in Hlive.
          apply Z.ltb_lt. exact Hlive. }
        split; [|exact Hne].
        destruct (Otp.used_at otp_row); [|reflexivity].
        exfalso. apply Hunused. discriminate. }
      user_fields.
      destruct (otp_max_attempts settings <? _).
      * unfold bind at 1. rewrite _notify_admin_on_block_run.
        destruct (admin_chat settings);
          cbn [bind commit get_db put_db ret db trace answer emit];
          (destruct typ;
           [apply Hsame; left; reflexivity
           |apply Hdone, Hcounted; reflexivity]).
      * cbn [bind commit get_db put_db ret db trace answer emit].
        destruct typ;
          [apply Hsame; left; reflexivity
          |apply Hdone, Hcounted; reflexivity].
    + cbn [bind commit get_db put_db ret db trace answer emit].
      apply Hsame. destruct typ; right; reflexivity.
Qed.

(** A counted failure that takes the counter above the maximum: the path
    of the handler, step by step. *)
Lemma lockout_on_counted_failure (d : DB) (user : User.t)
    (typ : AttemptType) :
  users d !! tg_id = Some user ->
  User.status user <> blocked ->
  counted_failure settings env d tg_id user text typ ->
  max_attempts settings typ < attempts_of typ user + 1 ->
  exists s' user',
    on_email_or_code settings env message (opened d) = (Done, s')
    /\ users (db s') !! tg_id = Some user'
    /\ User.status user' = blocked
    /\ User.stage user' = error_stage typ
    /\ attempts_of typ user' = attempts_of typ user + 1
    /\ match admin_chat settings with
       | Some _ =>
           exists entry,
             admin_log (db s') = admin_log d ++ [entry]
             /\ AdminLog.reason entry = reason_of typ
             /\ AdminLog.type entry = typ
             /\ AdminLog.user_id entry = User.id user
             /\ (length (AdminLog.attempts entry) <= 3)%nat
             /\ forall v, In v (AdminLog.attempts entry) ->
                  exists a,
                    In a (ledger_of (db s') (User.id user) typ)
                    /\ AuthAttempt.value a = v
       | None => admin_log (db s') = admin_log d
       end.
Proof.
  intros Hu Hb Hfail Hmax.
  assert (Hvalues : forall ledger v,
    In v (map AuthAttempt.value
            (firstn 3
               (attempts_desc env (with_auth_attempts ledger d)
                  (User.id user) typ))) ->
    exists a,
      In a (List.filter
              (fun a => bool_decide (AuthAttempt.user_id a = User.id user
                                     /\ AuthAttempt.type a = typ)) ledger)
      /\ AuthAttempt.value a = v).
  { intros ledger v Hv. apply in_map_iff in Hv.
    destruct Hv as (a & Hav & Ha). exists a. split; [|exact Hav].
    apply In_firstn in Ha. apply In_order_by_desc in Ha.
    apply In_order_by_desc in Ha. exact Ha. }
  assert (Hlen : forall ledger,
    (length (map AuthAttempt.value
               (firstn 3
                  (attempts_desc env (with_auth_attempts ledger d)
                     (User.id user) typ))) <= 3)%nat).
  { intros ledger. rewrite length_map. apply List.firstn_le_length. }
  unfold on_email_or_code, opened. unfold bind at 1.
  rewrite (_user_found _ _ _ _ _ Hu).
  user_fields.
  rewrite bool_decide_false by exact Hb.
 
  destruct (_log_attempt_run env (User.id user) typ text d [])
    as (ledger & Hrun & _ & _).
  cbn [app] in Hrun.
  destruct typ; cbn [counted_failure max_attempts attempts_of] in Hfail, Hmax.
  - destruct Hfail as (Hs & Hfree & Hbad).
    rewrite Hs. cbn [orb negb].
    unfold bind at 1. rewrite Hrun.
    unfold bind at 1, get_db at 1. cbn [db].
    rewrite (email_bound_elsewhere_users d) by reflexivity. rewrite Hfree.
    destruct (Security.validate_email text _ _); [|congruence].
    user_fields.
    apply Z.ltb_lt in Hmax. rewrite Hmax.
    unfold bind at 1. rewrite _notify_admin_on_block_run.
    destruct (admin_chat settings).
    + do 2 eexists. split; [reflexivity|].
      cbn [db commit bind get_db put_db answer emit ret users with_users
           with_admin_log admin_log].
      rewrite lookup_insert_eq.
      split; [reflexivity|]. repeat split.
      eexists. split; [reflexivity|]. cbn. repeat split.
      * apply (Hlen ledger).
      * apply (Hvalues ledger).
    + do 2 eexists. split; [reflexivity|].
      cbn [db commit bind get_db put_db answer emit ret users with_users
           with_admin_log admin_log].
      rewrite lookup_insert_eq.
      split; [reflexivity|]. repeat split.
  - destruct Hfail as (Hs & Hwf & otp_row & Hrow & Hlive & Hunused & Hne).
    rewrite Hs, (code_stage_not_email _ Hs), orb_true_r. cbn [negb].
    unfold well_formed_code in Hwf. rewrite <- negb_andb, Hwf. cbn [negb].
    unfold bind at 1. rewrite Hrun.
    unfold bind at 1, get_db at 1. cbn [db].
    change (latest_otp (with_auth_attempts ledger d) (User.id user))
      with (latest_otp d (User.id user)).
    rewrite Hrow. cbn [ensure_aware_utc later].
    apply Z.ltb_lt in Hlive. rewrite Hlive. cbn [negb].
    rewrite Hunused.
    rewrite bool_decide_false by (intros H; apply H; reflexivity).
    rewrite bool_decide_true by exact Hne.
    user_fields.
    apply Z.ltb_lt in Hmax. rewrite Hmax.
    unfold bind at 1. rewrite _notify_admin_on_block_run.
    destruct (admin_chat settings).
    + do 2 eexists. split; [reflexivity|].
      cbn [db commit bind get_db put_db answer emit ret users with_users
           with_admin_log admin_log].
      rewrite lookup_insert_eq.
      split; [reflexivity|]. repeat split.
      eexists. split; [reflexivity|]. cbn. repeat split.
      * apply (Hlen ledger).
      * apply (Hvalues ledger).
    + do 2 eexists. split; [reflexivity|].
      cbn [db commit bind get_db put_db answer emit ret users with_users
           with_admin_log admin_log].
      rewrite lookup_insert_eq.
      split; [reflexivity|]. repeat split.
Qed.

(** C2 as amended. Whenever a submission increments the counter of its
    category (for an account whose counter is not negative) and the
    counter then exceeds the configured maximum, the stored account is
    blocked and frozen in the [*_error] stage of the category; if an admin
    chat is configured exactly one request is appended to [admin_log],
    carrying the reason and category, the account and at most three
    values, all of them ledger values of that account and category; if no
    admin chat is configured [admin_log] is not written. *)
Theorem lockout_blocks_and_escalates (d : DB) (user user' : User.t)
    (typ : AttemptType) :
  users d !! tg_id = Some user ->
  0 <= attempts_of typ user ->
  users (db (on_email_or_code settings env message (opened d)).2) !! tg_id
  = Some user' ->
  attempts_of typ user' = attempts_of typ user + 1 ->
  max_attempts settings typ < attempts_of typ user' ->
  User.status user' = blocked
  /\ User.stage user' = error_stage typ
  /\ match admin_chat settings with
     | Some _ =>
         exists entry,
           admin_log (db (on_email_or_code settings env message (opened d)).2)
           = admin_log d ++ [entry]
           /\ AdminLog.reason entry = reason_of typ
           /\ AdminLog.type entry = typ
           /\ AdminLog.user_id entry = User.id user
           /\ (length (AdminLog.attempts entry) <= 3)%nat
           /\ forall v, In v (AdminLog.attempts entry) ->
                exists a,
                  In a (ledger_of
                          (db (on_email_or_code settings env message
                                 (opened d)).2)
                          (User.id user) typ)
                  /\ AuthAttempt.value a = v
     | None =>
         admin_log (db (on_email_or_code settings env message (opened d)).2)
         = admin_log d
     end.
Proof.
  intros Hu Hnn.
  destruct (on_email_or_code settings env message (opened d))
    as [r s'] eqn:Hrun.
  cbn [snd]. intros Hstored Hinc Hmax.
  destruct (counter_grows_only_by_counted_failure d user user' typ r s'
              Hu Hnn Hrun Hstored Hinc) as [Hb Hfail].
  rewrite Hinc in Hmax.
  destruct (lockout_on_counted_failure d user typ Hu Hb Hfail Hmax)
    as (s'' & user'' & Hrun' & Hstored' & Hblocked & Hstage & _ & Hlog).
  rewrite Hrun in Hrun'. injection Hrun' as _ <-.
  rewrite Hstored in Hstored'. injection Hstored' as <-.
  auto.
Qed.

(** What [on_email_or_code] does to the codes, and what its success
    answer means: the newest code of the account was unused, and its key
    is now marked used. *)
Lemma on_email_or_code_codes (d : DB) (r : Handled) (s' : Session) :
  on_email_or_code settings env message (opened d) = (r, s') ->
  codes_step d (db s')
  /\ (existsb is_auth_success (trace s') = true ->
      exists user otp_row,
        users d !! tg_id = Some user
        /\ code_stage (User.stage user) = true
        /\ latest_otp d (User.id user) = Some otp_row
        /\ Otp.used_at otp_row = None
        /\ text = Otp.code otp_row
        /\ now_utc env < Otp.expires_at otp_row
        /\ otps (db s')
           = otps (update_otp
                     (Otp.set_used_at (Some (now_utc env)) otp_row) d)).
Proof.
  destruct (_user_run env tg_id d [])
    as (user & d0 & Hrun & Hotps & _ & _ & _ & Hcase).
  assert (Hkeep : forall d', otps d' = otps d -> codes_step d d')
    by (intros d' H; left; exact H).
  unfold on_email_or_code, opened. unfold bind at 1.
  rewrite Hrun. user_fields.
  destruct (negb (email_stage (User.stage user)
                  || code_stage (User.stage user))) eqn:Hreg.
  { intros [= <- <-]. cbn. split; [apply Hkeep, Hotps|discriminate]. }
  destruct (bool_decide (User.status user = blocked)).
  { intros [= <- <-]. cbn. split; [apply Hkeep, Hotps|discriminate]. }
  destruct (email_stage (User.stage user)) eqn:Hs.
  - (* the e-mail branch *)
    destruct (_log_attempt_run env (User.id user) type_email text d0 [])
      as (ledger & Hlog & _ & _).
    cbn [app] in Hlog.
    unfold bind at 1. rewrite Hlog.
    unfold bind at 1, get_db at 1. cbn [db].
    destruct (email_bound_elsewhere _ text tg_id).
    { intros [= <- <-]. cbn. split; [apply Hkeep, Hotps|discriminate]. }
    destruct (Security.validate_email text _ _).
    + user_fields.
      destruct (email_max_attempts settings <? _).
      * unfold bind at 1. rewrite _notify_admin_on_block_run.
        destruct (admin_chat settings); intros [= <- <-]; cbn;
          (split; [apply Hkeep, Hotps|discriminate]).
      * intros [= <- <-]. cbn. split; [apply Hkeep, Hotps|discriminate].
    + unfold bind at 1.
      match goal with
      | |- context [_send_or_resend_otp settings env ?u ?s] =>
          destruct (_send_or_resend_otp_run settings env u
                      (with_auth_attempts ledger d0)
                      [Flush (AuthAttempt.create
                                (next_id AuthAttempt.id (auth_attempts d0))
                                (User.id user) type_email text
                                (db_now env))])
            as [(d' & Hsend & _)
               |(warn & d' & out & Hsend & _ & _ & _ & Hout & Hcodes)]
      end; rewrite Hsend.
      { intros [= <- <-]. cbn. split; [apply Hkeep; reflexivity|discriminate]. }
      intros [= <- <-].
      cbn [db trace commit bind get_db put_db answer emit ret
           snd otps with_users].
      split.
      * apply (codes_step_otps (with_auth_attempts ledger d0));
          [exact Hotps|].
        destruct Hcodes as [H|[H|(ex & count & sent & Hex & ->)]].
        -- left. exact H.
        -- right. left. exact H.
        -- right. right. apply existing_otp_In in Hex.
           exists ex, (Otp.set_resend count sent ex).
           repeat split; apply Hex.
      * cbn [existsb is_auth_success orb]. rewrite existsb_app.
        cbn [existsb is_auth_success orb].
        assert (Hno : existsb is_auth_success out = false).
        { clear -Hout. induction out as [|io out IH]; [reflexivity|].
          simpl in Hout. apply andb_prop in Hout. destruct Hout as [H1 H2].
          simpl. rewrite (IH H2). destruct io as [| |rp| | |]; try reflexivity.
          discriminate. }
        rewrite Hno. discriminate.
  - (* the code branch *)
    destruct (negb (Py.isdigit text) || _)%bool.
    { intros [= <- <-]. cbn. split; [apply Hkeep, Hotps|discriminate]. }
    destruct (_log_attempt_run env (User.id user) type_otp text d0 [])
      as (ledger & Hlog & _ & _).
    cbn [app] in Hlog.
    unfold bind at 1. rewrite Hlog.
    unfold bind at 1, get_db at 1. cbn [db].
    change (latest_otp (with_auth_attempts ledger d0) (User.id user))
      with (latest_otp d0 (User.id user)).
    rewrite (latest_otp_otps d d0 _ Hotps).
    destruct (latest_otp d (User.id user)) as [otp_row|] eqn:Hrow.
    2: { intros [= <- <-]. cbn. split; [apply Hkeep, Hotps|discriminate]. }
    destruct (negb (later _ (now_utc env))) eqn:Hlive.
    { intros [= <- <-]. cbn. split; [apply Hkeep, Hotps|discriminate]. }
    destruct (bool_decide_reflect
                (ensure_aware_utc (Otp.used_at otp_row) <> None))
      as [Hused|Hunused].
    { intros [= <- <-]. cbn. split; [apply Hkeep, Hotps|discriminate]. }
    destruct (bool_decide_reflect (text <> Otp.code otp_row)) as [Hne|Heq].
    + user_fields.
      destruct (otp_max_attempts settings <? _).
      * unfold bind at 1. rewrite _notify_admin_on_block_run.
        destruct (admin_chat settings); intros [= <- <-]; cbn;
          (split; [apply Hkeep, Hotps|discriminate]).
      * intros [= <- <-]. cbn. split; [apply Hkeep, Hotps|discriminate].
    + assert (Hnone : Otp.used_at otp_row = None).
      { destruct (Otp.used_at otp_row); [|reflexivity].
        exfalso. apply Hunused. discriminate. }
      assert (Hsame : text = Otp.code otp_row).
      { destruct (decide (text = Otp.code otp_row)); [assumption|].
        exfalso. apply Heq. assumption. }
      intros [= <- <-]. unfold update_otp. cbn.
      rewrite Hotps. split.
      * right. right.
        exists otp_row, (Otp.set_used_at (Some (now_utc env)) otp_row).
        split; [apply (latest_otp_In _ _ _ Hrow)|].
        split; [exact Hnone|]. split; reflexivity.
      * intros _.
        destruct Hcase as [[Hu _]|(_ & Hnew & _)].
        -- exists user, otp_row. repeat split; auto.
           ++ apply negb_false_iff in Hreg. exact Hreg.
           ++ apply negb_false_iff in Hlive. cbn in Hlive.
              apply Z.ltb_lt. exact Hlive.
        -- rewrite Hnew in Hs. discriminate.
Qed.

End RegistrationFlow.

(** ** The other handlers and the codes *)

(** Every path of a handler is run to its end. *)
Ltac each_path :=
  repeat match goal with
         | |- context [match ?x with _ => _ end] => destruct x
         | |- context [if ?b then _ else _] => destruct b
         end.

Ltac leaves_codes_by Hotps :=
  each_path; intros [= <- <-]; cbn; split; auto.

Ltac not_skipped :=
  let H := fresh in
  intros H; apply (f_equal fst) in H; cbn in H; discriminate H.

Section OtherHandlers.

Variable settings : Settings.
Variable env : Env.

Lemma _get_or_create_user_run (tg_id : Z) (uname : option pystr) (d : DB)
    (tr : list IO) :
  exists user d0,
    Start._get_or_create_user env tg_id uname {| db := d; trace := tr |}
    = (user, {| db := d0; trace := tr |})
    /\ otps d0 = otps d
    /\ auth_attempts d0 = auth_attempts d
    /\ admin_log d0 = admin_log d.
Proof.
  unfold Start._get_or_create_user, bind, get_db, put_db, ret.
  cbn [db trace].
  destruct (users d !! tg_id) as [user|].
  - destruct uname as [n|]; [destruct (_ && _)%bool|];
      do 2 eexists; repeat split.
  - do 2 eexists. repeat split.
Qed.

Lemma preview_leaves (user : User.t) (d : DB) (tr : list IO) :
  exists out,
    Profile._send_profile_preview_with_photos user {| db := d; trace := tr |}
    = (tt, {| db := d; trace := tr ++ out |})
    /\ existsb is_auth_success out = false
    /\ existsb is_flush out = false.
Proof.
  unfold Profile._send_profile_preview_with_photos.
  destruct (List.filter _ _) as [|fid fids].
  - exists [Answer (preview user)]. repeat split.
  - exists [SendMediaGroup (firstn 10 (fid :: fids)); Answer (preview user)].
    split; [|split; reflexivity].
    unfold bind, answer, emit. cbn -[firstn]. rewrite <- app_assoc.
    reflexivity.
Qed.

Lemma cmd_start_leaves (message : Message.t) :
  leaves_codes (Start.cmd_start settings env message).
Proof.
  intros d r s'. unfold Start.cmd_start, opened. unfold bind at 1.
  destruct (_get_or_create_user_run (Message.from_id message)
              (Message.from_username message) d [])
    as (user & d0 & -> & Hotps & _).
  user_fields.
  destruct (bool_decide (User.status user = blocked)).
  { intros [= <- <-]. cbn. auto. }
  destruct (User.stage user);
    try (intros [= <- <-]; cbn; split; auto; fail).
  unfold bind at 1. cbn [commit bind get_db put_db ret db trace].
  unfold bind at 1.
  match goal with
  | |- context [Profile._send_profile_preview_with_photos ?u ?s] =>
      destruct (preview_leaves u
                  (with_users
                     (<[Message.from_id message := u]> (users d0)) d0) [])
        as (out & -> & Hout & _)
  end.
  intros [= <- <-]. cbn. auto.
Qed.

Lemma cb_change_email_leaves (from_id : Z) :
  leaves_codes (Registration.cb_change_email settings env from_id).
Proof.
  intros d r s'. unfold Registration.cb_change_email, opened.
  unfold bind at 1.
  destruct (_user_run env from_id d []) as (user & d0 & -> & Hotps & _).
  user_fields. leaves_codes_by Hotps.
Qed.

Lemma cb_prof_start_leaves (from_id : Z) :
  leaves_codes (Profile.cb_prof_start settings env from_id).
Proof.
  intros d r s'. unfold Profile.cb_prof_start, opened.
  unfold bind at 1.
  destruct (_user_run env from_id d []) as (user & d0 & -> & Hotps & _).
  user_fields.
  destruct (bool_decide (User.status user = blocked)).
  { intros [= <- <-]. cbn. auto. }
  destruct (negb (Profile.profile_step (User.stage user))).
  { leaves_codes_by Hotps. }
  unfold bind at 1. cbn [commit bind get_db put_db ret db trace].
  unfold bind at 1.
  destruct (User.stage user);
    try (intros [= <- <-]; cbn; split; auto; fail).
  match goal with
  | |- context [Profile._send_profile_preview_with_photos ?u ?s] =>
      destruct (preview_leaves u
                  (with_users (<[from_id := u]> (users d0)) d0) [])
        as (out & -> & Hout & _)
  end.
  intros [= <- <-]. cbn. rewrite existsb_app, Hout. auto.
Qed.

Lemma cb_prefilled_keep_leaves (from_id : Z) :
  leaves_codes (Profile.cb_prefilled_keep settings env from_id).
Proof.
  intros d r s'. unfold Profile.cb_prefilled_keep, opened.
  unfold bind at 1.
  destruct (_user_run env from_id d []) as (user & d0 & -> & Hotps & _).
  intros [= <- <-]. cbn. auto.
Qed.

Lemma cb_prefilled_new_leaves (from_id : Z) :
  leaves_codes (Profile.cb_prefilled_new settings env from_id).
Proof.
  intros d r s'. unfold Profile.cb_prefilled_new, opened.
  unfold bind at 1.
  destruct (_user_run env from_id d []) as (user & d0 & -> & Hotps & _).
  intros [= <- <-]. cbn. auto.
Qed.

Lemma cb_photo_from_profile_leaves (from_id : Z)
    (photos : list (list pystr)) :
  leaves_codes (Profile.cb_photo_from_profile settings env from_id photos).
Proof.
  intros d r s'. unfold Profile.cb_photo_from_profile, opened.
  unfold bind at 1.
  destruct (_user_run env from_id d []) as (user & d0 & -> & Hotps & _).
  user_fields.
  destruct (negb _); intros [= <- <-]; cbn; auto.
Qed.

Lemma cb_photo_skip_leaves (from_id : Z) :
  leaves_codes (Profile.cb_photo_skip settings env from_id).
Proof.
  intros d r s'. unfold Profile.cb_photo_skip, opened.
  unfold bind at 1.
  destruct (_user_run env from_id d []) as (user & d0 & -> & Hotps & _).
  user_fields.
  destruct (negb _); intros [= <- <-]; cbn; auto.
Qed.

Lemma on_photo_leaves (from_id : Z) (fid : pystr) :
  leaves_codes (Profile.on_photo settings env from_id fid).
Proof.
  intros d r s'. unfold Profile.on_photo, opened.
  unfold bind at 1.
  destruct (_user_run env from_id d []) as (user & d0 & -> & Hotps & _).
  user_fields.
  destruct (bool_decide _); [intros [= <- <-]; cbn; auto|].
  destruct (negb _); [intros [= <- <-]; cbn; auto|].
  destruct (Nat.leb 3 _); intros [= <- <-]; cbn; auto.
Qed.

Lemma cb_prof_save_leaves (from_id : Z) :
  leaves_codes (Profile.cb_prof_save settings env from_id).
Proof.
  intros d r s'. unfold Profile.cb_prof_save, opened.
  unfold bind at 1.
  destruct (_user_run env from_id d []) as (user & d0 & -> & Hotps & _).
  intros [= <- <-]. cbn. auto.
Qed.

Lemma cb_prof_edit_review_leaves (from_id : Z) :
  leaves_codes (Profile.cb_prof_edit_review settings env from_id).
Proof.
  intros d r s'. unfold Profile.cb_prof_edit_review, opened.
  unfold bind at 1.
  destruct (_user_run env from_id d []) as (user & d0 & -> & Hotps & _).
  unfold bind at 1. cbn [commit bind get_db put_db ret db trace].
  unfold bind at 1.
  match goal with
  | |- context [Profile._send_profile_preview_with_photos ?u ?s] =>
      destruct (preview_leaves u
                  (with_users (<[from_id := u]> (users d0)) d0) [])
        as (out & -> & Hout & _)
  end.
  intros [= <- <-]. cbn. rewrite existsb_app, Hout. auto.
Qed.

Lemma cb_prof_edit_field_leaves (from_id : Z) (field : pystr) :
  leaves_codes (Profile.cb_prof_edit_field settings env from_id field).
Proof.
  intros d r s'. unfold Profile.cb_prof_edit_field, opened.
  unfold bind at 1.
  destruct (_user_run env from_id d []) as (user & d0 & -> & Hotps & _).
  repeat (destruct (bool_decide _); [intros [= <- <-]; cbn; auto|]).
  intros [= <- <-]. cbn. auto.
Qed.

Lemma cb_prof_join_leaves : leaves_codes Profile.cb_prof_join.
Proof. intros d r s' [= <- <-]. cbn. auto. Qed.

Lemma on_profile_text_leaves (message : Message.t) :
  leaves_codes (Profile.on_profile_text settings env message).
Proof.
  intros d r s'. unfold Profile.on_profile_text, opened.
  unfold bind at 1.
  destruct (_user_run env (Message.from_id message) d [])
    as (user & d0 & -> & Hotps & _).
  user_fields.
  destruct (negb _); [intros [= <- <-]; cbn; auto|].
  destruct (bool_decide _); [intros [= <- <-]; cbn; auto|].
  destruct (User.stage user);
    try (intros [= <- <-]; cbn; split; auto; fail).
  - destruct (negb _); [intros [= <- <-]; cbn; auto|].
    destruct (Security.contains_banned_words _ _);
      intros [= <- <-]; cbn; auto.
  - destruct (Nat.ltb _ _); [intros [= <- <-]; cbn; auto|].
    destruct (Security.contains_banned_words _ _);
      intros [= <- <-]; cbn; auto.
  - destruct (negb _); [intros [= <- <-]; cbn; auto|].
    destruct (Py.int _); [|intros [= <- <-]; cbn; auto].
    destruct (negb _); intros [= <- <-]; cbn; auto.
  - destruct (Security.normalize_interests _ _);
      [|intros [= <- <-]; cbn; auto].
    unfold bind at 1. cbn [commit bind get_db put_db ret db trace].
    unfold bind at 1.
    match goal with
    | |- context [Profile._send_profile_preview_with_photos ?u ?s] =>
        destruct (preview_leaves u
                    (with_users
                       (<[Message.from_id message := u]> (users d0)) d0) [])
          as (out & -> & Hout & _)
    end.
    intros [= <- <-]. cbn. auto.
Qed.

(** When the profile handler passes, it has emitted nothing and has only
    made sure that the sender's account is stored. *)
Lemma on_profile_text_skip (message : Message.t) (d : DB) (s' : Session) :
  Profile.on_profile_text settings env message (opened d)
  = (SkipHandler, s') ->
  trace s' = []
  /\ otps (db s') = otps d
  /\ auth_attempts (db s') = auth_attempts d
  /\ admin_log (db s') = admin_log d
  /\ exists user,
       users (db s') !! Message.from_id message = Some user
       /\ Profile.text_step (User.stage user) = false
       /\ (users d !! Message.from_id message = Some user /\ db s' = d
           \/ (users d !! Message.from_id message = None
               /\ User.stage user = stage_new
               /\ User.status user = status_new)).
Proof.
  unfold Profile.on_profile_text, opened.
  unfold bind at 1.
  destruct (_user_run env (Message.from_id message) d [])
    as (user & d0 & -> & Hotps & Hledger & Hlog & Hstored & Hcase).
  user_fields.
  destruct (negb (Profile.text_step (User.stage user))) eqn:Hstep.
  - intros [= <-]. cbn. repeat split; auto.
    exists user. rewrite lookup_insert_eq. split; [reflexivity|].
    split; [apply negb_true_iff, Hstep|].
    destruct Hcase as [[Hu ->]|Hnew]; [left|right; exact Hnew].
    split; [exact Hu|]. rewrite insert_id by exact Hu.
    destruct d; reflexivity.
  - clear Hstep. destruct (bool_decide _); [not_skipped|].
    destruct (User.stage user); try not_skipped.
    + destruct (negb _); [not_skipped|].
      destruct (Security.contains_banned_words _ _); not_skipped.
    + destruct (Nat.ltb _ _); [not_skipped|].
      destruct (Security.contains_banned_words _ _); not_skipped.
    + destruct (negb _); [not_skipped|].
      destruct (Py.int _); [|not_skipped].
      destruct (negb _); not_skipped.
    + destruct (Security.normalize_interests _ _); [|not_skipped].
      unfold bind at 1. cbn [commit bind get_db put_db ret db trace].
      unfold bind at 1.
      match goal with
      | |- context [Profile._send_profile_preview_with_photos ?u ?s] =>
          destruct (preview_leaves u
                      (with_users
                         (<[Message.from_id message := u]> (users d0)) d0)
                      [])
            as (out & -> & _)
      end.
      not_skipped.
Qed.

Lemma cb_otp_resend_codes (from_id : Z) (d : DB) (r : Handled)
    (s' : Session) :
  Registration.cb_otp_resend settings env from_id (opened d) = (r, s') ->
  codes_step d (db s') /\ existsb is_auth_success (trace s') = false.
Proof.
  unfold Registration.cb_otp_resend, opened. unfold bind at 1.
  destruct (_user_run env from_id d []) as (user & d0 & -> & Hotps & _).
  user_fields.
  destruct (bool_decide _);
    [intros [= <- <-]; cbn; split; [left|]; auto|].
  destruct (negb _); [intros [= <- <-]; cbn; split; [left|]; auto|].
  unfold bind at 1.
  match goal with
  | |- context [Registration._send_or_resend_otp settings env ?u ?s] =>
      destruct (_send_or_resend_otp_run settings env u d0 [])
        as [(d' & -> & _)
           |(warn & d' & out & -> & _ & _ & _ & Hout & Hcodes)]
  end.
  { intros [= <- <-]. cbn. split; [left|]; reflexivity. }
  intros [= <- <-]. cbn. split.
  - apply (codes_step_otps d0); [exact Hotps|].
    destruct Hcodes as [H|[H|(ex & count & sent & Hex & ->)]].
    + left. exact H.
    + right. left. exact H.
    + right. right. apply existing_otp_In in Hex.
      exists ex, (Otp.set_resend count sent ex). repeat split; apply Hex.
  - rewrite existsb_app. cbn. rewrite orb_false_r.
    clear -Hout. induction out as [|io out IH]; [reflexivity|].
    simpl in Hout. apply andb_prop in Hout. destruct Hout as [H1 H2].
    simpl. rewrite (IH H2). destruct io as [| |rp| | |]; try reflexivity.
    discriminate.
Qed.

(** What any event does to the codes, and what a success answer means. *)
Lemma handle_codes (ev : Event) (d : DB) (r : Handled) (s' : Session) :
  handle settings env ev d = (r, s') ->
  codes_step d (db s')
  /\ (existsb is_auth_success (trace s') = true ->
      exists user otp_row,
        users d !! sender ev = Some user
        /\ Registration.latest_otp d (User.id user) = Some otp_row
        /\ Otp.used_at otp_row = None
        /\ otps (db s')
           = otps (Registration.update_otp
                     (Otp.set_used_at (Some (now_utc env)) otp_row) d)).
Proof.
  assert (Hleaves : forall m, leaves_codes m ->
            m (opened d) = (r, s') ->
            codes_step d (db s')
            /\ (existsb is_auth_success (trace s') = true ->
                exists user otp_row,
                  users d !! sender ev = Some user
                  /\ Registration.latest_otp d (User.id user) = Some otp_row
                  /\ Otp.used_at otp_row = None
                  /\ otps (db s')
                     = otps (Registration.update_otp
                               (Otp.set_used_at (Some (now_utc env)) otp_row)
                               d))).
  { intros m Hm Hrun. destruct (Hm d r s' Hrun) as [H1 H2].
    split; [left; exact H1|]. rewrite H2. discriminate. }
  unfold handle. destruct ev; cbn [dispatch sender].
  - (* a text *)
    unfold dispatch_text.
    destruct (negb (plain_text message)).
    { intros [= <- <-]. cbn. split; [left; reflexivity|discriminate]. }
    unfold bind.
    destruct (Profile.on_profile_text settings env message
                {| db := d; trace := [] |}) as [r1 s1] eqn:Hprof.
    destruct r1.
    + intros [= <- <-].
      destruct (on_profile_text_leaves message d _ _ Hprof) as [H1 H2].
      split; [left; exact H1|]. rewrite H2. discriminate.
    + destruct (on_profile_text_skip message d s1 Hprof)
        as (Htr & Hotps & _ & _ & user & Hstored & _ & Hcase).
      destruct s1 as [d1 tr1]. cbn in Htr, Hotps, Hstored, Hcase.
      subst tr1. intros Hreg.
      destruct (on_email_or_code_codes settings env message d1 r s' Hreg)
        as [Hstep Hsucc].
      split; [apply (codes_step_otps d1); assumption|].
      intros Hyes.
      destruct (Hsucc Hyes)
        as (user' & otp_row & Hu & Hstage & Hrow & Hnone & _ & _ & Hmark).
      rewrite Hstored in Hu. injection Hu as <-.
      destruct Hcase as [[Hu ->]|(_ & Hnew & _)].
      * exists user, otp_row. auto.
      * rewrite Hnew in Hstage. discriminate.
    + intros [= <- <-].
      destruct (on_profile_text_leaves message d _ _ Hprof) as [H1 H2].
      split; [left; exact H1|]. rewrite H2. discriminate.
  - apply Hleaves, cmd_start_leaves.
  - apply Hleaves, on_photo_leaves.
  - intros Hrun. destruct (cb_otp_resend_codes _ _ _ _ Hrun) as [H1 H2].
    split; [exact H1|]. rewrite H2. discriminate.
  - apply Hleaves, cb_change_email_leaves.
  - apply Hleaves, cb_prof_start_leaves.
  - apply Hleaves, cb_prefilled_keep_leaves.
  - apply Hleaves, cb_prefilled_new_leaves.
  - apply Hleaves, cb_photo_from_profile_leaves.
  - apply Hleaves, cb_photo_skip_leaves.
  - apply Hleaves, cb_prof_save_leaves.
  - destruct (bool_decide _).
    + apply Hleaves, cb_prof_edit_review_leaves.
    + apply Hleaves, cb_prof_edit_field_leaves.
  - apply Hleaves, cb_prof_join_leaves.
Qed.

End OtherHandlers.

(** ** One-time codes are single-use *)

Section SingleUse.

Variable settings : Settings.

Lemma update_otp_rows (row : Otp.t) (d : DB) (o' : Otp.t) :
  In o' (otps (Registration.update_otp row d)) <->
  exists o, In o (otps d)
            /\ o' = if bool_decide (Otp.id o = Otp.id row) then row else o.
Proof.
  unfold Registration.update_otp. cbn [otps with_otps].
  rewrite in_map_iff. split; intros (o & H1 & H2); exists o; auto.
Qed.

Lemma spent_step (d d' : DB) (i : Z) :
  codes_step d d' -> spent d i -> spent d' i.
Proof.
  intros Hstep [(o0 & Hin0 & Hid0) Hall].
  destruct Hstep as [H|[(new & H & Hnew & _)|(ex & ex' & Hex & Hnone & Hid & H)]].
  - unfold spent. rewrite H. split; eauto.
  - unfold spent. rewrite H. split.
    + exists o0. split; [apply in_app_iff; left|]; assumption.
    + intros o Ho Hi. apply in_app_iff in Ho. destruct Ho as [Ho|[<-|[]]].
      * apply Hall; assumption.
      * pose proof (next_id_above Otp.id _ _ Hin0). lia.
  - assert (Hne : Otp.id ex <> i).
    { intros E. apply (Hall ex Hex E). exact Hnone. }
    unfold spent. rewrite H. split.
    + exists o0. split; [|exact Hid0].
      apply update_otp_rows. exists o0. split; [exact Hin0|].
      rewrite bool_decide_false by congruence. reflexivity.
    + intros o Ho Hi. apply update_otp_rows in Ho.
      destruct Ho as (o1 & Ho1 & ->).
      destruct (bool_decide_reflect (Otp.id o1 = Otp.id ex')).
      * congruence.
      * apply Hall; assumption.
Qed.

Lemma spent_after_verify (d d' : DB) (otp_row : Otp.t) (t : datetime) :
  In otp_row (otps d) ->
  otps d'
  = otps (Registration.update_otp (Otp.set_used_at (Some t) otp_row) d) ->
  spent d' (Otp.id otp_row).
Proof.
  intros Hin H. unfold spent. rewrite H. split.
  - exists (Otp.set_used_at (Some t) otp_row). split; [|reflexivity].
    apply update_otp_rows. exists otp_row. split; [exact Hin|].
    rewrite bool_decide_true by reflexivity. reflexivity.
  - intros o Ho Hi. apply update_otp_rows in Ho.
    destruct Ho as (o1 & Ho1 & ->).
    destruct (bool_decide_reflect
                (Otp.id o1 = Otp.id (Otp.set_used_at (Some t) otp_row)))
      as [E|E].
    + discriminate.
    + exfalso. apply E. exact Hi.
Qed.

Lemma verified_spec (env : Env) (ev : Event) (d : DB) (i : Z) :
  verified settings env ev d = Some i ->
  exists otp_row,
    In otp_row (otps d)
    /\ Otp.id otp_row = i
    /\ Otp.used_at otp_row = None
    /\ otps (db (handle settings env ev d).2)
       = otps (Registration.update_otp
                 (Otp.set_used_at (Some (now_utc env)) otp_row) d).
Proof.
  unfold verified.
  destruct (handle settings env ev d) as [r s'] eqn:Hrun.
  destruct (handle_codes settings env ev d r s' Hrun) as [_ Hsucc].
  cbn [snd].
  destruct (existsb is_auth_success (trace s')); [|discriminate].
  destruct (Hsucc eq_refl) as (user & otp_row & Hu & Hrow & Hnone & Hmark).
  rewrite Hu, Hrow. cbn. intros [= <-].
  exists otp_row. repeat split; auto.
  eapply latest_otp_In. exact Hrow.
Qed.

Lemma spent_not_verified (env : Env) (ev : Event) (d : DB) (i : Z) :
  spent d i -> verified settings env ev d <> Some i.
Proof.
  intros [_ Hall] Hv. apply verified_spec in Hv.
  destruct Hv as (otp_row & Hin & Hid & Hnone & _).
  apply (Hall otp_row Hin Hid Hnone).
Qed.

Lemma spent_kept (env : Env) (ev : Event) (d : DB) (i : Z) :
  spent d i -> spent (db (handle settings env ev d).2) i.
Proof.
  destruct (handle settings env ev d) as [r s'] eqn:Hrun.
  apply spent_step. apply (handle_codes settings env ev d r s' Hrun).
Qed.

Lemma spent_never_again (evs : list (Env * Event)) (d : DB) (i : Z) :
  spent d i -> ~ In i (verifications settings evs d).
Proof.
  revert d. induction evs as [|[env ev] evs IH]; intros d Hspent;
    cbn [verifications]; [tauto|].
  intros Hin. apply in_app_iff in Hin. destruct Hin as [Hin|Hin].
  - pose proof (spent_not_verified env ev d i Hspent) as Hno.
    destruct (verified settings env ev d) as [j|]; [|destruct Hin].
    destruct Hin as [->|[]]. congruence.
  - apply (IH _ (spent_kept env ev d i Hspent) Hin).
Qed.

(** C1. A one-time code whose [used_at] is set is never validated again:
    (1) when the code the handler consults (the newest code of the
    account) has [used_at] set, no submitted text, its own value
    included, is answered with the success message; (2) an event that
    consumes the code with key [i] leaves that code spent, i.e. the
    successful verification sets [used_at]; (3) a spent code is consumed
    by no event and stays spent after every event; (4) hence along any
    sequence of events no code is consumed twice. *)
Theorem code_is_single_use :
  (forall env message d user otp_row,
      users d !! Message.from_id message = Some user ->
      Registration.latest_otp d (User.id user) = Some otp_row ->
      Otp.used_at otp_row <> None ->
      existsb is_auth_success
        (trace (Registration.on_email_or_code settings env message
                  (opened d)).2) = false)
  /\ (forall env ev d i,
        verified settings env ev d = Some i ->
        spent (db (handle settings env ev d).2) i)
  /\ (forall env ev d i,
        spent d i ->
        verified settings env ev d <> Some i
        /\ spent (db (handle settings env ev d).2) i)
  /\ (forall evs d, List.NoDup (verifications settings evs d)).
Proof.
  split; [|split; [|split]].
  - intros env message d user otp_row Hu Hrow Hused.
    destruct (Registration.on_email_or_code settings env message (opened d))
      as [r s'] eqn:Hrun.
    destruct (on_email_or_code_codes settings env message d r s' Hrun)
      as [_ Hsucc].
    cbn [snd].
    destruct (existsb is_auth_success (trace s')); [|reflexivity].
    destruct (Hsucc eq_refl)
      as (user' & otp_row' & Hu' & _ & Hrow' & Hnone & _).
    rewrite Hu in Hu'. injection Hu' as <-.
    rewrite Hrow in Hrow'. injection Hrow' as <-.
    contradiction.
  - intros env ev d i Hv. apply verified_spec in Hv.
    destruct Hv as (otp_row & Hin & <- & _ & Hmark).
    eapply spent_after_verify; eassumption.
  - intros env ev d i Hspent. split.
    + apply spent_not_verified, Hspent.
    + apply spent_kept, Hspent.
  - intros evs. induction evs as [|[env ev] evs IH]; intros d;
      cbn [verifications]; [constructor|].
    destruct (verified settings env ev d) as [i|] eqn:Hv; cbn [app].
    + constructor; [|apply IH].
      apply spent_never_again.
      apply verified_spec in Hv.
      destruct Hv as (otp_row & Hin & <- & _ & Hmark).
      eapply spent_after_verify; eassumption.
    + apply IH.
Qed.

End SingleUse.

(** ** Resending within the cooldown *)

Section Cooldown.

Import Registration.

Variable settings : Settings.
Variable env : Env.

(** C6. While the newest unused code of an account is unexpired and was
    last sent less than [cooldown] seconds ago, a resend request changes
    nothing: [_send_or_resend_otp] returns [(True, cooldown advisory)] and
    leaves the whole store as it is (so neither [resend_count] nor
    [last_sent_at] of the code changes and no code is minted) and sends no
    mail; the ["otp:resend"] callback leaves the table of codes as it is,
    and for an account that is waiting for its code it answers with the
    delivered flag set and the cooldown advisory. *)
Theorem resend_within_cooldown_changes_nothing
    (from_id : Z) (d : DB) (user : User.t) (existing : Otp.t) :
  users d !! from_id = Some user ->
  existing_otp d (User.id user) = Some existing ->
  now_utc env < Otp.expires_at existing ->
  now_utc env - Otp.last_sent_at existing
  < seconds (otp_cooldown_seconds settings) ->
  (forall tr u,
      User.id u = User.id user ->
      _send_or_resend_otp settings env u {| db := d; trace := tr |}
      = (Some (true, Some warn_cooldown), {| db := d; trace := tr |}))
  /\ otps (db (cb_otp_resend settings env from_id (opened d)).2) = otps d
  /\ (User.status user <> blocked ->
      code_stage (User.stage user) = true ->
      trace (cb_otp_resend settings env from_id (opened d)).2
      = [Answer (resend_done true (Some warn_cooldown));
         CallbackAnswer None]).
Proof.
  intros Hu Hex Hlive Hcool.
  assert (Hsend : forall tr u,
    User.id u = User.id user ->
    _send_or_resend_otp settings env u {| db := d; trace := tr |}
    = (Some (true, Some warn_cooldown), {| db := d; trace := tr |})).
  { intros tr u Hid.
    unfold _send_or_resend_otp, bind, get_db. cbn [db].
    rewrite Hid, Hex. cbn [ensure_aware_utc later option_map].
    apply Z.ltb_lt in Hlive. rewrite Hlive.
    assert (Hc : (now_utc env
                  <? Otp.last_sent_at existing
                     + seconds (otp_cooldown_seconds settings)) = true)
      by (apply Z.ltb_lt; lia).
    rewrite Hc. reflexivity. }
  split; [exact Hsend|].
  assert (Hout : forall out,
    cb_otp_resend settings env from_id (opened d) = out ->
    otps (db out.2) = otps d
    /\ (User.status user <> blocked ->
        code_stage (User.stage user) = true ->
        trace out.2
        = [Answer (resend_done true (Some warn_cooldown));
           CallbackAnswer None])).
  { intros out. unfold cb_otp_resend, opened. unfold bind at 1.
    rewrite (_user_found _ _ _ _ _ Hu). user_fields.
    destruct (bool_decide_reflect (User.status user = blocked)) as [Hb|Hb].
    { intros <-. split; [reflexivity|]. intros H. contradiction. }
    destruct (code_stage (User.stage user)); cbn [negb].
    - unfold bind at 1. rewrite Hsend by reflexivity.
      intros <-. split; [reflexivity|]. intros _ _. reflexivity.
    - intros <-. split; [reflexivity|]. intros _ H. discriminate. }
  apply Hout. reflexivity.
Qed.

End Cooldown.

(** ** Photos *)

Section Photos.

Variable env : Env.

(** [_append_photo] assigns [photos_json] and nothing else. *)
Lemma _append_photo_sets (user : User.t) (fid : pystr) :
  exists photos,
    Profile._append_photo env user fid = User.set_photos_json photos user.
Proof.
  unfold Profile._append_photo. destruct (Nat.leb 3 _).
  - exists (User.photos_json user). destruct user; reflexivity.
  - eexists. reflexivity.
Qed.


(** What [commit_photos] stores is the account of the session, but for
    its photos. *)
Lemma commit_photos_run (tg_id : Z) (loaded user : User.t) (s : Session) :
  exists stored,
    Profile.commit_photos tg_id loaded user s
    = commit tg_id (User.set_photos_json stored user) s.
Proof.
  unfold Profile.commit_photos.
  destruct (User.photos_json loaded) as [photos|].
  - eexists. reflexivity.
  - exists (User.photos_json user). destruct user; reflexivity.
Qed.

End Photos.

(** ** Blocked accounts *)

Section Blocked.

Variable settings : Settings.
Variable env : Env.

Lemma with_users_same (tg_id : Z) (d : DB) (user : User.t) :
  users d !! tg_id = Some user ->
  with_users (<[tg_id := user]> (users d)) d = d.
Proof. intros H. rewrite insert_id by exact H. destruct d; reflexivity. Qed.



End Blocked.

(** ** Editing a field from the review *)

Section EditFromReview.

Variable settings : Settings.
Variable env : Env.

Ltac decide_strings :=
  repeat first
    [ rewrite bool_decide_true by reflexivity
    | rewrite bool_decide_false by (cbv; discriminate) ].

(** C4 as amended. Selecting a field on the review keyboard moves the
    account to the collection stage of that field.  Completing a field
    then moves the account to the next step of the sequence
    name, photo, bio, age, interests, review: an accepted text at
    [profile_name], [profile_bio], [profile_age], [profile_interests]
    leads to [profile_photo], [profile_age], [profile_interests],
    [profile_review].  At [profile_photo] the skip button and the
    from-profile button lead to [profile_bio]; a photo leads to
    [profile_bio] when the account was loaded with two photos or more,
    and leaves the account at [profile_photo] otherwise.  So nothing
    that fills in the name, the photos, the description or the age, right
    or wrong, takes the account to [profile_review]. *)
Theorem edit_jumps_and_sequence_resumes (from_id : Z) (d : DB)
    (user : User.t) :
  users d !! from_id = Some user ->
  (forall field stage,
      collection_stage field = Some stage ->
      handle settings env (ProfEdit from_id field) d
      = (Done,
         {| db :=
              with_users (<[from_id := User.set_stage stage user]> (users d))
                d;
            trace :=
              [Answer
                 match stage with
                 | profile_name => ask_name
                 | profile_photo => ask_photos
                 | profile_bio => ask_bio
                 | profile_age => ask_age
                 | _ => ask_interests
                 end;
               CallbackAnswer None] |}))
  /\ (forall message,
        Message.from_id message = from_id ->
        plain_text message = true ->
        User.status user <> blocked ->
        completes settings (User.stage user)
          (Py.strip (Message.text message)) ->
        exists s' user',
          handle settings env (Text message) d = (Done, s')
          /\ users (db s') !! from_id = Some user'
          /\ User.stage user' = next_stage (User.stage user))
  /\ (User.stage user = profile_photo ->
      (exists s' user',
         handle settings env (ProfPhotoSkip from_id) d = (Done, s')
         /\ users (db s') !! from_id = Some user'
         /\ User.stage user' = profile_bio)
      /\ (forall photos,
            exists s' user',
              handle settings env (ProfPhotoFromProfile from_id photos) d
              = (Done, s')
              /\ users (db s') !! from_id = Some user'
              /\ User.stage user' = profile_bio)
      /\ (forall fid,
            User.status user <> blocked ->
            exists s' user',
              handle settings env (PhotoMessage from_id fid) d = (Done, s')
              /\ users (db s') !! from_id = Some user'
              /\ User.stage user'
                 = if Nat.leb 2 (length (Profile.photos_of user))
                   then profile_bio else profile_photo))
  /\ (forall ev,
        sender ev = from_id ->
        fills_in ev = true ->
        before_interests (User.stage user) = true ->
        exists user',
          users (db (handle settings env ev d).2) !! from_id = Some user'
          /\ User.stage user' <> profile_review).
Proof.
  intros Hu. split; [|split; [|split]].
  - intros field stage Hfield. unfold collection_stage in Hfield.
    unfold handle, dispatch.
    repeat match type of Hfield with
           | (if bool_decide (?f = ?s) then _ else _) = _ =>
               destruct (bool_decide_reflect (f = s)) as [->|_]
           end;
      try discriminate; injection Hfield as <-; decide_strings;
      unfold Profile.cb_prof_edit_field; unfold bind at 1;
      rewrite (_user_found _ _ _ _ _ Hu); decide_strings; reflexivity.
  - intros message <- Hplain Hb Hdone.
    unfold handle, dispatch, dispatch_text. rewrite Hplain. cbn [negb].
    unfold bind at 1. unfold Profile.on_profile_text. unfold bind at 1.
    rewrite (_user_found _ _ _ _ _ Hu). user_fields.
    destruct (User.stage user) eqn:Hstage;
      cbn [completes] in Hdone; try contradiction;
      cbn [Profile.text_step negb next_stage];
      rewrite bool_decide_false by exact Hb.
    + destruct Hdone as [[H2 H100] Hclean].
      apply Nat.leb_le in H2, H100. rewrite H2, H100, Hclean.
      cbn [andb negb]. do 2 eexists. split; [reflexivity|].
      cbn. rewrite lookup_insert_eq. split; reflexivity.
    + destruct Hdone as [H500 Hclean].
      assert (Hlt : Nat.ltb 500
                      (length (Py.strip (Message.text message))) = false)
        by (apply Nat.ltb_ge; exact H500).
      rewrite Hlt, Hclean. do 2 eexists. split; [reflexivity|].
      cbn. rewrite lookup_insert_eq. split; reflexivity.
    + destruct Hdone as (Hdigit & age & Hint & H18 & H50).
      rewrite Hdigit, Hint. cbn [negb].
      apply Z.leb_le in H18, H50. rewrite H18, H50. cbn [andb negb].
      do 2 eexists. split; [reflexivity|].
      cbn. rewrite lookup_insert_eq. split; reflexivity.
    + destruct Hdone as (l & Hnorm). rewrite Hnorm.
      unfold bind at 1. cbn [commit bind get_db put_db ret db trace].
      unfold bind at 1.
      match goal with
      | |- context [Profile._send_profile_preview_with_photos ?u ?s] =>
          destruct (preview_leaves u
                      (with_users
                         (<[Message.from_id message := u]> (users d)) d) [])
            as (out & -> & _)
      end.
      do 2 eexists. split; [reflexivity|].
      cbn. rewrite lookup_insert_eq. split; reflexivity.
  - intros Hstage. split; [|split].
    + unfold handle, dispatch, Profile.cb_photo_skip.
      unfold bind at 1. rewrite (_user_found _ _ _ _ _ Hu). user_fields.
      rewrite Hstage. rewrite bool_decide_true by reflexivity. cbn [negb].
      do 2 eexists. split; [reflexivity|].
      cbn. rewrite lookup_insert_eq. split; reflexivity.
    + intros photos.
      unfold handle, dispatch, Profile.cb_photo_from_profile.
      unfold bind at 1. rewrite (_user_found _ _ _ _ _ Hu). user_fields.
      rewrite Hstage. rewrite bool_decide_true by reflexivity. cbn [negb].
      unfold bind at 1.
      match goal with
      | |- context [Profile.commit_photos ?t ?l ?u ?s] =>
          destruct (commit_photos_run t l u s) as (stored & ->)
      end.
      do 2 eexists. split; [reflexivity|].
      cbn. rewrite lookup_insert_eq. split; reflexivity.
    + intros fid Hb.
      unfold handle, dispatch, Profile.on_photo.
      unfold bind at 1. rewrite (_user_found _ _ _ _ _ Hu). user_fields.
      rewrite bool_decide_false by exact Hb.
      rewrite Hstage. rewrite bool_decide_true by reflexivity. cbn [negb].
      assert (Hcount :
        Nat.leb 3
          (Profile._photos_count
             (Profile._append_photo env
                (User.set_last_activity (now_utc env) user) fid))
        = Nat.leb 2 (length (Profile.photos_of user))).
      { unfold Profile._photos_count, Profile._append_photo,
          Profile.photos_of.
        user_fields.
        destruct (User.photos_json user) as [photos|] eqn:Hph;
          [|reflexivity].
        destruct (Nat.leb_spec 3 (length photos)) as [H3|H3];
          user_fields; rewrite ?Hph.
        - rewrite (proj2 (Nat.leb_le 3 (length photos)) H3).
          symmetry. apply Nat.leb_le. lia.
        - rewrite length_app. cbn [length].
          destruct (Nat.leb_spec 2 (length photos));
            [apply Nat.leb_le|apply Nat.leb_gt]; lia. }
      rewrite Hcount. clear Hcount.
      destruct (_append_photo_sets env
                  (User.set_last_activity (now_utc env) user) fid)
        as (ph & ->).
      destruct (Nat.leb 2 (length (Profile.photos_of user)));
        unfold bind at 1;
        match goal with
        | |- context [Profile.commit_photos ?t ?l ?u ?s] =>
            destruct (commit_photos_run t l u s) as (stored & ->)
        end;
        do 2 eexists; (split; [reflexivity|]);
        cbn; rewrite lookup_insert_eq; (split; [reflexivity|]);
        user_fields; auto.
  - intros ev <- Hfills Hstage.
    assert (Hstay : forall (tr : list IO) (h : Handled),
      exists user',
        users (db (h, {| db := d; trace := tr |}).2) !! sender ev
        = Some user'
        /\ User.stage user' <> profile_review).
    { intros tr h. exists user. split; [exact Hu|].
      intros E. rewrite E in Hstage. discriminate. }
    assert (Hgo : forall (u : User.t) (tr : list IO) (h : Handled),
      User.stage u <> profile_review ->
      exists user',
        users
          (db (h, {| db := with_users (<[sender ev := u]> (users d)) d;
                     trace := tr |}).2) !! sender ev
        = Some user'
        /\ User.stage user' <> profile_review).
    { intros u tr h Hne. exists u. split; [|exact Hne].
      cbn. apply lookup_insert_eq. }
    assert (Hkeep : User.stage user <> profile_review).
    { intros E. rewrite E in Hstage. discriminate. }
    destruct ev as [message|message|from fid|from|from|from
                   |from|from|from photos|from|from|from field|from];
      try discriminate Hfills;
      cbn [sender] in Hu, Hstay, Hgo |- *;
      unfold handle; cbn [dispatch].
    + (* a text *)
      unfold dispatch_text.
      destruct (plain_text message); cbn [negb]; [|apply Hstay].
      unfold bind at 1. unfold Profile.on_profile_text. unfold bind at 1.
      rewrite (_user_found _ _ _ _ _ Hu). user_fields.
      destruct (User.stage user) eqn:Hs; try discriminate Hstage;
        cbn [Profile.text_step negb].
      * destruct (bool_decide _); [apply Hgo; user_fields; congruence|].
        destruct (negb _); [apply Hgo; user_fields; congruence|].
        destruct (Security.contains_banned_words _ _);
          apply Hgo; user_fields; congruence.
      * (* at the photo step the text goes on to the registration
           handler, which passes *)
        cbn [bind commit get_db put_db ret db trace].
        unfold Registration.on_email_or_code. unfold bind at 1.
        rewrite (with_users_same _ d user Hu).
        rewrite (_user_found _ _ _ _ _ Hu). rewrite Hs.
        cbn [Registration.email_stage Registration.code_stage orb negb].
        apply Hgo. congruence.
      * destruct (bool_decide _); [apply Hgo; user_fields; congruence|].
        destruct (Nat.ltb _ _); [apply Hgo; user_fields; congruence|].
        destruct (Security.contains_banned_words _ _);
          apply Hgo; user_fields; congruence.
      * destruct (bool_decide _); [apply Hgo; user_fields; congruence|].
        destruct (negb _); [apply Hgo; user_fields; congruence|].
        destruct (Py.int _); [|apply Hstay].
        destruct (negb _); apply Hgo; user_fields; congruence.
    + (* a photo *)
      unfold Profile.on_photo. unfold bind at 1.
      rewrite (_user_found _ _ _ _ _ Hu). user_fields.
      destruct (bool_decide _); [apply Hgo; user_fields; congruence|].
      destruct (negb _); [apply Hgo; user_fields; congruence|].
      destruct (_append_photo_sets env
                  (User.set_last_activity (now_utc env) user) fid)
        as (ph & ->).
      destruct (Nat.leb 3 _); unfold bind at 1;
        match goal with
        | |- context [Profile.commit_photos ?t ?l ?u ?s] =>
            destruct (commit_photos_run t l u s) as (stored & ->)
        end;
        apply Hgo; user_fields; congruence.
    + (* from the profile *)
      unfold Profile.cb_photo_from_profile. unfold bind at 1.
      rewrite (_user_found _ _ _ _ _ Hu). user_fields.
      destruct (negb _); [apply Hgo; user_fields; congruence|].
      unfold bind at 1.
      match goal with
      | |- context [Profile.commit_photos ?t ?l ?u ?s] =>
          destruct (commit_photos_run t l u s) as (stored & ->)
      end.
      apply Hgo. user_fields. discriminate.
    + (* skip *)
      unfold Profile.cb_photo_skip. unfold bind at 1.
      rewrite (_user_found _ _ _ _ _ Hu). user_fields.
      destruct (negb _); apply Hgo; user_fields; congruence.
Qed.

End EditFromReview.

(** * Instances on the sample store *)

Section Instances.

Import Sample.

(** Scenario A: with ["corp.com"] as the only allowed domain,
    ["a@corp.com"] is valid and ["b@gmail.com"] is refused for its
    domain. *)
Example scenario_A :
  Security.validate_email (str "a@corp.com") (email_regex corp)
    (allowed_domains corp) = None
  /\ Security.validate_email (str "b@gmail.com") (email_regex corp)
       (allowed_domains corp)
     = Some (Security.domain_not_allowed (str "gmail.com")).
Proof. split; vm_compute; reflexivity. Qed.

(** Scenario B: with [otp_max_attempts = 3], the fourth wrong code blocks
    the account at [verifying_code_error]. *)
Example scenario_B :
  let d :=
    run corp
      [(at_second 110, Text (says 7 "000000"));
       (at_second 120, Text (says 7 "111111"));
       (at_second 130, Text (says 7 "222222"))]
      (waiting 0 None) in
  option_map (fun u => (User.status u, User.stage u, User.otp_attempts u))
    (users d !! 7)
  = Some (status_new, verifying_code, 3)
  /\ option_map (fun u => (User.status u, User.stage u, User.otp_attempts u))
       (users
          (db (handle corp (at_second 140) (Text (says 7 "333333")) d).2)
        !! 7)
     = Some (blocked, verifying_code_error, 4).
Proof. split; vm_compute; reflexivity. Qed.

(** Scenario C: the right code, 121 seconds after it was minted, is
    refused as expired and nothing but [last_activity] and the ledger
    changes. *)
Example scenario_C :
  let out :=
    handle corp (at_second 221) (Text (says 7 "123456")) (waiting 0 None) in
  filter is_answer (trace out.2)
  = [Answer (code_expired (Some (str "a@corp.com")))]
  /\ otps (db out.2) = otps (waiting 0 None)
  /\ option_map (fun u => (User.status u, User.stage u, User.otp_attempts u))
       (users (db out.2) !! 7)
     = Some (status_new, verifying_code, 0).
Proof. repeat split; vm_compute; reflexivity. Qed.

(** The instance of C1 for a code used at second 110 and submitted again
    at second 150, together with a first use that succeeds and leaves the
    code spent. *)
Lemma code_is_single_use_witness :
  (users (waiting 0 (Some (seconds 110))) !! 7
   = Some (account 1 (Some (str "a@corp.com")) status_new verifying_code 0 0)
   /\ Registration.latest_otp (waiting 0 (Some (seconds 110))) 1
      = Some (code_row 1 1 "123456" 100 (Some (seconds 110)))
   /\ existsb is_auth_success
        (trace
           (Registration.on_email_or_code corp (at_second 150)
              (says 7 "123456")
              (opened (waiting 0 (Some (seconds 110))))).2)
      = false)
  /\ (verified corp (at_second 150) (Text (says 7 "123456")) (waiting 0 None)
      = Some 1
      /\ spent
           (db (handle corp (at_second 150) (Text (says 7 "123456"))
                  (waiting 0 None)).2)
           1).
Proof.
  assert (Hu : users (waiting 0 (Some (seconds 110))) !! 7
               = Some (account 1 (Some (str "a@corp.com")) status_new
                         verifying_code 0 0))
    by (vm_compute; reflexivity).
  assert (Hrow : Registration.latest_otp (waiting 0 (Some (seconds 110))) 1
                 = Some (code_row 1 1 "123456" 100 (Some (seconds 110))))
    by (vm_compute; reflexivity).
  assert (Hv : verified corp (at_second 150) (Text (says 7 "123456"))
                 (waiting 0 None) = Some 1)
    by (vm_compute; reflexivity).
  split; [split; [exact Hu|split; [exact Hrow|]]|split; [exact Hv|]].
  - apply (proj1 (code_is_single_use corp) (at_second 150)
             (says 7 "123456") (waiting 0 (Some (seconds 110))) _ _ Hu Hrow).
    apply (bool_decide_unpack _). vm_compute. exact I.
  - apply (proj1 (proj2 (code_is_single_use corp)) _ _ _ _ Hv).
Defined.

(** C2 refuted as stated: with no admin chat configured (the default), the
    fourth wrong code takes [otp_attempts] to 4, above the maximum 3, and
    blocks the account, yet [admin_log] receives no record. *)
Lemma lockout_without_admin_chat_logs_nothing :
  let out :=
    Registration.on_email_or_code defaults (at_second 150)
      (says 7 "000000") (opened (waiting 3 None)) in
  otp_max_attempts defaults = 3
  /\ option_map (fun u => (User.status u, User.stage u, User.otp_attempts u))
       (users (db out.2) !! 7)
     = Some (blocked, verifying_code_error, 4)
  /\ admin_log (db out.2) = admin_log (waiting 3 None)
  /\ length (admin_log (db out.2)) <> S (length (admin_log (waiting 3 None))).
Proof. repeat split; vm_compute; try reflexivity. discriminate. Qed.

(** The instance of C2 as amended for Scenario B with an admin chat. *)
Lemma lockout_blocks_and_escalates_witness :
  length
    (admin_log
       (db (Registration.on_email_or_code corp (at_second 150)
              (says 7 "000000") (opened (waiting 3 None))).2))
  = 1%nat.
Proof.
  destruct (lockout_blocks_and_escalates corp (at_second 150)
              (says 7 "000000") (waiting 3 None)
              (account 1 (Some (str "a@corp.com")) status_new verifying_code
                 0 3)
              (User.set_last_activity (seconds 150)
                 (account 1 (Some (str "a@corp.com")) blocked
                    verifying_code_error 0 4))
              type_otp)
    as (_ & _ & Hlog).
  - vm_compute. reflexivity.
  - change (0 <= 3). lia.
  - vm_compute. reflexivity.
  - vm_compute. reflexivity.
  - vm_compute. reflexivity.
  - change (Registration.admin_chat corp) with (Some (-1001)) in Hlog.
    destruct Hlog as (entry & -> & _). reflexivity.
Defined.



(** C4 refuted as stated: from [profile_review], editing the name and
    entering a valid name leaves the account at [profile_photo], the next
    step of the sequence, not at [profile_review]. *)
Lemma edited_name_goes_on_to_photos :
  let d :=
    store [(7, account 1 (Some (str "a@corp.com")) active profile_review 0 0)]
      [] in
  let d1 := run corp [(at_second 10, ProfEdit 7 (str "name"))] d in
  let d2 := run corp [(at_second 20, Text (says 7 "Alice"))] d1 in
  option_map User.stage (users d1 !! 7) = Some profile_name
  /\ option_map User.name (users d2 !! 7) = Some (Some (str "Alice"))
  /\ option_map User.stage (users d2 !! 7) = Some profile_photo
  /\ option_map User.stage (users d2 !! 7) <> Some profile_review.
Proof. repeat split; vm_compute; try reflexivity. discriminate. Qed.

(** The instance of C4 as amended for the same account editing its name. *)
Lemma edit_jumps_and_sequence_resumes_witness :
  handle corp (at_second 10) (ProfEdit 7 (str "name"))
    (store [(7, account 1 (Some (str "a@corp.com")) active profile_review 0 0)]
       [])
  = (Done,
     {| db :=
          with_users
            (<[7 := User.set_stage profile_name
                      (account 1 (Some (str "a@corp.com")) active
                         profile_review 0 0)]>
               (users
                  (store
                     [(7, account 1 (Some (str "a@corp.com")) active
                            profile_review 0 0)] [])))
            (store
               [(7, account 1 (Some (str "a@corp.com")) active
                      profile_review 0 0)] []);
        trace := [Answer ask_name; CallbackAnswer None] |}).
Proof.
  apply (proj1 (edit_jumps_and_sequence_resumes corp (at_second 10) 7
                  (store
                     [(7, account 1 (Some (str "a@corp.com")) active
                            profile_review 0 0)] [])
                  (account 1 (Some (str "a@corp.com")) active profile_review
                     0 0)
                  ltac:(vm_compute; reflexivity))
           (str "name") profile_name).
  vm_compute. reflexivity.
Defined.

(** C5 refuted as stated: a blocked account at the e-mail stage
    [verifying_email_error] that sends an address held by another account
    is answered with the blocked notice, not with "already taken". *)
Lemma blocked_account_gets_no_taken_answer :
  let d := two_accounts blocked verifying_email_error in
  let out :=
    Registration.on_email_or_code corp (at_second 150) (says 7 "a@corp.com")
      (opened d) in
  option_map (fun u => Registration.email_stage (User.stage u)) (users d !! 7)
  = Some true
  /\ Registration.email_bound_elsewhere d (str "a@corp.com") 7 = true
  /\ trace out.2 = [Answer blocked_notice]
  /\ existsb
       (fun io => match io with Answer email_taken => true | _ => false end)
       (trace out.2) = false.
Proof. repeat split; vm_compute; reflexivity. Qed.

(** The instance of C5 as amended for the same address sent by an account
    that is not blocked. *)
Lemma taken_email_not_counted_witness :
  exists s',
    Registration.on_email_or_code corp (at_second 150) (says 7 "a@corp.com")
      (opened (two_accounts status_new verifying_email)) = (Done, s')
    /\ filter is_answer (trace s') = [Answer email_taken].
Proof.
  destruct (taken_email_not_counted corp (at_second 150)
              (says 7 "a@corp.com") (two_accounts status_new verifying_email)
              (account 1 None status_new verifying_email 0 0))
    as (s' & user' & Hrun & _ & _ & _ & _ & _ & _ & Htaken & _).
  - vm_compute. reflexivity.
  - vm_compute. reflexivity.
  - vm_compute. reflexivity.
  - exists s'. split; [exact Hrun|].
    destruct Htaken as (row & ->); [|reflexivity].
    apply (bool_decide_unpack _). vm_compute. exact I.
Defined.

(** The instance of C6 for the code sent at second 100 and a resend
    request at second 150, the cooldown being 120 seconds. *)
Lemma resend_within_cooldown_changes_nothing_witness :
  otps (db (Registration.cb_otp_resend corp (at_second 150) 7
              (opened (waiting 0 None))).2)
  = otps (waiting 0 None)
  /\ trace (Registration.cb_otp_resend corp (at_second 150) 7
              (opened (waiting 0 None))).2
     = [Answer (resend_done true (Some warn_cooldown)); CallbackAnswer None].
Proof.
  destruct (resend_within_cooldown_changes_nothing corp (at_second 150) 7
              (waiting 0 None)
              (account 1 (Some (str "a@corp.com")) status_new verifying_code
                 0 0)
              (code_row 1 1 "123456" 100 None))
    as (_ & Hcodes & Hanswer).
  - vm_compute. reflexivity.
  - vm_compute. reflexivity.
  - vm_compute. reflexivity.
  - vm_compute. reflexivity.
  - split; [exact Hcodes|]. apply Hanswer.
    + apply (bool_decide_unpack _). vm_compute. exact I.
    + vm_compute. reflexivity.
Defined.





End Instances.

(** * Further properties of the code *)

(** ** [app/utils/security.py] *)

Section SecurityFacts.

Import Security InterestsItems.

Lemma startswith_prefix (s p : pystr) :
  Py.startswith s p = true <-> exists b, s = p ++ b.
Proof.
  revert s. induction p as [|a p IH]; intros s.
  - split; [intros _; exists s; reflexivity|destruct s; reflexivity].
  - destruct s as [|c s]; simpl.
    + split; [discriminate|]. intros (b & H). discriminate.
    + rewrite andb_true_iff, IH, Ascii.eqb_eq. split.
      * intros (-> & b & ->). exists b. reflexivity.
      * intros (b & [= -> ->]). split; [reflexivity|]. exists b. reflexivity.
Qed.

Lemma contains_substring (s w : pystr) :
  Py.contains s w = true <-> exists a b, s = a ++ w ++ b.
Proof.
  induction s as [|c s IH]; cbn [Py.contains].
  - rewrite orb_false_r, startswith_prefix. split.
    + intros (b & H). exists [], b. exact H.
    + intros (a & b & H). destruct a; [exists b; exact H|discriminate].
  - rewrite orb_true_iff, startswith_prefix, IH. split.
    + intros [(b & H)|(a & b & ->)].
      * exists [], b. exact H.
      * exists (c :: a), b. reflexivity.
    + intros ([|x a] & b & H).
      * left. exists b. exact H.
      * right. injection H as -> ->. exists a, b. reflexivity.
Qed.

Lemma lower_nil (s : pystr) : Py.lower s = [] <-> s = [].
Proof. destruct s; simpl; split; congruence. Qed.

Lemma truthy_true (s : pystr) : Py.truthy s = true <-> s <> [].
Proof. destruct s; simpl; split; congruence. Qed.

(** X1. What [contains_banned_words] reports.  A reported word is the first
    configured word, trimmed and lower-cased, that is not blank and occurs
    in the lower-cased text; nothing is reported exactly when no configured
    word that is not blank occurs there. *)
Theorem contains_banned_words_finds_first (text : pystr) (bw : list pystr) :
  match contains_banned_words text bw with
  | Some w =>
      exists before w0 after,
        bw = before ++ w0 :: after
        /\ w = Py.lower (Py.strip w0)
        /\ w <> []
        /\ (exists a b, Py.lower text = a ++ w ++ b)
        /\ forall v, In v before ->
             Py.strip v = []
             \/ forall a b, Py.lower text <> a ++ Py.lower (Py.strip v) ++ b
  | None =>
      forall v, In v bw ->
        Py.strip v = []
        \/ forall a b, Py.lower text <> a ++ Py.lower (Py.strip v) ++ b
  end.
Proof.
  unfold contains_banned_words.
  assert (Hmiss : forall v,
            (Py.truthy (Py.lower (Py.strip v))
             && Py.contains (Py.lower text) (Py.lower (Py.strip v)))%bool
            = false ->
            Py.strip v = []
            \/ forall a b, Py.lower text <> a ++ Py.lower (Py.strip v) ++ b).
  { intros v H. apply andb_false_iff in H. destruct H as [H|H].
    - left. apply lower_nil. destruct (Py.lower (Py.strip v)); [reflexivity|].
      discriminate.
    - right. intros a b E.
      assert (Hc : Py.contains (Py.lower text) (Py.lower (Py.strip v)) = true)
        by (apply contains_substring; eauto).
      congruence. }
  induction bw as [|w0 bw IH]; simpl.
  - intros v [].
  - destruct (Py.truthy (Py.lower (Py.strip w0))
              && Py.contains (Py.lower text) (Py.lower (Py.strip w0)))%bool
      eqn:E.
    + apply andb_true_iff in E. destruct E as [E1 E2].
      exists [], w0, bw. repeat split.
      * apply truthy_true, E1.
      * apply contains_substring, E2.
      * intros v [].
    + destruct (banned_loop (Py.lower text) bw) as [w|].
      * destruct IH as (before & w1 & after & -> & Hw & Hne & Hocc & Hfirst).
        exists (w0 :: before), w1, after. repeat split; auto.
        intros v [<-|Hv]; [apply Hmiss, E|apply Hfirst, Hv].
      * intros v [<-|Hv]; [apply Hmiss, E|apply IH, Hv].
Qed.

Lemma after_at_split (email rest : pystr) :
  after_at email = Some rest <->
  exists local,
    email = local ++ "@"%char :: rest /\ ~ In "@"%char local.
Proof.
  assert (Hat : forall c, Nat.eqb (Py.ord c) 64 = true <-> c = "@"%char).
  { intros c. rewrite Nat.eqb_eq. unfold Py.ord. split.
    - intros H. rewrite <- (ascii_nat_embedding c), H. reflexivity.
    - intros ->. reflexivity. }
  revert rest. induction email as [|c email IH]; intros rest; simpl.
  - split; [discriminate|]. intros ([|] & H & _); discriminate.
  - destruct (Nat.eqb (Py.ord c) 64) eqn:E.
    + apply Hat in E. subst c. split.
      * intros [= ->]. exists []. split; [reflexivity|]. intros [].
      * intros ([|x local] & H & Hno).
        -- injection H as ->. reflexivity.
        -- injection H as <- _. exfalso. apply Hno. left. reflexivity.
    + assert (Hc : c <> "@"%char).
      { intros Hc. apply Hat in Hc. congruence. }
      rewrite IH. split.
      * intros (local & -> & Hno). exists (c :: local).
        split; [reflexivity|]. intros [H|H]; [congruence|tauto].
      * intros ([|x local] & H & Hno).
        -- injection H as -> _. congruence.
        -- injection H as <- ->. exists local. split; [reflexivity|].
           intros H. apply Hno. right. exact H.
Qed.

(** X2. When [validate_email] accepts.  The address matches the pattern and,
    if domains are configured, what follows its first ["@"] is one of
    them, the comparison ignoring case on both sides. *)
Theorem validate_email_accepts (email : pystr) (regex : pystr -> bool)
    (allowed : list pystr) :
  validate_email email regex allowed = None <->
  regex email = true
  /\ (allowed = []
      \/ exists local domain d,
           email = local ++ "@"%char :: domain
           /\ ~ In "@"%char local
           /\ In d allowed
           /\ Py.lower d = Py.lower domain).
Proof.
  unfold validate_email.
  destruct (regex email); cbn [negb];
    [|split; [discriminate|intros [? _]; discriminate]].
  destruct allowed as [|d0 ds]; [split; auto|].
  set (allowed := d0 :: ds).
  destruct (after_at email) as [rest|] eqn:E.
  - apply after_at_split in E. destruct E as (local & -> & Hno).
    destruct (bool_decide_reflect
                (Py.lower rest ∉ map Py.lower allowed)) as [Hout|Hin].
    + split; [discriminate|]. intros [_ [H|H]]; [discriminate|].
      destruct H as (local' & domain & d & Heq & Hno' & Hd & Hlow).
      exfalso. apply Hout.
      assert (Hsame : after_at (local ++ "@"%char :: rest) = Some domain)
        by (apply after_at_split; eauto).
      assert (Hrest : after_at (local ++ "@"%char :: rest) = Some rest)
        by (apply after_at_split; eauto).
      rewrite Hrest in Hsame. injection Hsame as <-.
      rewrite <- Hlow. apply list_elem_of_In, in_map, Hd.
    + split; [|reflexivity]. intros _. split; [reflexivity|]. right.
      assert (Hmem : Py.lower rest ∈ map Py.lower allowed).
      { destruct (decide (Py.lower rest ∈ map Py.lower allowed));
          [assumption|contradiction]. }
      apply list_elem_of_In, in_map_iff in Hmem.
      destruct Hmem as (d & Hd & Hin').
      exists local, rest, d. auto.
  - split; [discriminate|]. intros [_ [H|H]]; [discriminate|].
    destruct H as (local & domain & d & Heq & Hno & _).
    assert (Hsome : after_at email = Some domain)
      by (apply after_at_split; eauto).
    congruence.
Qed.

(** X3. What [normalize_interests] hands back when it accepts: at most 30
    items and 300 characters in all; every item is trimmed, has 1 to 50
    characters, holds no separator and no banned word; no two items are
    equal up to case. *)
Theorem normalize_interests_result_valid (raw : pystr)
    (bw result : list pystr) :
  normalize_interests raw bw = Interests result ->
  (length result <= 30)%nat
  /\ (Py.sum_len result <= 300)%nat
  /\ List.NoDup (map Py.lower result)
  /\ Forall
       (fun it =>
          Py.strip it = it
          /\ (1 <= length it <= 50)%nat
          /\ Forall (fun c => is_sep c = false) it
          /\ contains_banned_words it bw = None)
       result.
Proof.
  unfold normalize_interests.
  rewrite interests_are_items, check_loop_find, dedup_loop_dedup_ci.
  destruct (negb (Py.truthy (Py.strip raw))).
  { intros [= <-]. simpl. repeat split; try lia; constructor. }
  destruct (Nat.ltb 30 (length (items raw))) eqn:Elen; [discriminate|].
  destruct (List.find _ (items raw)) eqn:Efind; [discriminate|].
  destruct (Nat.ltb 300 (Py.sum_len (dedup_ci (items raw)))) eqn:Esum;
    [discriminate|].
  intros [= <-].
  apply Nat.ltb_ge in Elen, Esum.
  split; [pose proof (dedup_ci_length (items raw)); lia|].
  split; [exact Esum|].
  split; [apply dedup_ci_NoDup|].
  apply List.Forall_forall. intros it Hit. apply dedup_ci_incl in Hit.
  pose proof (items_well_formed raw) as Hwf.
  rewrite List.Forall_forall in Hwf.
  destruct (Hwf it Hit) as (Htrim & _ & Hclean).
  pose proof (find_none _ _ Efind it Hit) as Hok. cbn beta in Hok.
  apply orb_false_iff in Hok. destruct Hok as [Hlen Hban].
  apply negb_false_iff in Hlen. unfold length_ok in Hlen.
  apply andb_true_iff in Hlen. destruct Hlen as [H1 H50].
  apply Nat.leb_le in H1, H50.
  split; [apply strip_of_trimmed, Htrim|].
  split; [lia|]. split; [exact Hclean|].
  unfold contains_banned_words.
  pose proof (banned_loop_has (Py.lower it) bw) as Hb.
  unfold has_banned in Hban. rewrite Hban in Hb.
  destruct (banned_loop (Py.lower it) bw); [discriminate|reflexivity].
Qed.

End SecurityFacts.

(** ** One-time codes: minting, resending, expiry *)

Section Codes.

Import Registration.

Variable settings : Settings.
Variable env : Env.

(** The outcomes of [_send_or_resend_otp]. *)
Lemma _send_or_resend_otp_cases (user : User.t) (d : DB) (tr : list IO) :
  _send_or_resend_otp settings env user {| db := d; trace := tr |}
  = let mint :=
      if smtp_delivers env then
        (Some (true, None),
         {| db := with_otps (otps d ++ [minted settings env d user]) d;
            trace :=
              tr ++ [SendOtpEmail (User.email user) (generate_otp env)] |})
      else
        (None,
         {| db := with_otps (otps d ++ [minted settings env d user]) d;
            trace := tr |})
    in
    match existing_otp d (User.id user) with
    | Some ex =>
        if now_utc env <? Otp.expires_at ex then
          if now_utc env
             <? Otp.last_sent_at ex + seconds (otp_cooldown_seconds settings)
          then (Some (true, Some warn_cooldown), {| db := d; trace := tr |})
          else if resend_max_per_session settings <=? Otp.resend_count ex
          then
            (Some (true, Some warn_resend_limit), {| db := d; trace := tr |})
          else if smtp_delivers env then
            (Some (true, Some warn_resent),
             {| db :=
                  update_otp
                    (Otp.set_resend (Otp.resend_count ex + 1) (now_utc env) ex)
                    d;
                trace :=
                  tr ++ [SendOtpEmail (User.email user) (Otp.code ex)] |})
          else (None, {| db := d; trace := tr |})
        else mint
    | None => mint
    end.
Proof.
  unfold _send_or_resend_otp, send_otp_email, bind, get_db, put_db, emit,
    ret, minted.
  cbn [db trace].
  destruct (existing_otp d (User.id user)) as [ex|];
    [|destruct (smtp_delivers env); reflexivity].
  cbn [ensure_aware_utc option_map later].
  destruct (now_utc env <? Otp.expires_at ex);
    [|destruct (smtp_delivers env); reflexivity].
  destruct (now_utc env <? _); [reflexivity|].
  destruct (resend_max_per_session settings <=? _); [reflexivity|].
  destruct (smtp_delivers env); reflexivity.
Qed.

(** X4. Once a live code has been resent [resend_max_per_session] times, a
    further request after the cooldown sends no mail and changes no code;
    the account still gets the "sent again" answer, now with the limit
    advisory. *)
Theorem resend_at_limit_sends_nothing (from_id : Z) (d : DB)
    (user : User.t) (existing : Otp.t) :
  users d !! from_id = Some user ->
  User.status user <> blocked ->
  code_stage (User.stage user) = true ->
  existing_otp d (User.id user) = Some existing ->
  now_utc env < Otp.expires_at existing ->
  seconds (otp_cooldown_seconds settings)
  <= now_utc env - Otp.last_sent_at existing ->
  resend_max_per_session settings <= Otp.resend_count existing ->
  cb_otp_resend settings env from_id (opened d)
  = (Done,
     {| db :=
          with_users
            (<[from_id := User.set_last_activity (now_utc env) user]>
               (users d))
            d;
        trace :=
          [Answer (resend_done true (Some warn_resend_limit));
           CallbackAnswer None] |}).
Proof.
  intros Hu Hb Hs Hex Hlive Hcool Hmax.
  unfold cb_otp_resend, opened. unfold bind at 1.
  rewrite (_user_found _ _ _ _ _ Hu). user_fields.
  rewrite bool_decide_false by exact Hb. rewrite Hs. cbn [negb].
  unfold bind at 1. rewrite _send_or_resend_otp_cases. user_fields.
  rewrite Hex.
  apply Z.ltb_lt in Hlive. rewrite Hlive.
  assert (Hc : (now_utc env
                <? Otp.last_sent_at existing
                   + seconds (otp_cooldown_seconds settings)) = false)
    by (apply Z.ltb_ge; lia).
  rewrite Hc. apply Z.leb_le in Hmax. rewrite Hmax. reflexivity.
Qed.

(** X5. A resend that is allowed and delivered mails the code the account
    already has, to the address of the account, and rewrites that code's
    row with one more resend and the time of the event as [last_sent_at];
    its value and its expiry stay.  When the mail cannot be delivered the
    handler dies: nothing is answered and nothing is stored, the count of
    resends included. *)
Theorem resend_mails_the_same_code (from_id : Z) (d : DB)
    (user : User.t) (existing : Otp.t) :
  users d !! from_id = Some user ->
  User.status user <> blocked ->
  code_stage (User.stage user) = true ->
  existing_otp d (User.id user) = Some existing ->
  now_utc env < Otp.expires_at existing ->
  seconds (otp_cooldown_seconds settings)
  <= now_utc env - Otp.last_sent_at existing ->
  Otp.resend_count existing < resend_max_per_session settings ->
  let resent :=
    Otp.set_resend (Otp.resend_count existing + 1) (now_utc env) existing in
  (smtp_delivers env = true ->
   cb_otp_resend settings env from_id (opened d)
   = (Done,
      {| db :=
           with_users
             (<[from_id := User.set_last_activity (now_utc env) user]>
                (users d))
             (update_otp resent d);
         trace :=
           [SendOtpEmail (User.email user) (Otp.code existing);
            Answer (resend_done true (Some warn_resent));
            CallbackAnswer None] |}))
  /\ (smtp_delivers env = false ->
      cb_otp_resend settings env from_id (opened d) = (Uncaught, opened d))
  /\ Otp.code resent = Otp.code existing
  /\ Otp.expires_at resent = Otp.expires_at existing
  /\ Otp.used_at resent = None.
Proof.
  intros Hu Hb Hs Hex Hlive Hcool Hmax resent.
  assert (Hrun : forall delivered,
    smtp_delivers env = delivered ->
    cb_otp_resend settings env from_id (opened d)
    = if delivered then
        (Done,
         {| db :=
              with_users
                (<[from_id := User.set_last_activity (now_utc env) user]>
                   (users d))
                (update_otp resent d);
            trace :=
              [SendOtpEmail (User.email user) (Otp.code existing);
               Answer (resend_done true (Some warn_resent));
               CallbackAnswer None] |})
      else (Uncaught, opened d)).
  { intros delivered Hsmtp.
    unfold cb_otp_resend, opened. unfold bind at 1.
    rewrite (_user_found _ _ _ _ _ Hu). user_fields.
    rewrite bool_decide_false by exact Hb. rewrite Hs. cbn [negb].
    unfold bind at 1. rewrite _send_or_resend_otp_cases. user_fields.
    rewrite Hex.
    apply Z.ltb_lt in Hlive. rewrite Hlive.
    assert (Hc : (now_utc env
                  <? Otp.last_sent_at existing
                     + seconds (otp_cooldown_seconds settings)) = false)
      by (apply Z.ltb_ge; lia).
    rewrite Hc.
    assert (Hm : (resend_max_per_session settings
                  <=? Otp.resend_count existing) = false)
      by (apply Z.leb_gt; exact Hmax).
    rewrite Hm, Hsmtp. destruct delivered; reflexivity. }
  split; [exact (Hrun true)|]. split; [exact (Hrun false)|].
  split; [reflexivity|split; [reflexivity|]].
  apply existing_otp_In in Hex. apply Hex.
Qed.

(** X6. The answer of the resend callback never says that sending failed:
    whatever the store, [_send_or_resend_otp] reports success or raises. *)
Theorem resend_never_reports_failure (from_id : Z) (d : DB)
    (warn : option Warn) :
  ~ In (Answer (resend_done false warn))
      (trace (cb_otp_resend settings env from_id (opened d)).2).
Proof.
  unfold cb_otp_resend, opened. unfold bind at 1.
  destruct (_user_run env from_id d []) as (user & d0 & -> & _).
  user_fields.
  destruct (bool_decide _).
  { cbn. intros [H|[H|[]]]; discriminate. }
  destruct (negb _).
  { cbn. intros [H|[]]; discriminate. }
  unfold bind at 1. rewrite _send_or_resend_otp_cases. user_fields.
  cbv zeta.
  destruct (existing_otp d0 (User.id user)) as [ex|];
    [destruct (now_utc env <? Otp.expires_at ex);
     [destruct (now_utc env <? _);
      [|destruct (resend_max_per_session settings <=? _)]|]|];
    try destruct (smtp_delivers env);
    cbn; intuition discriminate.
Qed.

End Codes.

(** ** [app/bot.py]: the two text handlers *)

Section TextRouting.

Variable settings : Settings.
Variable env : Env.
Variable message : Message.t.

#[local] Abbreviation sender_id := (Message.from_id message).

(** The store once [_user] has made sure that the sender has an account. *)
Lemma _user_twice (d : DB) (tr tr' : list IO) :
  let s1 := (_user env sender_id {| db := d; trace := tr |}).2 in
  _user env sender_id {| db := db s1; trace := tr' |}
  = ((_user env sender_id {| db := d; trace := tr |}).1,
     {| db := db s1; trace := tr' |}).
Proof.
  unfold _user, bind, get_db, put_db, ret. cbn [db trace].
  destruct (users d !! sender_id) as [user|] eqn:E; cbn [fst snd db].
  - rewrite E. reflexivity.
  - cbn [users with_users]. rewrite lookup_insert_eq. reflexivity.
Qed.

Lemma on_profile_text_passes (d : DB) :
  match users d !! sender_id with
  | Some user => Profile.text_step (User.stage user) = false
  | None => True
  end ->
  Profile.on_profile_text settings env message (opened d)
  = (SkipHandler, opened (db (_user env sender_id (opened d)).2)).
Proof.
  intros Hstage. unfold Profile.on_profile_text, opened.
  unfold bind at 1. unfold _user, bind, get_db, put_db, ret.
  cbn [db trace].
  destruct (users d !! sender_id) as [user|] eqn:E; cbn [fst snd db trace].
  - rewrite Hstage. cbn [negb]. cbn.
    rewrite insert_id by exact E. destruct d; reflexivity.
  - cbn. rewrite insert_insert_eq. reflexivity.
Qed.

(** The store in which the sender, unknown so far, has an account. *)
Lemma _user_creates (d : DB) :
  users d !! sender_id = None ->
  db (_user env sender_id (opened d)).2
  = with_users
      (<[sender_id := User.create (next_user_id (users d)) None (db_now env)]>
         (users d))
      d.
Proof.
  intros E. unfold _user, bind, get_db, put_db, ret, opened.
  cbn [db trace]. rewrite E. reflexivity.
Qed.

Lemma _user_known (d : DB) (user : User.t) :
  users d !! sender_id = Some user ->
  db (_user env sender_id (opened d)).2 = d.
Proof.
  intros E. unfold opened. rewrite (_user_found _ _ _ _ _ E). reflexivity.
Qed.

(** A text that the wizard passes on reaches the registration handler, in
    a session of its own on the store the wizard has left. *)
Lemma handle_text_passed_on (d : DB) :
  plain_text message = true ->
  match users d !! sender_id with
  | Some user => Profile.text_step (User.stage user) = false
  | None => True
  end ->
  handle settings env (Text message) d
  = Registration.on_email_or_code settings env message
      (opened (db (_user env sender_id (opened d)).2)).
Proof.
  intros Hplain Hstage.
  unfold handle, dispatch, dispatch_text. rewrite Hplain. cbn [negb].
  unfold bind at 1. fold (opened d).
  rewrite (on_profile_text_passes d Hstage). reflexivity.
Qed.

Lemma handle_text_registration (d : DB) (user : User.t) :
  plain_text message = true ->
  users d !! sender_id = Some user ->
  Profile.text_step (User.stage user) = false ->
  handle settings env (Text message) d
  = Registration.on_email_or_code settings env message (opened d).
Proof.
  intros Hplain Hu Hstage.
  rewrite handle_text_passed_on; [|exact Hplain|rewrite Hu; exact Hstage].
  rewrite (_user_known d user Hu). reflexivity.
Qed.

Lemma handle_text_profile (d : DB) (user : User.t) :
  plain_text message = true ->
  users d !! sender_id = Some user ->
  Profile.text_step (User.stage user) = true ->
  handle settings env (Text message) d
  = Profile.on_profile_text settings env message (opened d).
Proof.
  intros Hplain Hu Hstage.
  unfold handle, dispatch, dispatch_text. rewrite Hplain. cbn [negb].
  unfold bind at 1. fold (opened d).
  destruct (Profile.on_profile_text settings env message (opened d))
    as [r s1] eqn:Hrun.
  destruct r; try reflexivity.
  destruct (on_profile_text_skip settings env message d s1 Hrun)
    as (_ & _ & _ & _ & user' & _ & Hstep & [[Hu' _]|[Hu' _]]);
    congruence.
Qed.

(** X7. A text that is not a command is handled by exactly one of the two text
    handlers: the wizard's handler when the sender's account is at one of
    its text steps, the registration handler for every other sender; for
    a sender with an account the handler runs on the store as it was, the
    attempt of the router that comes first leaving no trace in the
    outcome; for an unknown sender the wizard's handler, which comes
    first, creates the account and passes, and the registration handler
    runs on the store that holds this account.  A text that is empty or
    starts with ["/"] is taken by neither. *)
Theorem text_goes_to_one_handler (d : DB) :
  (plain_text message = true ->
   handle settings env (Text message) d
   = match users d !! sender_id with
     | Some user =>
         if Profile.text_step (User.stage user)
         then Profile.on_profile_text settings env message (opened d)
         else Registration.on_email_or_code settings env message (opened d)
     | None =>
         Registration.on_email_or_code settings env message
           (opened
              (with_users
                 (<[sender_id :=
                      User.create (next_user_id (users d)) None
                        (db_now env)]>
                    (users d))
                 d))
     end)
  /\ (plain_text message = false ->
      handle settings env (Text message) d = (SkipHandler, opened d)).
Proof.
  split.
  - intros Hplain.
    destruct (users d !! sender_id) as [user|] eqn:Hu.
    + destruct (Profile.text_step (User.stage user)) eqn:Hstep.
      * apply (handle_text_profile d user); assumption.
      * apply (handle_text_registration d user); assumption.
    + rewrite handle_text_passed_on; [|exact Hplain|rewrite Hu; exact I].
      rewrite (_user_creates d Hu). reflexivity.
  - intros Hplain. unfold handle, dispatch, dispatch_text.
    rewrite Hplain. reflexivity.
Qed.

End TextRouting.

(** ** Registration: expiry, cooldown and the whole way in *)

Section RegistrationPaths.

Import Registration.

Variable settings : Settings.

Lemma existing_otp_owner (d : DB) (user_id : Z) (o : Otp.t) :
  existing_otp d user_id = Some o -> Otp.user_id o = user_id.
Proof.
  unfold existing_otp. intros H. apply head_In in H.
  apply In_order_by_desc in H. apply filter_In in H.
  destruct H as [_ H]. apply bool_decide_eq_true in H. tauto.
Qed.

(** X8. A code past its expiry is refused whatever is submitted, the code's
    own value included, and the refusal is not counted: the submission
    goes to the ledger, the answer is "expired", and the stored account
    differs only in [last_activity]; no code is touched. *)
Theorem expired_code_is_refused_uncounted (env : Env) (message : Message.t)
    (d : DB) (user : User.t) (otp_row : Otp.t) :
  let tg_id := Message.from_id message in
  let text := Py.strip (Message.text message) in
  users d !! tg_id = Some user ->
  User.status user <> blocked ->
  code_stage (User.stage user) = true ->
  well_formed_code text = true ->
  latest_otp d (User.id user) = Some otp_row ->
  Otp.expires_at otp_row <= now_utc env ->
  exists ledger,
    on_email_or_code settings env message (opened d)
    = (Done,
       {| db :=
            with_users
              (<[tg_id := User.set_last_activity (now_utc env) user]>
                 (users d))
              (with_auth_attempts ledger d);
          trace :=
            [Flush
               (AuthAttempt.create (next_id AuthAttempt.id (auth_attempts d))
                  (User.id user) type_otp text (db_now env));
             Answer (code_expired (User.email user))] |}).
Proof.
  intros tg_id text Hu Hb Hs Hwf Hrow Hexp.
  destruct (_log_attempt_run env (User.id user) type_otp text d [])
    as (ledger & Hlog & _ & _).
  cbn [app] in Hlog.
  exists ledger.
  unfold on_email_or_code, opened. unfold bind at 1.
  fold tg_id. rewrite (_user_found _ _ _ _ _ Hu). user_fields.
  rewrite Hs, (code_stage_not_email _ Hs), orb_true_r. cbn [negb].
  rewrite bool_decide_false by exact Hb.
  fold text. unfold well_formed_code in Hwf.
  rewrite <- negb_andb, Hwf. cbn [negb].
  unfold bind at 1. rewrite Hlog.
  unfold bind at 1, get_db at 1. cbn [db].
  change (latest_otp (with_auth_attempts ledger d) (User.id user))
    with (latest_otp d (User.id user)).
  rewrite Hrow. cbn [ensure_aware_utc later].
  assert (Hdead : (now_utc env <? Otp.expires_at otp_row) = false)
    by (apply Z.ltb_ge; exact Hexp).
  rewrite Hdead. reflexivity.
Qed.

(** X9. An account that goes back to entering its address while its code is
    live and was sent less than [cooldown] seconds ago: a new, valid
    address is stored and the account waits for a code again, but no mail
    goes to the new address and no code is minted; the answer is "code
    sent" with the cooldown advisory. *)
Theorem new_address_within_cooldown_gets_no_mail (env : Env)
    (message : Message.t) (d : DB) (user : User.t) (existing : Otp.t) :
  let tg_id := Message.from_id message in
  let text := Py.strip (Message.text message) in
  users d !! tg_id = Some user ->
  User.status user <> blocked ->
  email_stage (User.stage user) = true ->
  email_bound_elsewhere d text tg_id = false ->
  Security.validate_email text (email_regex settings)
    (allowed_domains settings) = None ->
  existing_otp d (User.id user) = Some existing ->
  now_utc env < Otp.expires_at existing ->
  now_utc env - Otp.last_sent_at existing
  < seconds (otp_cooldown_seconds settings) ->
  exists ledger,
    on_email_or_code settings env message (opened d)
    = (Done,
       {| db :=
            with_users
              (<[tg_id :=
                   User.set_stage verifying_code
                     (User.set_email_attempts 0
                        (User.set_email (Some text)
                           (User.set_last_activity (now_utc env) user)))]>
                 (users d))
              (with_auth_attempts ledger d);
          trace :=
            [Flush
               (AuthAttempt.create (next_id AuthAttempt.id (auth_attempts d))
                  (User.id user) type_email text (db_now env));
             Answer (code_sent (Some warn_cooldown))] |}).
Proof.
  intros tg_id text Hu Hb Hs Hfree Hok Hex Hlive Hcool.
  destruct (_log_attempt_run env (User.id user) type_email text d [])
    as (ledger & Hlog & _ & _).
  cbn [app] in Hlog.
  exists ledger.
  unfold on_email_or_code, opened. unfold bind at 1.
  fold tg_id. rewrite (_user_found _ _ _ _ _ Hu). user_fields.
  rewrite Hs. cbn [orb negb].
  rewrite bool_decide_false by exact Hb.
  fold text.
  unfold bind at 1. rewrite Hlog.
  unfold bind at 1, get_db at 1. cbn [db].
  rewrite (email_bound_elsewhere_users d) by reflexivity.
  rewrite Hfree, Hok.
  unfold bind at 1. rewrite _send_or_resend_otp_cases. user_fields.
  change (existing_otp (with_auth_attempts ledger d) (User.id user))
    with (existing_otp d (User.id user)).
  rewrite Hex.
  apply Z.ltb_lt in Hlive. rewrite Hlive.
  assert (Hc : (now_utc env
                <? Otp.last_sent_at existing
                   + seconds (otp_cooldown_seconds settings)) = true)
    by (apply Z.ltb_lt; lia).
  rewrite Hc. reflexivity.
Qed.

End RegistrationPaths.

Section RoundTrip.

Import Registration.

Variable settings : Settings.
Variable env1 env2 : Env.
Variable mail_message code_message : Message.t.

#[local] Abbreviation tg := (Message.from_id mail_message).
#[local] Abbreviation address := (Py.strip (Message.text mail_message)).

(** The account once its address has been accepted, and once the code has
    been accepted. *)
#[local] Abbreviation waiting_for_code user :=
  (User.set_stage verifying_code
     (User.set_email_attempts 0
        (User.set_email (Some address)
           (User.set_last_activity (now_utc env1) user)))).

#[local] Abbreviation verified_account user :=
  (User.set_otp_attempts 0
     (User.set_email_attempts 0
        (User.set_stage authorized
           (User.set_status active
              (User.set_last_activity (now_utc env2)
                 (waiting_for_code user)))))).

Lemma address_accepted (d : DB) (user : User.t) :
  users d !! tg = Some user ->
  User.status user <> blocked ->
  email_stage (User.stage user) = true ->
  plain_text mail_message = true ->
  email_bound_elsewhere d address tg = false ->
  Security.validate_email address (email_regex settings)
    (allowed_domains settings) = None ->
  smtp_delivers env1 = true ->
  (forall o, In o (otps d) -> Otp.user_id o = User.id user ->
             Otp.used_at o <> None \/ Otp.expires_at o <= now_utc env1) ->
  exists ledger,
    handle settings env1 (Text mail_message) d
    = (Done,
       {| db :=
            with_users (<[tg := waiting_for_code user]> (users d))
              (with_otps
                 (otps d ++ [minted settings env1 d (waiting_for_code user)])
                 (with_auth_attempts ledger d));
          trace :=
            [Flush
               (AuthAttempt.create (next_id AuthAttempt.id (auth_attempts d))
                  (User.id user) type_email address (db_now env1));
             SendOtpEmail (Some address) (generate_otp env1);
             Answer (code_sent None)] |}).
Proof.
  intros Hu Hb Hs Hplain Hfree Hok Hsmtp Hdead.
  rewrite (handle_text_registration settings env1 mail_message d user
             Hplain Hu)
    by (destruct (User.stage user); try discriminate; reflexivity).
  destruct (_log_attempt_run env1 (User.id user) type_email address d [])
    as (ledger & Hlog & _ & _).
  cbn [app] in Hlog.
  exists ledger.
  unfold on_email_or_code, opened. unfold bind at 1.
  rewrite (_user_found _ _ _ _ _ Hu). user_fields.
  rewrite Hs. cbn [orb negb].
  rewrite bool_decide_false by exact Hb.
  unfold bind at 1. rewrite Hlog.
  unfold bind at 1, get_db at 1. cbn [db].
  rewrite (email_bound_elsewhere_users d) by reflexivity.
  rewrite Hfree, Hok.
  unfold bind at 1. rewrite _send_or_resend_otp_cases. user_fields.
  rewrite Hsmtp.
  change (existing_otp (with_auth_attempts ledger d) (User.id user))
    with (existing_otp d (User.id user)).
  assert (Hmint :
    match existing_otp d (User.id user) with
    | Some ex => (now_utc env1 <? Otp.expires_at ex) = false
    | None => True
    end).
  { destruct (existing_otp d (User.id user)) as [ex|] eqn:Hex; [|exact I].
    destruct (existing_otp_In _ _ _ Hex) as [Hin Hnone].
    destruct (Hdead ex Hin (existing_otp_owner _ _ _ Hex)) as [H|H];
      [contradiction|].
    apply Z.ltb_ge. exact H. }
  cbv zeta.
  destruct (existing_otp d (User.id user)) as [ex|];
    [rewrite Hmint|]; reflexivity.
Qed.

(** X10. Registration, the whole way in.  A non-blocked account that is
    entering its address, whose earlier codes are all older than now and
    used or expired, sends a free and valid address, and the mail is
    delivered: a code is minted and mailed to that address.  (When the mail
    is not delivered the handler raises instead, and nothing of the first
    step is stored.)  When the account then sends the digits that
    were mailed, before the code expires, it is answered with the success
    message and is stored as [active] and [authorized], with the address as
    its e-mail and both counters at zero; the code is spent. *)
Theorem registration_round_trip (d : DB) (user : User.t) :
  users d !! tg = Some user ->
  User.status user <> blocked ->
  email_stage (User.stage user) = true ->
  plain_text mail_message = true ->
  email_bound_elsewhere d address tg = false ->
  Security.validate_email address (email_regex settings)
    (allowed_domains settings) = None ->
  smtp_delivers env1 = true ->
  (forall o, In o (otps d) -> Otp.user_id o = User.id user ->
             Otp.created_at o < now_utc env1
             /\ (Otp.used_at o <> None \/ Otp.expires_at o <= now_utc env1)) ->
  Message.from_id code_message = tg ->
  plain_text code_message = true ->
  Py.strip (Message.text code_message) = generate_otp env1 ->
  well_formed_code (generate_otp env1) = true ->
  now_utc env2 < now_utc env1 + seconds (otp_ttl_seconds settings) ->
  exists s1 s2 row1 row2,
    handle settings env1 (Text mail_message) d = (Done, s1)
    /\ trace s1
       = [Flush row1; SendOtpEmail (Some address) (generate_otp env1);
          Answer (code_sent None)]
    /\ handle settings env2 (Text code_message) (db s1) = (Done, s2)
    /\ trace s2 = [Flush row2; Answer auth_success]
    /\ users (db s2) = <[tg := verified_account user]> (users d)
    /\ spent (db s2) (next_id Otp.id (otps d)).
Proof.
  intros Hu Hb Hs Hplain1 Hfree Hok Hsmtp Hold Hfrom Hplain2 Hcode Hwf Hlive.
  destruct (address_accepted d user Hu Hb Hs Hplain1 Hfree Hok Hsmtp)
    as (ledger1 & Hrun1).
  { intros o Ho Hid. apply (Hold o Ho Hid). }
  set (u1 := waiting_for_code user) in *.
  set (new := minted settings env1 d u1) in *.
  set (d1 := with_users (<[tg := u1]> (users d))
               (with_otps (otps d ++ [new]) (with_auth_attempts ledger1 d)))
    in *.
  assert (Hu1 : users d1 !! Message.from_id code_message = Some u1).
  { rewrite Hfrom. unfold d1. cbn [users with_users].
    apply lookup_insert_eq. }
  assert (Hlatest : latest_otp d1 (User.id user) = Some new).
  { unfold latest_otp, d1. cbn [otps with_users with_otps].
    rewrite List.filter_app. cbn [List.filter].
    rewrite bool_decide_true by reflexivity.
    rewrite order_by_desc_newest; [reflexivity|].
    intros o Ho. apply filter_In in Ho. destruct Ho as [Ho Hid].
    apply bool_decide_eq_true in Hid.
    apply (Hold o Ho Hid). }
  destruct (_log_attempt_run env2 (User.id user) type_otp
              (generate_otp env1) d1 [])
    as (ledger2 & Hlog2 & _ & _).
  cbn [app] in Hlog2.
  do 4 eexists. split; [exact Hrun1|]. split; [reflexivity|].
  cbn [db].
  assert (Hrun2 :
    handle settings env2 (Text code_message) d1
    = (Done,
       {| db :=
            with_users (<[tg := verified_account user]> (users d1))
              (update_otp (Otp.set_used_at (Some (now_utc env2)) new)
                 (with_auth_attempts ledger2 d1));
          trace :=
            [Flush
               (AuthAttempt.create
                  (next_id AuthAttempt.id (auth_attempts d1))
                  (User.id user) type_otp (generate_otp env1) (db_now env2));
             Answer auth_success] |})).
  { rewrite (handle_text_registration settings env2 code_message d1 u1
               Hplain2 Hu1) by reflexivity.
    unfold on_email_or_code, opened. unfold bind at 1.
    rewrite (_user_found _ _ _ _ _ Hu1). rewrite Hfrom, Hcode.
    unfold u1. user_fields. cbn [email_stage code_stage orb negb].
    rewrite bool_decide_false by exact Hb.
    unfold well_formed_code in Hwf.
    rewrite <- negb_andb, Hwf. cbn [negb].
    unfold bind at 1. rewrite Hlog2.
    unfold bind at 1, get_db at 1. cbn [db].
    change (latest_otp (with_auth_attempts ledger2 d1) (User.id user))
      with (latest_otp d1 (User.id user)).
    rewrite Hlatest.
    cbn [ensure_aware_utc later Otp.expires_at Otp.used_at Otp.code new
         minted].
    apply Z.ltb_lt in Hlive. rewrite Hlive. cbn [negb].
    rewrite bool_decide_false by (intros H; apply H; reflexivity).
    rewrite bool_decide_false by (intros H; apply H; reflexivity).
    reflexivity. }
  split; [exact Hrun2|]. split; [reflexivity|]. split.
  - cbn [db users with_users update_otp with_otps with_auth_attempts d1].
    apply insert_insert_eq.
  - cbn [db].
    apply (spent_after_verify
             (with_auth_attempts ledger2 d1) _ new (now_utc env2)).
    + unfold d1. cbn [otps with_auth_attempts with_users with_otps].
      apply in_app_iff. right. left. reflexivity.
    + reflexivity.
Qed.

End RoundTrip.

(** ** The attempt ledger *)

Section Ledger.

Import Registration.

Lemma filter_none {A} (Q : A -> bool) (l : list A) :
  (forall x, In x l -> Q x = false) -> List.filter Q l = [].
Proof.
  induction l as [|a l IH]; intros H; simpl; [reflexivity|].
  rewrite (H a) by (left; reflexivity).
  apply IH. intros x Hx. apply H. right. exact Hx.
Qed.

Lemma filter_every {A} (Q : A -> bool) (l : list A) :
  Forall (fun x => Q x = true) l -> List.filter Q l = l.
Proof.
  induction 1 as [|x l Hx _ IH]; simpl; [reflexivity|].
  rewrite Hx, IH. reflexivity.
Qed.

Lemma fresh_row_NoDup (d : DB) (row : AuthAttempt.t) :
  AuthAttempt.id row = next_id AuthAttempt.id (auth_attempts d) ->
  List.NoDup (map AuthAttempt.id (auth_attempts d)) ->
  List.NoDup (map AuthAttempt.id (auth_attempts d ++ [row])).
Proof.
  intros Hid Hnd. rewrite map_app. simpl.
  apply NoDup_app_remove_l with (l := []). simpl.
  apply List.NoDup_app; [exact Hnd|repeat constructor; intros []|].
  intros i Hi [<-|[]]. apply in_map_iff in Hi.
  destruct Hi as (a & Ha & Hin).
  pose proof (next_id_above AuthAttempt.id _ _ Hin). lia.
Qed.

(** X11. The ledger is never pruned.  [_log_attempt] adds its row and asks
    for the rows beyond the newest three, but the deletion it then calls is
    never awaited, so no row leaves the ledger: after any number of logged
    entries of one account and category the ledger is the ledger of before
    followed by one row per entry, in the order of the entries, each stamped
    by the database; the account's rows of the category are its rows of
    before followed by the new ones, so that they are more than three as
    soon as four entries were made; the rows of every other account and
    category are those of before, users, codes and admin log are not
    touched, every row is flushed, and distinct keys stay distinct. *)
Theorem ledger_is_never_pruned (env : Env) (user_id : Z)
    (typ : AttemptType) (values : list pystr) (d : DB) (tr : list IO) :
  let s' :=
    (for_each (_log_attempt env user_id typ) values
       {| db := d; trace := tr |}).2 in
  exists rows,
    auth_attempts (db s') = auth_attempts d ++ rows
    /\ map AuthAttempt.value rows = values
    /\ Forall (fun a => AuthAttempt.user_id a = user_id
                        /\ AuthAttempt.type a = typ
                        /\ AuthAttempt.ts a = db_now env) rows
    /\ ledger_of (db s') user_id typ = ledger_of d user_id typ ++ rows
    /\ (forall u t, (u, t) <> (user_id, typ) ->
          ledger_of (db s') u t = ledger_of d u t)
    /\ trace s' = tr ++ map Flush rows
    /\ users (db s') = users d /\ otps (db s') = otps d
    /\ admin_log (db s') = admin_log d
    /\ (List.NoDup (map AuthAttempt.id (auth_attempts d)) ->
        List.NoDup (map AuthAttempt.id (auth_attempts (db s')))).
Proof.
  cbv zeta.
  assert (Hrun : exists rows,
    let s' :=
      (for_each (_log_attempt env user_id typ) values
         {| db := d; trace := tr |}).2 in
    auth_attempts (db s') = auth_attempts d ++ rows
    /\ map AuthAttempt.value rows = values
    /\ Forall (fun a => AuthAttempt.user_id a = user_id
                        /\ AuthAttempt.type a = typ
                        /\ AuthAttempt.ts a = db_now env) rows
    /\ trace s' = tr ++ map Flush rows
    /\ users (db s') = users d /\ otps (db s') = otps d
    /\ admin_log (db s') = admin_log d
    /\ (List.NoDup (map AuthAttempt.id (auth_attempts d)) ->
        List.NoDup (map AuthAttempt.id (auth_attempts (db s'))))).
  { revert d tr. induction values as [|value values IH]; intros d tr.
    - exists []. cbn. rewrite !app_nil_r. repeat split; auto.
    - destruct (_log_attempt_run env user_id typ value d tr)
        as (ledger & Hlog & _ & ->).
      set (row := AuthAttempt.create _ user_id typ value (db_now env)) in *.
      assert (Hstep :
        for_each (_log_attempt env user_id typ) (value :: values)
          {| db := d; trace := tr |}
        = for_each (_log_attempt env user_id typ) values
            {| db := with_auth_attempts (auth_attempts d ++ [row]) d;
               trace := tr ++ [Flush row] |})
        by (cbn [for_each]; unfold bind; rewrite Hlog; reflexivity).
      rewrite Hstep. clear Hstep Hlog.
      destruct (IH (with_auth_attempts (auth_attempts d ++ [row]) d)
                  (tr ++ [Flush row]))
        as (rows & Hl & Hv & Hall & Htr & Hu & Ho & Ha & Hnd).
      exists (row :: rows). cbv zeta in *.
      cbn [auth_attempts with_auth_attempts users otps admin_log] in *.
      rewrite Hl, Htr, Hu, Ho, Ha, <- !app_assoc. cbn [app map].
      rewrite Hv.
      repeat split; auto.
      intros H. rewrite Hl, <- app_assoc in Hnd. apply Hnd.
      apply fresh_row_NoDup; [reflexivity|exact H]. }
  destruct Hrun as (rows & Hl & Hv & Hall & Htr & Hu & Ho & Ha & Hnd).
  cbv zeta in *.
  exists rows. repeat split; auto.
  - unfold ledger_of. rewrite Hl, List.filter_app. f_equal.
    apply filter_every. eapply Forall_impl; [exact Hall|].
    intros a (H1 & H2 & _). apply bool_decide_eq_true. split; assumption.
  - intros u t Hne. unfold ledger_of. rewrite Hl, List.filter_app.
    rewrite (filter_none _ rows); [apply app_nil_r|].
    intros a Hin. apply bool_decide_eq_false. intros [<- <-].
    rewrite Forall_forall in Hall.
    destruct (Hall a) as (H1 & H2 & _).
    { apply list_elem_of_In. exact Hin. }
    apply Hne. congruence.
Qed.

End Ledger.

(** ** The table of codes over time *)

Section CodesOverTime.

Import Registration.

Variable settings : Settings.

Lemma codes_change_otps (env : Env) (d0 d d' : DB) :
  otps d0 = otps d ->
  codes_change settings env d0 d' -> codes_change settings env d d'.
Proof.
  intros H [Hk|user Hm|ex Hin Hnone Hlive Hleft Hr|ex Hin Hnone Hlive Hu].
  - apply codes_kept. congruence.
  - apply (code_minted _ _ _ _ user). rewrite Hm. unfold minted.
    rewrite H. reflexivity.
  - apply (code_resent _ _ _ _ ex); try assumption; [congruence|].
    rewrite Hr. unfold update_otp. cbn [otps with_otps]. rewrite H.
    reflexivity.
  - apply (code_used _ _ _ _ ex); try assumption; [congruence|].
    rewrite Hu. unfold update_otp. cbn [otps with_otps]. rewrite H.
    reflexivity.
Qed.

Lemma _send_or_resend_otp_change (env : Env) (user : User.t) (d : DB)
    (tr : list IO) :
  codes_change settings env d
    (db (_send_or_resend_otp settings env user {| db := d; trace := tr |}).2).
Proof.
  rewrite _send_or_resend_otp_cases. cbv zeta.
  destruct (existing_otp d (User.id user)) as [ex|] eqn:Hex.
  - destruct (existing_otp_In _ _ _ Hex) as [Hin Hnone].
    destruct (Z.ltb_spec (now_utc env) (Otp.expires_at ex)) as [Hlive|_].
    + destruct (now_utc env <? _); [apply codes_kept; reflexivity|].
      destruct (Z.leb_spec (resend_max_per_session settings)
                  (Otp.resend_count ex)) as [_|Hleft].
      * apply codes_kept. reflexivity.
      * destruct (smtp_delivers env); [|apply codes_kept; reflexivity].
        apply (code_resent _ _ _ _ ex); auto.
    + destruct (smtp_delivers env);
        apply (code_minted _ _ _ _ user); reflexivity.
  - destruct (smtp_delivers env);
      apply (code_minted _ _ _ _ user); reflexivity.
Qed.

Lemma on_email_or_code_change (env : Env) (message : Message.t) (d : DB) :
  codes_change settings env d
    (db (on_email_or_code settings env message (opened d)).2).
Proof.
  destruct (_user_run env (Message.from_id message) d [])
    as (user & d0 & Hrun & Hotps & _).
  apply (codes_change_otps env d0); [exact Hotps|].
  unfold on_email_or_code, opened. unfold bind at 1.
  rewrite Hrun. user_fields.
  set (text := Py.strip (Message.text message)).
  assert (Hkeep : forall (h : Handled) d1 tr,
    otps d1 = otps d0 ->
    codes_change settings env d0 (db (h, {| db := d1; trace := tr |}).2))
    by (intros h d1 tr H; apply codes_kept; exact H).
  destruct (negb _); [apply Hkeep; reflexivity|].
  destruct (bool_decide _); [apply Hkeep; reflexivity|].
  destruct (email_stage (User.stage user)).
  - destruct (_log_attempt_run env (User.id user) type_email text d0 [])
      as (ledger & Hlog & _ & _).
    cbn [app] in Hlog.
    unfold bind at 1. rewrite Hlog.
    unfold bind at 1, get_db at 1. cbn [db].
    destruct (email_bound_elsewhere _ text _); [apply Hkeep; reflexivity|].
    destruct (Security.validate_email text _ _).
    + user_fields.
      destruct (email_max_attempts settings <? _).
      * unfold bind at 1. rewrite _notify_admin_on_block_run.
        destruct (admin_chat settings); apply Hkeep; reflexivity.
      * apply Hkeep; reflexivity.
    + unfold bind at 1.
      match goal with
      | |- context [_send_or_resend_otp settings env ?u ?s] =>
          pose proof (_send_or_resend_otp_change env u
                        (with_auth_attempts ledger d0) (trace s)) as Hsend;
          destruct (_send_or_resend_otp settings env u s)
            as [[[ok warn]|] s1] eqn:Hs1
      end;
        [|apply codes_kept; symmetry; exact Hotps].
      cbn [trace] in Hsend. rewrite Hs1 in Hsend. cbn [snd] in Hsend.
      cbn [bind commit get_db put_db answer emit ret db snd otps with_users].
      apply (codes_change_otps env (with_auth_attempts ledger d0));
        [reflexivity|].
      destruct Hsend as [Hk|u Hm|ex ? ? ? ? Hr|ex ? ? ? Hr].
      * apply codes_kept. exact Hk.
      * apply (code_minted _ _ _ _ u). exact Hm.
      * apply (code_resent _ _ _ _ ex); assumption.
      * apply (code_used _ _ _ _ ex); assumption.
  - destruct (negb (Py.isdigit text) || _)%bool; [apply Hkeep; reflexivity|].
    destruct (_log_attempt_run env (User.id user) type_otp text d0 [])
      as (ledger & Hlog & _ & _).
    cbn [app] in Hlog.
    unfold bind at 1. rewrite Hlog.
    unfold bind at 1, get_db at 1. cbn [db].
    change (latest_otp (with_auth_attempts ledger d0) (User.id user))
      with (latest_otp d0 (User.id user)).
    destruct (latest_otp d0 (User.id user)) as [otp_row|] eqn:Hrow;
      [|apply Hkeep; reflexivity].
    cbn [ensure_aware_utc later].
    destruct (Z.ltb_spec (now_utc env) (Otp.expires_at otp_row))
      as [Hlive|_]; cbn [negb]; [|apply Hkeep; reflexivity].
    destruct (bool_decide_reflect
                (ensure_aware_utc (Otp.used_at otp_row) <> None))
      as [Hused|Hunused]; [apply Hkeep; reflexivity|].
    destruct (bool_decide (text <> Otp.code otp_row)).
    + user_fields.
      destruct (otp_max_attempts settings <? _).
      * unfold bind at 1. rewrite _notify_admin_on_block_run.
        destruct (admin_chat settings); apply Hkeep; reflexivity.
      * apply Hkeep; reflexivity.
    + apply (code_used _ _ _ _ otp_row).
      * apply (latest_otp_In _ _ _ Hrow).
      * destruct (Otp.used_at otp_row); [|reflexivity].
        exfalso. apply Hunused. discriminate.
      * exact Hlive.
      * reflexivity.
Qed.

Lemma cb_otp_resend_change (env : Env) (from_id : Z) (d : DB) :
  codes_change settings env d
    (db (cb_otp_resend settings env from_id (opened d)).2).
Proof.
  destruct (_user_run env from_id d []) as (user & d0 & Hrun & Hotps & _).
  apply (codes_change_otps env d0); [exact Hotps|].
  unfold cb_otp_resend, opened. unfold bind at 1. rewrite Hrun. user_fields.
  destruct (bool_decide _); [apply codes_kept; reflexivity|].
  destruct (negb _); [apply codes_kept; reflexivity|].
  unfold bind at 1.
  match goal with
  | |- context [_send_or_resend_otp settings env ?u ?s] =>
      pose proof (_send_or_resend_otp_change env u d0 (trace s)) as Hsend;
      destruct (_send_or_resend_otp settings env u s)
        as [[[ok warn]|] s1] eqn:Hs1
  end;
    [|apply codes_kept; symmetry; exact Hotps].
  cbn [trace] in Hsend. rewrite Hs1 in Hsend. cbn [snd] in Hsend.
  cbn [bind commit get_db put_db answer emit ret db snd otps with_users].
  destruct Hsend as [Hk|u Hm|ex ? ? ? ? Hr|ex ? ? ? Hr].
  - apply codes_kept. exact Hk.
  - apply (code_minted _ _ _ _ u). exact Hm.
  - apply (code_resent _ _ _ _ ex); assumption.
  - apply (code_used _ _ _ _ ex); assumption.
Qed.

(** What any event does to the codes. *)
Lemma handle_change (env : Env) (ev : Event) (d : DB) :
  codes_change settings env d (db (handle settings env ev d).2).
Proof.
  assert (Hleaves : forall m,
            leaves_codes m ->
            codes_change settings env d (db (m (opened d)).2)).
  { intros m Hm. destruct (m (opened d)) as [r s'] eqn:Hrun.
    apply codes_kept. apply (Hm d r s' Hrun). }
  unfold handle. fold (opened d). destruct ev; cbn [dispatch].
  - unfold dispatch_text.
    destruct (negb (plain_text message)); [apply codes_kept; reflexivity|].
    unfold bind.
    destruct (Profile.on_profile_text settings env message (opened d))
      as [r1 s1] eqn:Hprof.
    pose proof (on_profile_text_leaves settings env message d _ _ Hprof)
      as [Hotps _].
    destruct r1; try (apply codes_kept; exact Hotps).
    destruct (on_profile_text_skip settings env message d s1 Hprof)
      as (Htr & _).
    destruct s1 as [d1 tr1]. cbn in Htr, Hotps. subst tr1.
    apply (codes_change_otps env d1); [exact Hotps|].
    apply on_email_or_code_change.
  - apply Hleaves, cmd_start_leaves.
  - apply Hleaves, on_photo_leaves.
  - apply cb_otp_resend_change.
  - apply Hleaves, cb_change_email_leaves.
  - apply Hleaves, cb_prof_start_leaves.
  - apply Hleaves, cb_prefilled_keep_leaves.
  - apply Hleaves, cb_prefilled_new_leaves.
  - apply Hleaves, cb_photo_from_profile_leaves.
  - apply Hleaves, cb_photo_skip_leaves.
  - apply Hleaves, cb_prof_save_leaves.
  - destruct (bool_decide _).
    + apply Hleaves, cb_prof_edit_review_leaves.
    + apply Hleaves, cb_prof_edit_field_leaves.
  - apply Hleaves, cb_prof_join_leaves.
Qed.

Lemma update_otp_one (row ex : Otp.t) (d : DB) :
  Otp.id row = Otp.id ex ->
  In ex (otps d) ->
  List.NoDup (map Otp.id (otps d)) ->
  forall P : Otp.t -> Otp.t -> Prop,
    (forall o, P o o) -> P ex row ->
    Forall2 P (otps d) (otps (update_otp row d)).
Proof.
  intros Hid Hin Hnd P Hrefl Hex.
  unfold update_otp. cbn [otps with_otps].
  induction (otps d) as [|o l IH]; [constructor|].
  simpl in Hnd. inversion Hnd as [|? ? Ho Hl]; subst.
  simpl. constructor.
  - destruct (bool_decide_reflect (Otp.id o = Otp.id row)) as [E|E];
      [|apply Hrefl].
    destruct Hin as [->|Hin]; [exact Hex|].
    exfalso. apply Ho. rewrite E, Hid. apply in_map, Hin.
  - destruct Hin as [->|Hin].
    + clear IH Hnd Hl. rewrite <- Hid in Ho.
      induction l as [|x l IHl]; [constructor|].
      simpl. constructor.
      * rewrite bool_decide_false; [apply Hrefl|].
        intros E. apply Ho. left. exact E.
      * apply IHl. intros H. apply Ho. right. exact H.
    + apply IH; assumption.
Qed.

Lemma same_code_refl (o : Otp.t) : same_code o o.
Proof. unfold same_code. repeat split; auto; lia. Qed.

Lemma same_code_trans (a b c : Otp.t) :
  same_code a b -> same_code b c -> same_code a c.
Proof.
  unfold same_code.
  intros (? & ? & ? & ? & ? & ? & Hu1 & ?) (? & ? & ? & ? & ? & ? & Hu2 & ?).
  repeat split; try congruence; [|lia].
  intros Hused. rewrite Hu2; [apply Hu1, Hused|].
  rewrite (Hu1 Hused). exact Hused.
Qed.

Lemma Forall2_same_code_refl (l : list Otp.t) : Forall2 same_code l l.
Proof. induction l; constructor; auto using same_code_refl. Qed.

Lemma Forall2_map_id (l m : list Otp.t) :
  Forall2 same_code l m -> map Otp.id m = map Otp.id l.
Proof.
  induction 1 as [|a b l m Hab _ IH]; [reflexivity|].
  simpl. rewrite IH. f_equal. apply Hab.
Qed.

(** One event: the codes of before are still there, in place and the same
    codes, and at most one code has been added behind them. *)
Lemma codes_only_age_step (env : Env) (ev : Event) (d : DB) :
  List.NoDup (map Otp.id (otps d)) ->
  exists olds news,
    otps (db (handle settings env ev d).2) = olds ++ news
    /\ Forall2 same_code (otps d) olds
    /\ List.NoDup (map Otp.id (olds ++ news)).
Proof.
  intros Hnd.
  destruct (handle_change env ev d)
    as [Hk|user Hm|ex Hin Hnone Hlive Hleft Hr|ex Hin Hnone Hlive Hu].
  - exists (otps d), []. rewrite app_nil_r.
    split; [exact Hk|]. split; [apply Forall2_same_code_refl|exact Hnd].
  - exists (otps d), [minted settings env d user].
    split; [exact Hm|]. split; [apply Forall2_same_code_refl|].
    rewrite map_app.
    apply List.NoDup_app; [exact Hnd|repeat constructor; intros []|].
    intros i Hi [<-|[]]. apply in_map_iff in Hi.
    destruct Hi as (o & Ho & Hino).
    pose proof (next_id_above Otp.id _ _ Hino) as Hlt.
    cbn in Ho. lia.
  - eexists _, []. rewrite app_nil_r. split; [exact Hr|].
    assert (H2 : Forall2 same_code (otps d)
                   (otps (update_otp
                            (Otp.set_resend (Otp.resend_count ex + 1)
                               (now_utc env) ex) d))).
    { apply (update_otp_one _ ex); auto using same_code_refl.
      unfold same_code. cbn. repeat split; auto; lia. }
    split; [exact H2|]. rewrite (Forall2_map_id _ _ H2). exact Hnd.
  - eexists _, []. rewrite app_nil_r. split; [exact Hu|].
    assert (H2 : Forall2 same_code (otps d)
                   (otps (update_otp
                            (Otp.set_used_at (Some (now_utc env)) ex) d))).
    { apply (update_otp_one _ ex); auto using same_code_refl.
      unfold same_code. cbn. repeat split; auto; try lia.
      intros H. contradiction. }
    split; [exact H2|]. rewrite (Forall2_map_id _ _ H2). exact Hnd.
Qed.

(** X12. Stored codes only age.  Along any sequence of events, on a table of
    codes with distinct keys: every code of the start is still stored, at
    its place, with the same key, owner, value and instants of minting and
    expiry (no resend extends a code's life), a [used_at] that was set is
    unchanged, and the count of resends has not gone down; what has been
    added stands behind, and the keys are still distinct. *)
Theorem stored_codes_only_age (evs : list (Env * Event)) (d : DB) :
  List.NoDup (map Otp.id (otps d)) ->
  exists olds news,
    otps (run settings evs d) = olds ++ news
    /\ Forall2 same_code (otps d) olds
    /\ List.NoDup (map Otp.id (otps (run settings evs d))).
Proof.
  revert d. induction evs as [|[env ev] evs IH]; intros d Hnd; cbn [run].
  - exists (otps d), []. rewrite app_nil_r.
    split; [reflexivity|]. split; [apply Forall2_same_code_refl|exact Hnd].
  - destruct (codes_only_age_step env ev d Hnd)
      as (olds1 & news1 & H1 & Hsame1 & Hnd1).
    rewrite <- H1 in Hnd1.
    destruct (IH _ Hnd1) as (olds2 & news2 & H2 & Hsame2 & Hnd2).
    rewrite H1 in Hsame2.
    apply Forall2_app_inv_l in Hsame2.
    destruct Hsame2 as (olds2a & olds2b & Ha & Hb & ->).
    exists olds2a, (olds2b ++ news2).
    split; [rewrite H2, <- app_assoc; reflexivity|].
    split; [|exact Hnd2].
    clear -Hsame1 Ha.
    revert olds2a Ha. induction Hsame1 as [|a b l m Hab _ IH];
      intros olds2a Ha; inversion Ha; subst; constructor.
    + eapply same_code_trans; eassumption.
    + apply IH. assumption.
Qed.

(** X13. Stored codes stay within the limits.  When every stored code has at
    most [resend_max_per_session] resends and lives [otp_ttl_seconds],
    the same holds after any sequence of events. *)
Theorem stored_codes_stay_within_limits (evs : list (Env * Event))
    (d : DB) :
  0 <= resend_max_per_session settings ->
  Forall (within_limits settings) (otps d) ->
  Forall (within_limits settings) (otps (run settings evs d)).
Proof.
  intros Hmax. revert d.
  induction evs as [|[env ev] evs IH]; intros d Hall; cbn [run];
    [exact Hall|].
  apply IH.
  assert (Hupd : forall row,
            within_limits settings row ->
            Forall (within_limits settings) (otps (update_otp row d))).
  { intros row Hrow. unfold update_otp. cbn [otps with_otps].
    apply List.Forall_forall. intros o Ho. apply in_map_iff in Ho.
    destruct Ho as (o0 & <- & Ho0).
    destruct (bool_decide _); [exact Hrow|].
    rewrite List.Forall_forall in Hall. apply Hall, Ho0. }
  destruct (handle_change env ev d)
    as [Hk|user Hm|ex Hin Hnone Hlive Hleft Hr|ex Hin Hnone Hlive Hu].
  - rewrite Hk. exact Hall.
  - rewrite Hm. apply Forall_app. split; [exact Hall|].
    constructor; [|constructor].
    unfold within_limits, minted. cbn. split; [exact Hmax|reflexivity].
  - rewrite Hr. apply Hupd.
    rewrite List.Forall_forall in Hall. destruct (Hall ex Hin) as [_ Httl].
    unfold within_limits. cbn. split; [lia|exact Httl].
  - rewrite Hu. apply Hupd.
    rewrite List.Forall_forall in Hall. apply (Hall ex Hin).
Qed.

End CodesOverTime.

(** ** The text steps of the wizard *)

Section WizardText.

Variable settings : Settings.
Variable env : Env.
Variable message : Message.t.

#[local] Abbreviation from := (Message.from_id message).
#[local] Abbreviation said := (Py.strip (Message.text message)).

(** X14. An age written with characters that [str.isdigit] accepts and [int]
    does not (the superscript digits) passes the first check of the age
    step and then makes [int(text)] raise: the handler dies, nothing is
    answered and nothing is stored, not even [last_activity]. *)
Theorem age_of_superscripts_kills_the_handler (d : DB) (user : User.t) :
  users d !! from = Some user ->
  User.status user <> blocked ->
  User.stage user = profile_age ->
  plain_text message = true ->
  Py.isdigit said = true ->
  Py.int said = None ->
  handle settings env (Text message) d = (Uncaught, opened d).
Proof.
  intros Hu Hb Hs Hplain Hdigit Hint.
  rewrite (handle_text_profile settings env message d user Hplain Hu)
    by (rewrite Hs; reflexivity).
  unfold Profile.on_profile_text, opened. unfold bind at 1.
  rewrite (_user_found _ _ _ _ _ Hu). user_fields.
  rewrite Hs. cbn [Profile.text_step negb].
  rewrite bool_decide_false by exact Hb.
  rewrite Hdigit, Hint. reflexivity.
Qed.

(** X15. Whatever the wizard's text handler is sent, what it stores is valid.
    The stored account differs from the one before at most in
    [last_activity], [stage] and the field of the current step, and a
    field that was written holds the trimmed text (for the age, its
    number), which passed the checks of the step: a name of 2 to 100
    characters without banned word, a description of at most 500
    characters without banned word, an age from 18 to 50, the list that
    [normalize_interests] accepted. *)
Theorem wizard_stores_only_valid_fields (d : DB) (user : User.t) :
  users d !! from = Some user ->
  exists user',
    users (db (Profile.on_profile_text settings env message (opened d)).2)
    !! from = Some user'
    /\ (User.name user' = User.name user
        \/ (User.stage user = profile_name
            /\ User.name user' = Some said
            /\ (2 <= length said <= 100)%nat
            /\ Security.contains_banned_words said (banned_words settings)
               = None))
    /\ (User.bio user' = User.bio user
        \/ (User.stage user = profile_bio
            /\ User.bio user' = Some said
            /\ (length said <= 500)%nat
            /\ Security.contains_banned_words said (banned_words settings)
               = None))
    /\ (User.age user' = User.age user
        \/ (User.stage user = profile_age
            /\ exists age,
                 User.age user' = Some age
                 /\ Py.int said = Some age /\ 18 <= age <= 50))
    /\ (User.interests_json user' = User.interests_json user
        \/ (User.stage user = profile_interests
            /\ exists interests,
                 User.interests_json user' = Some interests
                 /\ Security.normalize_interests said (banned_words settings)
                    = Security.Interests interests))
    /\ User.id user' = User.id user
    /\ User.status user' = User.status user
    /\ User.email user' = User.email user
    /\ User.email_attempts user' = User.email_attempts user
    /\ User.otp_attempts user' = User.otp_attempts user
    /\ User.photos_json user' = User.photos_json user.
Proof.
  intros Hu.
  pattern (Profile.on_profile_text settings env message (opened d)).
  match goal with |- ?P _ => set (Q := P) end.
  assert (Hsame : forall (h : Handled) (d1 : DB) (tr : list IO) (u : User.t),
    (u = user \/ u = User.set_last_activity (now_utc env) user) ->
    Q (h, {| db := with_users (<[from := u]> (users d1)) d1; trace := tr |})).
  { intros h d1 tr u Hu'. exists u. cbn. rewrite lookup_insert_eq.
    destruct Hu' as [->| ->]; repeat split; left; reflexivity. }
  assert (Hnone : forall (h : Handled) (tr : list IO),
    Q (h, {| db := d; trace := tr |})).
  { intros h tr. exists user. cbn. rewrite Hu.
    repeat split; left; reflexivity. }
  unfold Profile.on_profile_text, opened. unfold bind at 1.
  rewrite (_user_found _ _ _ _ _ Hu). user_fields.
  destruct (negb _).
  { cbn [bind commit get_db put_db ret db trace].
    apply Hsame. left. reflexivity. }
  destruct (bool_decide _).
  { cbn [bind commit get_db put_db ret db trace answer emit].
    apply Hsame. right. reflexivity. }
  destruct (User.stage user) eqn:Hs;
    try (cbn [bind put_db ret db trace]; apply Hnone).
  - (* the name *)
    destruct (Nat.leb 2 (length said) && Nat.leb (length said) 100)%bool
      eqn:Hlen; cbn [negb].
    2: { cbn [bind commit get_db put_db ret db trace answer emit].
         apply Hsame. right. reflexivity. }
    destruct (Security.contains_banned_words said _) eqn:Hban.
    { cbn [bind commit get_db put_db ret db trace answer emit].
      apply Hsame. right. reflexivity. }
    unfold Q. eexists. cbn. rewrite lookup_insert_eq. split; [reflexivity|].
    cbn. repeat split; try (left; reflexivity).
    right. apply andb_true_iff in Hlen. destruct Hlen as [H2 H100].
    apply Nat.leb_le in H2, H100. repeat split; auto.
  - (* the description *)
    destruct (Nat.ltb 500 (length said)) eqn:Hlen.
    { cbn [bind commit get_db put_db ret db trace answer emit].
      apply Hsame. right. reflexivity. }
    destruct (Security.contains_banned_words said _) eqn:Hban.
    { cbn [bind commit get_db put_db ret db trace answer emit].
      apply Hsame. right. reflexivity. }
    unfold Q. eexists. cbn. rewrite lookup_insert_eq. split; [reflexivity|].
    cbn. repeat split; try (left; reflexivity).
    right. apply Nat.ltb_ge in Hlen. repeat split; auto.
  - (* the age *)
    destruct (negb (Py.isdigit said)).
    { cbn [bind commit get_db put_db ret db trace answer emit].
      apply Hsame. right. reflexivity. }
    destruct (Py.int said) as [age|] eqn:Hint.
    2: { cbn [bind put_db ret db trace]. apply Hnone. }
    destruct ((18 <=? age) && (age <=? 50))%bool eqn:Hrange; cbn [negb].
    2: { cbn [bind commit get_db put_db ret db trace answer emit].
         apply Hsame. right. reflexivity. }
    unfold Q. eexists. cbn. rewrite lookup_insert_eq. split; [reflexivity|].
    cbn. repeat split; try (left; reflexivity).
    right. apply andb_true_iff in Hrange. destruct Hrange as [H18 H50].
    apply Z.leb_le in H18, H50. split; [reflexivity|].
    exists age. repeat split; auto.
  - (* the interests *)
    destruct (Security.normalize_interests said _) as [interests|err]
      eqn:Hnorm.
    2: { cbn [bind commit get_db put_db ret db trace answer emit].
         apply Hsame. right. reflexivity. }
    unfold bind at 1. cbn [commit bind get_db put_db ret db trace].
    unfold bind at 1.
    match goal with
    | |- context [Profile._send_profile_preview_with_photos ?u ?s] =>
        destruct (preview_leaves u
                    (with_users (<[from := u]> (users d)) d) [])
          as (out & -> & _)
    end.
    unfold Q. eexists. cbn. rewrite lookup_insert_eq. split; [reflexivity|].
    cbn. repeat split; try (left; reflexivity).
    right. split; [reflexivity|]. exists interests. split; reflexivity.
Qed.

End WizardText.

(** ** The accounts over time *)

Section AccountsOverTime.

Variable settings : Settings.
Variable env : Env.

Lemma _user_fetched (tg : Z) (d : DB) (tr : list IO) :
  exists user d0,
    _user env tg {| db := d; trace := tr |}
    = (user, {| db := d0; trace := tr |})
    /\ fetched tg d d0 user.
Proof.
  unfold _user, fetched, bind, get_db, put_db, ret. cbn [db trace].
  destruct (users d !! tg) as [user|] eqn:E.
  - exists user, d. auto.
  - do 2 eexists. split; [reflexivity|]. repeat split.
Qed.

Lemma _get_or_create_user_fetched (tg : Z) (uname : option pystr) (d : DB)
    (tr : list IO) :
  exists user d0,
    Start._get_or_create_user env tg uname {| db := d; trace := tr |}
    = (user, {| db := d0; trace := tr |})
    /\ fetched tg d d0 user.
Proof.
  unfold Start._get_or_create_user, fetched, bind, get_db, put_db, ret.
  cbn [db trace].
  destruct (users d !! tg) as [user|] eqn:E.
  - destruct uname as [n|]; [destruct (_ && _)%bool|];
      do 2 eexists; (split; [reflexivity|]); auto.
  - do 2 eexists. split; [reflexivity|]. repeat split.
Qed.

Lemma email_free (d : DB) (e : pystr) (tg : Z) :
  Registration.email_bound_elsewhere d e tg = false ->
  forall k u, k <> tg -> users d !! k = Some u -> User.email u <> Some e.
Proof.
  unfold Registration.email_bound_elsewhere. intros H k u Hk Hu He.
  assert (Hex : existsb
                  (fun kv : Z * User.t =>
                     bool_decide (User.email kv.2 = Some e /\ kv.1 <> tg))
                  (map_to_list (users d)) = true).
  { apply existsb_exists. exists (k, u). split.
    - apply list_elem_of_In, elem_of_map_to_list, Hu.
    - apply bool_decide_eq_true. auto. }
  congruence.
Qed.

(** The handler has written [user'] into the row of the sender. *)
Lemma accounts_step_commit (tg : Z) (d d0 d' : DB) (user user' : User.t) :
  fetched tg d d0 user ->
  users d' = <[tg := user']> (users d0) ->
  User.id user' = User.id user ->
  (User.status user = blocked -> User.status user' = blocked) ->
  (forall e, User.email user' = Some e ->
             User.email user = Some e
             \/ Registration.email_bound_elsewhere d0 e tg = false) ->
  accounts_step tg d d'.
Proof.
  unfold fetched, accounts_step. intros Hf Hd' Hid Hst Hmail.
  destruct (users d !! tg) as [stored|] eqn:E.
  - destruct Hf as (H0 & Hid0 & Hst0 & Hmail0). rewrite Hd', H0.
    split; [|split].
    + intros k Hk. apply lookup_insert_ne. congruence.
    + intros u' e Hu' He. rewrite lookup_insert_eq in Hu'.
      injection Hu' as <-.
      destruct (Hmail e He) as [H|H].
      * left. exists stored. split; congruence.
      * right. intros k u Hk Hu. apply (email_free d0 e tg H k u Hk).
        rewrite H0. exact Hu.
    + exists user'. rewrite lookup_insert_eq.
      repeat split; [congruence|]. intros H. apply Hst. congruence.
  - destruct Hf as (H0 & Hid0 & Hmail0). rewrite Hd', H0.
    split; [|split].
    + intros k Hk. rewrite !lookup_insert_ne by congruence. reflexivity.
    + intros u' e Hu' He. rewrite lookup_insert_eq in Hu'.
      injection Hu' as <-.
      destruct (Hmail e He) as [H|H]; [congruence|].
      right. intros k u Hk Hu. apply (email_free d0 e tg H k u Hk).
      rewrite H0, lookup_insert_ne by congruence. exact Hu.
    + right. exists user'. rewrite lookup_insert_eq. split; congruence.
Qed.

(** The handler has written nothing. *)
Lemma accounts_step_none (tg : Z) (d d' : DB) :
  users d' = users d -> accounts_step tg d d'.
Proof.
  unfold accounts_step. intros ->. split; [reflexivity|]. split.
  - intros u' e Hu' He. left. exists u'. auto.
  - destruct (users d !! tg) as [stored|] eqn:E; [|left; reflexivity].
    exists stored. auto.
Qed.

Ltac committed Hf :=
  cbn [bind commit get_db put_db ret db trace answer emit snd];
  eapply (accounts_step_commit _ _ _ _ _ _ Hf);
  [cbn [users with_users with_otps with_auth_attempts with_admin_log
        Registration.update_otp];
   rewrite ?insert_insert_eq; reflexivity
  |reflexivity
  |cbn; first [tauto|congruence]
  |cbn; intros ? ?; first [left; assumption|right; congruence]].

Lemma on_email_or_code_accounts (message : Message.t) (d : DB) :
  accounts_step (Message.from_id message) d
    (db (Registration.on_email_or_code settings env message (opened d)).2).
Proof.
  destruct (_user_fetched (Message.from_id message) d [])
    as (user & d0 & Hrun & Hf).
  unfold Registration.on_email_or_code, opened. unfold bind at 1.
  rewrite Hrun. user_fields.
  set (text := Py.strip (Message.text message)).
  destruct (negb _); [committed Hf|].
  destruct (bool_decide_reflect (User.status user = blocked)) as [Hb|Hb];
    [committed Hf|].
  destruct (Registration.email_stage (User.stage user)).
  - destruct (_log_attempt_run env (User.id user) type_email text d0 [])
      as (ledger & Hlog & _ & _).
    cbn [app] in Hlog.
    unfold bind at 1. rewrite Hlog.
    unfold bind at 1, get_db at 1. cbn [db].
    destruct (Registration.email_bound_elsewhere _ text _) eqn:Hfree;
      [committed Hf|].
    change (Registration.email_bound_elsewhere d0 text
              (Message.from_id message) = false) in Hfree.
    destruct (Security.validate_email text _ _).
    + user_fields.
      destruct (email_max_attempts settings <? _).
      * unfold bind at 1. rewrite _notify_admin_on_block_run.
        destruct (Registration.admin_chat settings); committed Hf.
      * committed Hf.
    + unfold bind at 1. rewrite _send_or_resend_otp_cases. cbv zeta.
      user_fields.
      destruct (Registration.existing_otp _ _) as [ex|];
        [destruct (now_utc env <? Otp.expires_at ex);
         [destruct (now_utc env <? _);
          [|destruct (resend_max_per_session settings <=? _)]|]|];
        try destruct (smtp_delivers env);
        first [committed Hf
              |apply accounts_step_none; reflexivity].
  - destruct (negb (Py.isdigit text) || _)%bool; [committed Hf|].
    destruct (_log_attempt_run env (User.id user) type_otp text d0 [])
      as (ledger & Hlog & _ & _).
    cbn [app] in Hlog.
    unfold bind at 1. rewrite Hlog.
    unfold bind at 1, get_db at 1. cbn [db].
    destruct (Registration.latest_otp _ _) as [otp_row|]; [|committed Hf].
    destruct (negb _); [committed Hf|].
    destruct (bool_decide _); [committed Hf|].
    destruct (bool_decide _).
    + user_fields.
      destruct (otp_max_attempts settings <? _).
      * unfold bind at 1. rewrite _notify_admin_on_block_run.
        destruct (Registration.admin_chat settings); committed Hf.
      * committed Hf.
    + committed Hf.
Qed.

Ltac previewed :=
  unfold bind at 1; cbn [commit bind get_db put_db ret db trace];
  unfold bind at 1;
  match goal with
  | |- context [Profile._send_profile_preview_with_photos ?u
                  {| db := ?d1; trace := ?tr |}] =>
      destruct (preview_leaves u d1 tr) as (out & -> & _)
  end.

Lemma cmd_start_accounts (message : Message.t) (d : DB) :
  accounts_step (Message.from_id message) d
    (db (Start.cmd_start settings env message (opened d)).2).
Proof.
  destruct (_get_or_create_user_fetched (Message.from_id message)
              (Message.from_username message) d [])
    as (user & d0 & Hrun & Hf).
  unfold Start.cmd_start, opened. unfold bind at 1. rewrite Hrun.
  user_fields.
  destruct (bool_decide_reflect (User.status user = blocked)) as [Hb|Hb];
    [committed Hf|].
  destruct (User.stage user); try (committed Hf; fail).
  previewed. committed Hf.
Qed.

Lemma cb_otp_resend_accounts (from_id : Z) (d : DB) :
  accounts_step from_id d
    (db (Registration.cb_otp_resend settings env from_id (opened d)).2).
Proof.
  destruct (_user_fetched from_id d []) as (user & d0 & Hrun & Hf).
  unfold Registration.cb_otp_resend, opened. unfold bind at 1. rewrite Hrun.
  user_fields.
  destruct (bool_decide_reflect (User.status user = blocked)) as [Hb|Hb];
    [committed Hf|].
  destruct (negb _); [committed Hf|].
  unfold bind at 1. rewrite _send_or_resend_otp_cases. cbv zeta.
  user_fields.
  destruct (Registration.existing_otp _ _) as [ex|];
    [destruct (now_utc env <? Otp.expires_at ex);
     [destruct (now_utc env <? _);
      [|destruct (resend_max_per_session settings <=? _)]|]|];
    try destruct (smtp_delivers env);
    first [committed Hf|apply accounts_step_none; reflexivity].
Qed.

Lemma cb_change_email_accounts (from_id : Z) (d : DB) :
  accounts_step from_id d
    (db (Registration.cb_change_email settings env from_id (opened d)).2).
Proof.
  destruct (_user_fetched from_id d []) as (user & d0 & Hrun & Hf).
  unfold Registration.cb_change_email, opened. unfold bind at 1.
  rewrite Hrun. user_fields.
  destruct (bool_decide_reflect (User.status user = blocked)) as [Hb|Hb];
    committed Hf.
Qed.

Lemma cb_prof_start_accounts (from_id : Z) (d : DB) :
  accounts_step from_id d
    (db (Profile.cb_prof_start settings env from_id (opened d)).2).
Proof.
  destruct (_user_fetched from_id d []) as (user & d0 & Hrun & Hf).
  unfold Profile.cb_prof_start, opened. unfold bind at 1.
  rewrite Hrun. user_fields.
  destruct (bool_decide_reflect (User.status user = blocked)) as [Hb|Hb];
    [committed Hf|].
  destruct (negb (Profile.profile_step (User.stage user))).
  { each_path; committed Hf. }
  unfold bind at 1. cbn [commit bind get_db put_db ret db trace].
  unfold bind at 1.
  destruct (User.stage user); try (committed Hf; fail).
  match goal with
  | |- context [Profile._send_profile_preview_with_photos ?u
                  {| db := ?d1; trace := ?tr |}] =>
      destruct (preview_leaves u d1 tr) as (out & -> & _)
  end.
  committed Hf.
Qed.

Lemma cb_prefilled_keep_accounts (from_id : Z) (d : DB) :
  accounts_step from_id d
    (db (Profile.cb_prefilled_keep settings env from_id (opened d)).2).
Proof.
  destruct (_user_fetched from_id d []) as (user & d0 & Hrun & Hf).
  unfold Profile.cb_prefilled_keep, opened. unfold bind at 1.
  rewrite Hrun. user_fields.
  destruct (User.import_profile_name user) as [n|];
    [destruct (Py.truthy n)|]; committed Hf.
Qed.

Lemma cb_prefilled_new_accounts (from_id : Z) (d : DB) :
  accounts_step from_id d
    (db (Profile.cb_prefilled_new settings env from_id (opened d)).2).
Proof.
  destruct (_user_fetched from_id d []) as (user & d0 & Hrun & Hf).
  unfold Profile.cb_prefilled_new, opened. unfold bind at 1.
  rewrite Hrun. committed Hf.
Qed.

Lemma _append_photo_keeps (user : User.t) (fid : pystr) :
  User.id (Profile._append_photo env user fid) = User.id user
  /\ User.status (Profile._append_photo env user fid) = User.status user
  /\ User.email (Profile._append_photo env user fid) = User.email user.
Proof.
  unfold Profile._append_photo. destruct (Nat.leb 3 _); repeat split.
Qed.

Lemma take_profile_photos_keeps (user : User.t) (count : nat)
    (photos : list (list pystr)) :
  User.id (Profile.take_profile_photos env user count photos) = User.id user
  /\ User.status (Profile.take_profile_photos env user count photos)
     = User.status user
  /\ User.email (Profile.take_profile_photos env user count photos)
     = User.email user.
Proof.
  revert user count. induction photos as [|p rest IH]; intros user count;
    cbn [Profile.take_profile_photos]; [repeat split|].
  destruct (last p) as [fid|]; [|apply IH].
  destruct (_append_photo_keeps user fid) as (Hid & Hst & Hmail).
  destruct (Nat.leb 3 (S count)); [repeat split; assumption|].
  destruct (IH (Profile._append_photo env user fid) (S count))
    as (H1 & H2 & H3).
  repeat split; congruence.
Qed.

Lemma cb_photo_from_profile_accounts (from_id : Z)
    (photos : list (list pystr)) (d : DB) :
  accounts_step from_id d
    (db (Profile.cb_photo_from_profile settings env from_id photos
           (opened d)).2).
Proof.
  destruct (_user_fetched from_id d []) as (user & d0 & Hrun & Hf).
  unfold Profile.cb_photo_from_profile, opened. unfold bind at 1.
  rewrite Hrun. user_fields.
  destruct (negb _); [committed Hf|].
  destruct (take_profile_photos_keeps
              (User.set_last_activity (now_utc env) user) 0 photos)
    as (Hid & Hst & Hmail).
  unfold bind at 1.
  match goal with
  | |- context [Profile.commit_photos from_id ?l ?u ?s] =>
      destruct (commit_photos_run from_id l u s) as (stored & ->)
  end.
  cbn [bind commit get_db put_db ret db trace answer emit snd].
  eapply (accounts_step_commit _ _ _ _ _ _ Hf);
    [reflexivity|user_fields; exact Hid|user_fields; rewrite Hst; tauto
    |user_fields; rewrite Hmail; auto].
Qed.

Lemma cb_photo_skip_accounts (from_id : Z) (d : DB) :
  accounts_step from_id d
    (db (Profile.cb_photo_skip settings env from_id (opened d)).2).
Proof.
  destruct (_user_fetched from_id d []) as (user & d0 & Hrun & Hf).
  unfold Profile.cb_photo_skip, opened. unfold bind at 1.
  rewrite Hrun. user_fields.
  destruct (negb _); committed Hf.
Qed.

Lemma on_photo_accounts (from_id : Z) (fid : pystr) (d : DB) :
  accounts_step from_id d
    (db (Profile.on_photo settings env from_id fid (opened d)).2).
Proof.
  destruct (_user_fetched from_id d []) as (user & d0 & Hrun & Hf).
  unfold Profile.on_photo, opened. unfold bind at 1.
  rewrite Hrun. user_fields.
  destruct (bool_decide_reflect (User.status user = blocked)) as [Hb|Hb];
    [committed Hf|].
  destruct (negb _); [committed Hf|].
  destruct (_append_photo_keeps
              (User.set_last_activity (now_utc env) user) fid)
    as (Hid & Hst & Hmail).
  destruct (Nat.leb 3 _);
    unfold bind at 1;
    match goal with
    | |- context [Profile.commit_photos from_id ?l ?u ?s] =>
        destruct (commit_photos_run from_id l u s) as (stored & ->)
    end;
    cbn [bind commit get_db put_db ret db trace answer emit snd];
    (eapply (accounts_step_commit _ _ _ _ _ _ Hf);
     [reflexivity|user_fields; exact Hid|user_fields; rewrite Hst; tauto
     |user_fields; rewrite Hmail; auto]).
Qed.

Lemma cb_prof_save_accounts (from_id : Z) (d : DB) :
  accounts_step from_id d
    (db (Profile.cb_prof_save settings env from_id (opened d)).2).
Proof.
  destruct (_user_fetched from_id d []) as (user & d0 & Hrun & Hf).
  unfold Profile.cb_prof_save, opened. unfold bind at 1.
  rewrite Hrun. committed Hf.
Qed.

Lemma cb_prof_edit_review_accounts (from_id : Z) (d : DB) :
  accounts_step from_id d
    (db (Profile.cb_prof_edit_review settings env from_id (opened d)).2).
Proof.
  destruct (_user_fetched from_id d []) as (user & d0 & Hrun & Hf).
  unfold Profile.cb_prof_edit_review, opened. unfold bind at 1.
  rewrite Hrun. previewed. committed Hf.
Qed.

Lemma cb_prof_edit_field_accounts (from_id : Z) (field : pystr) (d : DB) :
  accounts_step from_id d
    (db (Profile.cb_prof_edit_field settings env from_id field
           (opened d)).2).
Proof.
  destruct (_user_fetched from_id d []) as (user & d0 & Hrun & Hf).
  unfold Profile.cb_prof_edit_field, opened. unfold bind at 1.
  rewrite Hrun.
  repeat (destruct (bool_decide _); [committed Hf|]).
  apply accounts_step_none. reflexivity.
Qed.

Lemma on_profile_text_accounts (message : Message.t) (d : DB) :
  accounts_step (Message.from_id message) d
    (db (Profile.on_profile_text settings env message (opened d)).2).
Proof.
  destruct (_user_fetched (Message.from_id message) d [])
    as (user & d0 & Hrun & Hf).
  unfold Profile.on_profile_text, opened. unfold bind at 1.
  rewrite Hrun. user_fields.
  destruct (negb _); [committed Hf|].
  destruct (bool_decide_reflect (User.status user = blocked)) as [Hb|Hb];
    [committed Hf|].
  destruct (User.stage user);
    try (apply accounts_step_none; reflexivity).
  - destruct (negb _); [committed Hf|].
    destruct (Security.contains_banned_words _ _); committed Hf.
  - destruct (Nat.ltb _ _); [committed Hf|].
    destruct (Security.contains_banned_words _ _); committed Hf.
  - destruct (negb _); [committed Hf|].
    destruct (Py.int _); [|apply accounts_step_none; reflexivity].
    destruct (negb _); committed Hf.
  - destruct (Security.normalize_interests _ _); [|committed Hf].
    previewed. committed Hf.
Qed.

(** What any event does to the accounts. *)
Lemma handle_accounts (ev : Event) (d : DB) :
  accounts_step (sender ev) d (db (handle settings env ev d).2).
Proof.
  destruct ev; cbn [sender].
  - destruct (plain_text message) eqn:Hplain.
    + destruct (users d !! Message.from_id message) as [user|] eqn:Hu.
      * destruct (Profile.text_step (User.stage user)) eqn:Hstep.
        -- rewrite (handle_text_profile settings env message d user)
             by assumption.
           apply on_profile_text_accounts.
        -- rewrite (handle_text_registration settings env message d user)
             by assumption.
           apply on_email_or_code_accounts.
      * rewrite handle_text_passed_on;
          [|assumption|rewrite Hu; exact I].
        rewrite (_user_creates env message d Hu).
        set (created := User.create (next_user_id (users d)) None
                          (db_now env)).
        set (d1 := with_users
                     (<[Message.from_id message := created]> (users d)) d).
        destruct (on_email_or_code_accounts message d1)
          as (Hothers & Hmail & Hsender).
        unfold accounts_step. rewrite Hu.
        unfold d1 in *.
        cbn [users with_users] in Hothers, Hmail, Hsender.
        rewrite lookup_insert_eq in Hsender.
        destruct Hsender as (user' & Hu' & Hid & _).
        split; [|split].
        -- intros k Hk. rewrite (Hothers k Hk).
           apply lookup_insert_ne. congruence.
        -- intros u e Hlook He.
           destruct (Hmail u e Hlook He) as [(u0 & H0 & He0)|Hfree].
           ++ rewrite lookup_insert_eq in H0. injection H0 as <-.
              discriminate He0.
           ++ right. intros k u1 Hk Hu1. apply (Hfree k u1 Hk).
              rewrite lookup_insert_ne by congruence. exact Hu1.
        -- right. exists user'. split; [exact Hu'|exact Hid].
    + unfold handle, dispatch, dispatch_text. rewrite Hplain.
      apply accounts_step_none. reflexivity.
  - apply cmd_start_accounts.
  - apply on_photo_accounts.
  - apply cb_otp_resend_accounts.
  - apply cb_change_email_accounts.
  - apply cb_prof_start_accounts.
  - apply cb_prefilled_keep_accounts.
  - apply cb_prefilled_new_accounts.
  - apply cb_photo_from_profile_accounts.
  - apply cb_photo_skip_accounts.
  - apply cb_prof_save_accounts.
  - unfold handle, dispatch. destruct (bool_decide _).
    + apply cb_prof_edit_review_accounts.
    + apply cb_prof_edit_field_accounts.
  - apply accounts_step_none. reflexivity.
Qed.

End AccountsOverTime.

Section AccountsInvariants.

Variable settings : Settings.

Lemma id_below_next (d : DB) (k : Z) (u : User.t) :
  users d !! k = Some u -> User.id u < next_user_id (users d).
Proof.
  intros Hu. unfold next_user_id.
  apply (next_id_above (fun kv : Z * User.t => User.id kv.2)
           (map_to_list (users d)) (k, u)).
  apply list_elem_of_In, elem_of_map_to_list, Hu.
Qed.

(** X16. An event touches no account but the sender's: the row of every other
    account is the same after the event. *)
Theorem an_event_touches_only_its_sender (env : Env) (ev : Event) (d : DB)
    (k : Z) :
  k <> sender ev ->
  users (db (handle settings env ev d).2) !! k = users d !! k.
Proof. intros Hk. apply (handle_accounts settings env ev d), Hk. Qed.

(** X17. No event of a user lifts a block.  Along any sequence of events an
    account that is blocked is still stored, under the same key, and is
    still blocked. *)
Theorem no_event_unblocks (evs : list (Env * Event)) (d : DB) (tg : Z)
    (user : User.t) :
  users d !! tg = Some user ->
  User.status user = blocked ->
  exists user',
    users (run settings evs d) !! tg = Some user'
    /\ User.id user' = User.id user
    /\ User.status user' = blocked.
Proof.
  revert d user. induction evs as [|[env ev] evs IH]; intros d user Hu Hb;
    cbn [run]; [exists user; auto|].
  destruct (handle_accounts settings env ev d) as (Hothers & _ & Hmine).
  destruct (decide (tg = sender ev)) as [->|Hne].
  - rewrite Hu in Hmine. destruct Hmine as (u1 & Hu1 & Hid1 & Hb1).
    destruct (IH _ u1 Hu1 (Hb1 Hb)) as (u2 & Hu2 & Hid2 & Hb2).
    exists u2. repeat split; auto. congruence.
  - apply IH; [|exact Hb]. rewrite (Hothers tg Hne). exact Hu.
Qed.

Lemma distinct_ids_step (env : Env) (ev : Event) (d : DB) :
  distinct_ids d -> distinct_ids (db (handle settings env ev d).2).
Proof.
  intros Hd.
  destruct (handle_accounts settings env ev d) as (Hothers & _ & Hmine).
  set (d' := db (handle settings env ev d).2) in *.
  set (tg := sender ev) in *.
  assert (Hold : forall k u',
    users d' !! k = Some u' ->
    (exists u, users d !! k = Some u /\ User.id u = User.id u')
    \/ (k = tg /\ users d !! tg = None
        /\ User.id u' = next_user_id (users d))).
  { intros k u' Hu'. destruct (decide (k = tg)) as [->|Hne].
    - destruct (users d !! tg) as [u|] eqn:E.
      + destruct Hmine as (u1 & Hu1 & Hid1 & _).
        left. exists u. split; [reflexivity|]. congruence.
      + destruct Hmine as [Hnone|(u1 & Hu1 & Hid1)]; [congruence|].
        right. repeat split. congruence.
    - left. exists u'. split; [|reflexivity].
      rewrite <- (Hothers k Hne). exact Hu'. }
  intros k1 k2 u1 u2 H1 H2 Hid.
  destruct (Hold k1 u1 H1) as [(v1 & Hv1 & Hi1)|(-> & Hn1 & Hi1)],
           (Hold k2 u2 H2) as [(v2 & Hv2 & Hi2)|(-> & Hn2 & Hi2)].
  - apply (Hd k1 k2 v1 v2 Hv1 Hv2). congruence.
  - pose proof (id_below_next d k1 v1 Hv1). lia.
  - pose proof (id_below_next d k2 v2 Hv2). lia.
  - reflexivity.
Qed.

Lemma distinct_emails_step (env : Env) (ev : Event) (d : DB) :
  distinct_emails d -> distinct_emails (db (handle settings env ev d).2).
Proof.
  intros Hd.
  destruct (handle_accounts settings env ev d) as (Hothers & Hmail & _).
  set (d' := db (handle settings env ev d).2) in *.
  set (tg := sender ev) in *.
  assert (Hpair : forall k u1 u2 e,
    k <> tg ->
    users d' !! tg = Some u1 -> users d' !! k = Some u2 ->
    User.email u1 = Some e -> User.email u2 = Some e -> False).
  { intros k u1 u2 e Hk H1 H2 He1 He2.
    rewrite (Hothers k Hk) in H2.
    destruct (Hmail u1 e H1 He1) as [(u & Hu & He)|Hfree].
    - apply Hk. apply (Hd k tg u2 u e H2 Hu He2 He).
    - apply (Hfree k u2 Hk H2 He2). }
  intros k1 k2 u1 u2 e H1 H2 He1 He2.
  destruct (decide (k1 = tg)) as [->|Hn1], (decide (k2 = tg)) as [->|Hn2].
  - reflexivity.
  - exfalso. apply (Hpair k2 u1 u2 e); assumption.
  - exfalso. apply (Hpair k1 u2 u1 e); assumption.
  - rewrite (Hothers k1 Hn1) in H1. rewrite (Hothers k2 Hn2) in H2.
    apply (Hd k1 k2 u1 u2 e); assumption.
Qed.

(** X18. The uniqueness the tables ask for is kept by the handlers themselves.
    When the accounts have distinct keys and no address is held by two
    accounts, both are still so after any sequence of events: an account
    that is created gets a key of its own, and an address is stored only
    when no other account holds it. *)
Theorem accounts_stay_distinct (evs : list (Env * Event)) (d : DB) :
  distinct_ids d -> distinct_emails d ->
  distinct_ids (run settings evs d) /\ distinct_emails (run settings evs d).
Proof.
  revert d. induction evs as [|[env ev] evs IH]; intros d Hi He; cbn [run];
    [split; assumption|].
  apply IH; [apply distinct_ids_step|apply distinct_emails_step]; assumption.
Qed.

End AccountsInvariants.

(** ** Keyboards and the callback handlers *)

Section Buttons.

Import Builtins.

Lemma split_no_sep (sep : ascii) (s : pystr) :
  ~ In sep s -> split sep s = [s].
Proof.
  induction s as [|c s IH]; intros H; simpl; [reflexivity|].
  destruct (Ascii.eqb_spec c sep) as [->|_].
  - exfalso. apply H. left. reflexivity.
  - rewrite IH by (intros Hin; apply H; right; exact Hin). reflexivity.
Qed.

Lemma split_cut (sep : ascii) (a b : pystr) :
  ~ In sep a -> split sep (a ++ sep :: b) = a :: split sep b.
Proof.
  induction a as [|c a IH]; intros H; simpl.
  - rewrite Ascii.eqb_refl. reflexivity.
  - destruct (Ascii.eqb_spec c sep) as [->|_].
    + exfalso. apply H. left. reflexivity.
    + rewrite IH by (intros Hin; apply H; right; exact Hin). reflexivity.
Qed.

Lemma digits_decimal (u : Decimal.uint) : Forall decimal (digits u).
Proof. induction u; simpl; constructor; auto; reflexivity. Qed.

(** One step of [int_digits] on a decimal digit. *)
Ltac read_digit :=
  cbn [int_digits];
  match goal with
  | |- context [Py.ord ?c] =>
      let v := eval vm_compute in (Py.ord c) in change (Py.ord c) with v
  end;
  match goal with
  | |- context [Py.between 48 57 ?n] =>
      let v := eval vm_compute in (Py.between 48 57 n) in
      change (Py.between 48 57 n) with v
  end;
  cbv iota.

Lemma int_digits_acc (u : Decimal.uint) (acc : positive) :
  int_digits (Z.pos acc) true (digits u)
  = Some (Z.pos (Pos.of_uint_acc u acc)).
Proof.
  revert acc. induction u; intros acc; cbn [digits Pos.of_uint_acc];
    [reflexivity|..];
    read_digit; rewrite <- IHu; f_equal; lia.
Qed.

Lemma int_digits_uint (u : Decimal.uint) (after_digit : bool) :
  u <> Decimal.Nil \/ after_digit = true ->
  int_digits 0 after_digit (digits u) = Some (Z.of_N (Pos.of_uint u)).
Proof.
  revert after_digit.
  induction u; intros after_digit Hne;
    cbn [digits Pos.of_uint];
    [destruct Hne as [Hne| ->]; [congruence|reflexivity]
    |read_digit; apply IHu; right; reflexivity
    |read_digit; apply (int_digits_acc u)..].
Qed.

Lemma lskip_head (c : ascii) (s : pystr) :
  int_space c = false -> lskip (c :: s) = c :: s.
Proof. intros H. simpl. rewrite H. reflexivity. Qed.

Lemma decimal_no_space (c : ascii) : decimal c -> int_space c = false.
Proof.
  unfold decimal, int_space, Py.between. intros H.
  apply andb_true_iff in H. destruct H as [H1 H2].
  apply Nat.leb_le in H1, H2.
  repeat (apply orb_false_iff; split);
    try (apply andb_false_iff; right; apply Nat.leb_gt; lia);
    apply Nat.eqb_neq; lia.
Qed.

Lemma skip_nothing (s : pystr) :
  match s with c :: _ => int_space c = false | [] => True end ->
  match rev s with c :: _ => int_space c = false | [] => True end ->
  lskip (rev (lskip (rev s))) = s.
Proof.
  intros Hhead Hlast.
  assert (H1 : lskip (rev s) = rev s).
  { destruct (rev s); [reflexivity|]. apply lskip_head, Hlast. }
  rewrite H1, rev_involutive.
  destruct s; [reflexivity|]. apply lskip_head, Hhead.
Qed.

Lemma to_uint_nonnil (p : positive) : Pos.to_uint p <> Decimal.Nil.
Proof.
  intros H. pose proof (DecimalPos.Unsigned.of_to p) as Hp.
  rewrite H in Hp. discriminate.
Qed.

Lemma digits_ends (u : Decimal.uint) :
  u <> Decimal.Nil ->
  (exists c s, digits u = c :: s /\ decimal c)
  /\ (exists c s, rev (digits u) = c :: s /\ decimal c).
Proof.
  intros Hne. pose proof (digits_decimal u) as Hall.
  assert (Hnil : digits u <> []) by (destruct u; simpl; congruence).
  split.
  - destruct (digits u) as [|c s]; [congruence|].
    exists c, s. split; [reflexivity|]. inversion Hall; assumption.
  - apply Forall_rev in Hall.
    destruct (rev (digits u)) as [|c s] eqn:E.
    + apply (f_equal (@rev ascii)) in E. rewrite rev_involutive in E.
      simpl in E. congruence.
    + exists c, s. split; [reflexivity|]. inversion Hall; assumption.
Qed.

(** [int(str(n)) == n]. *)
Lemma int_str_of_int (n : Z) : int (str_of_int n) = Some n.
Proof.
  destruct n as [|p|p]; [reflexivity| |]; unfold str_of_int, Z.to_int.
  - destruct (digits_ends (Pos.to_uint p) (to_uint_nonnil p))
      as [(c & s & Hd & Hc) (c' & s' & Hr & Hc')].
    unfold int. rewrite skip_nothing.
    + rewrite Hd.
      assert (H43 : Nat.eqb (Py.ord c) 43 = false).
      { unfold decimal, Py.between in Hc. apply andb_true_iff in Hc.
        destruct Hc as [Hc _]. apply Nat.leb_le in Hc.
        apply Nat.eqb_neq. lia. }
      assert (H45 : Nat.eqb (Py.ord c) 45 = false).
      { unfold decimal, Py.between in Hc. apply andb_true_iff in Hc.
        destruct Hc as [Hc _]. apply Nat.leb_le in Hc.
        apply Nat.eqb_neq. lia. }
      rewrite H43, H45, <- Hd.
      rewrite int_digits_uint by (left; apply to_uint_nonnil).
      rewrite DecimalPos.Unsigned.of_to. reflexivity.
    + rewrite Hd. apply decimal_no_space, Hc.
    + rewrite Hr. apply decimal_no_space, Hc'.
  - destruct (digits_ends (Pos.to_uint p) (to_uint_nonnil p))
      as [_ (c' & s' & Hr & Hc')].
    unfold int. rewrite skip_nothing.
    + cbn [Py.ord nat_of_ascii]. cbn -[int_digits digits Pos.to_uint].
      rewrite int_digits_uint by (left; apply to_uint_nonnil).
      rewrite DecimalPos.Unsigned.of_to. reflexivity.
    + reflexivity.
    + cbn [rev]. rewrite Hr. cbn [app]. apply decimal_no_space, Hc'.
Qed.

Lemma str_of_int_no_colon (n : Z) : ~ In ":"%char (str_of_int n).
Proof.
  assert (Hd : forall u, ~ In ":"%char (digits u)).
  { intros u Hin. pose proof (digits_decimal u) as Hall.
    rewrite List.Forall_forall in Hall. specialize (Hall _ Hin).
    discriminate. }
  unfold str_of_int. destruct (Z.to_int n) as [u|u]; [apply Hd|].
  intros [H|H]; [discriminate|]. apply (Hd u H).
Qed.

Lemma admin_buttons_parts (user_id : Z) :
  split ":"%char (str "admin:block:" ++ str_of_int user_id)
  = [str "admin"; str "block"; str_of_int user_id]
  /\ split ":"%char (str "admin:unblock:" ++ str_of_int user_id)
     = [str "admin"; str "unblock"; str_of_int user_id].
Proof.
  pose proof (str_of_int_no_colon user_id) as Hcolon.
  split.
  - change (str "admin:block:" ++ str_of_int user_id)
      with (str "admin" ++ ":"%char :: str "block" ++ ":"%char
            :: str_of_int user_id).
    rewrite split_cut by (cbv; intuition discriminate).
    rewrite split_cut by (cbv; intuition discriminate).
    rewrite split_no_sep by exact Hcolon. reflexivity.
  - change (str "admin:unblock:" ++ str_of_int user_id)
      with (str "admin" ++ ":"%char :: str "unblock" ++ ":"%char
            :: str_of_int user_id).
    rewrite split_cut by (cbv; intuition discriminate).
    rewrite split_cut by (cbv; intuition discriminate).
    rewrite split_no_sep by exact Hcolon. reflexivity.
Qed.

(** X19. The two buttons under a request to the admins carry the key of the
    account in a form that the admin handler reads back.  For every key
    the keyboard has one row of two buttons; the data of the first splits
    at the colons into exactly ["admin"], ["block"] and the digits of the
    key, the data of the second into ["admin"], ["unblock"] and the
    digits, and [int] of the digits is the key.  The data of either button
    is matched by no filter of the user routers, so that it reaches the
    admin handler, and it starts with a prefix that this handler acts
    on. *)
Theorem admin_buttons_carry_the_account (user_id : Z) :
  exists block_data unblock_data,
    Keyboards.kb_admin_decision user_id = [[block_data; unblock_data]]
    /\ split ":"%char block_data
       = [str "admin"; str "block"; str_of_int user_id]
    /\ split ":"%char unblock_data
       = [str "admin"; str "unblock"; str_of_int user_id]
    /\ int (str_of_int user_id) = Some user_id
    /\ forall data,
         data = block_data \/ data = unblock_data ->
         (forall from_id photos, callback_event from_id photos data = None)
         /\ (Py.startswith data (str "admin:block:")
             || Py.startswith data (str "admin:unblock:"))%bool = true.
Proof.
  destruct (admin_buttons_parts user_id) as [Hblock Hunblock].
  do 2 eexists. split; [reflexivity|]. split; [|split; [|split]].
  - exact Hblock.
  - exact Hunblock.
  - apply int_str_of_int.
  - intros data [->| ->]; (split; [reflexivity|]);
      apply orb_true_iff; [left|right];
      apply startswith_prefix; eexists; reflexivity.
Qed.

(** X20. No button of the keyboards of the user flows is a dead end.  The data
    of every button is taken by a handler of the profile or registration
    router, the one of its scenario; and every edit button of the review
    keyboard names a field that [cb_prof_edit_field] knows. *)
Theorem user_buttons_reach_their_handlers (from_id : Z)
    (photos : list (list pystr)) :
  map (map (callback_event from_id photos)) Keyboards.kb_auth_code_wait
  = [[Some (OtpResend from_id)]; [Some (OtpChangeEmail from_id)]]
  /\ map (map (callback_event from_id photos)) Keyboards.kb_start_authorized
     = [[Some (ProfStart from_id)]]
  /\ map (map (callback_event from_id photos)) Keyboards.kb_profile_filled
     = [[Some (ProfEdit from_id (str "review"))]; [Some (ProfJoin from_id)]]
  /\ map (map (callback_event from_id photos)) Keyboards.kb_profile_photo
     = [[Some (ProfPhotoFromProfile from_id photos)];
        [Some (ProfPhotoSkip from_id)]]
  /\ map (map (callback_event from_id photos)) Keyboards.kb_prefilled_data
     = [[Some (ProfPrefilledKeep from_id)];
        [Some (ProfPrefilledNew from_id)]]
  /\ map (map (callback_event from_id photos)) Keyboards.kb_profile_review
     = [[Some (ProfSave from_id)];
        [Some (ProfEdit from_id (str "name"));
         Some (ProfEdit from_id (str "photo"))];
        [Some (ProfEdit from_id (str "bio"));
         Some (ProfEdit from_id (str "age"))];
        [Some (ProfEdit from_id (str "interests"))]]
  /\ forall data field,
       In data (concat Keyboards.kb_profile_review) ->
       callback_event from_id photos data = Some (ProfEdit from_id field) ->
       collection_stage field <> None.
Proof.
  repeat split.
  intros data field Hin.
  cbn in Hin.
  destruct Hin as [<-|[<-|[<-|[<-|[<-|[<-|[]]]]]]];
    cbn; intros [= <-]; discriminate.
Qed.

End Buttons.

(** ** The admin panel *)

Section AdminPanel.

Import Admin.

Variable env : Env.



Lemma length_le_1 {A} (l : list A) :
  (length l <= 1)%nat -> l = [] \/ exists a, l = [a].
Proof.
  destruct l as [|a [|b l]]; simpl; intros H; [left|right; exists a|lia];
    reflexivity.
Qed.

(** After the synchronisation there is one role ["admin"] and the account
    is linked to it once; a second synchronisation changes nothing. *)
Lemma sync_role_consistent (user : User.t) (s : Store) :
  roles_consistent s (User.id user) ->
  exists s' role,
    sync_role user s = Some s'
    /\ base s' = base s
    /\ panel_log s' = panel_log s
    /\ admin_grants s' (User.id user) = [role]
    /\ sync_role user s' = Some s'.
Proof.
  intros [Hroles Hlinks].
  assert (Hfinish : forall s0 role,
    base s0 = base s -> panel_log s0 = panel_log s ->
    admin_roles s0 = [role] ->
    (length (links s0 (User.id user) (Role.id role)) <= 1)%nat ->
    exists s' role',
      match scalar_one_or_none (links s0 (User.id user) (Role.id role)) with
      | ManyRows => None
      | OneRow _ => Some s0
      | NoRow =>
          Some
            (with_user_roles
               (user_roles s0 ++
                [{| UserRole.id := next_id UserRole.id (user_roles s0);
                    UserRole.user_id := User.id user;
                    UserRole.role_id := Role.id role |}])
               s0)
      end = Some s'
      /\ base s' = base s
      /\ panel_log s' = panel_log s
      /\ admin_grants s' (User.id user) = [role']
      /\ sync_role user s' = Some s').
  { intros s0 role Hbase Hlog Hone Hl.
    destruct (length_le_1 _ Hl) as [Hnone|(l & Hl1)].
    - rewrite Hnone. cbn [scalar_one_or_none].
      eexists _, role. split; [reflexivity|].
      set (link := {| UserRole.id := next_id UserRole.id (user_roles s0);
                      UserRole.user_id := User.id user;
                      UserRole.role_id := Role.id role |}).
      set (s' := with_user_roles (user_roles s0 ++ [link]) s0).
      assert (Hroles' : admin_roles s' = [role]) by exact Hone.
      assert (Hlinks' : links s' (User.id user) (Role.id role) = [link]).
      { unfold links, s'. cbn [user_roles with_user_roles].
        rewrite List.filter_app. fold (links s0 (User.id user) (Role.id role)).
        rewrite Hnone. cbn [List.filter app].
        rewrite bool_decide_true by (split; reflexivity). reflexivity. }
      split; [exact Hbase|]. split; [exact Hlog|]. split.
      + unfold admin_grants. rewrite Hroles'. cbn [flat_map].
        rewrite Hlinks'. reflexivity.
      + unfold sync_role. rewrite Hroles'. cbn [scalar_one_or_none].
        rewrite Hlinks'. reflexivity.
    - rewrite Hl1. cbn [scalar_one_or_none].
      exists s0, role. split; [reflexivity|].
      split; [exact Hbase|]. split; [exact Hlog|]. split.
      + unfold admin_grants. rewrite Hone. cbn [flat_map].
        rewrite Hl1. reflexivity.
      + unfold sync_role. rewrite Hone. cbn [scalar_one_or_none].
        rewrite Hl1. reflexivity. }
  unfold sync_role.
  destruct (length_le_1 _ Hroles) as [Hnone|(role & Hone)].
  - rewrite Hnone. cbn [scalar_one_or_none].
    set (role := {| Role.id := next_id Role.id (roles s);
                    Role.name := str "admin" |}).
    apply (Hfinish (with_roles (roles s ++ [role]) s) role);
      try reflexivity.
    + unfold admin_roles. cbn [roles with_roles].
      rewrite List.filter_app. fold (admin_roles s). rewrite Hnone.
      reflexivity.
    + apply (Hlinks (Role.id role)).
  - rewrite Hone. cbn [scalar_one_or_none].
    apply (Hfinish s role); try reflexivity; [exact Hone|apply Hlinks].
Qed.

(** [_is_admin] for an identifier of [ADMIN_IDS], on consistent tables. *)
Lemma _is_admin_listed (admin_ids : gset Z) (tg_id : Z) (s : Store) :
  tg_id ∈ admin_ids ->
  roles_consistent s (key_of s tg_id) ->
  exists s1 user role,
    _is_admin admin_ids env tg_id s = Some (true, s1)
    /\ users (base s1) !! tg_id = Some user
    /\ User.id user = key_of s tg_id
    /\ match _get_user s tg_id with
       | Some stored => user = stored /\ base s1 = base s
       | None =>
           user = new_user (next_user_id (users (base s))) None (db_now env)
           /\ base s1
              = with_users (<[tg_id := user]> (users (base s))) (base s)
       end
    /\ panel_log s1 = panel_log s
    /\ admin_grants s1 (User.id user) = [role]
    /\ forall ids, _is_admin ids env tg_id s1 = Some (true, s1).
Proof.
  intros Hin Hcons. unfold _is_admin, key_of in *.
  assert (Hagain : forall s1 user role,
    users (base s1) !! tg_id = Some user ->
    admin_grants s1 (User.id user) = [role] ->
    sync_role user s1 = Some s1 ->
    forall ids, _is_admin ids env tg_id s1 = Some (true, s1)).
  { intros s1 user role Hu Hg Hs ids. unfold _is_admin, _get_user.
    rewrite Hu. destruct (bool_decide (tg_id ∈ ids)).
    - rewrite Hs, Hg. reflexivity.
    - rewrite Hg. reflexivity. }
  unfold _get_user in *.
  destruct (users (base s) !! tg_id) as [stored|] eqn:Hu.
  - rewrite bool_decide_true by exact Hin.
    destruct (sync_role_consistent stored s Hcons)
      as (s1 & role & Hsync & Hbase & Hlog & Hg & Hidem).
    rewrite Hsync, Hg. cbn [scalar_one_or_none].
    exists s1, stored, role. split; [reflexivity|].
    assert (Hu1 : users (base s1) !! tg_id = Some stored)
      by (rewrite Hbase; exact Hu).
    repeat split; auto. apply (Hagain s1 stored role); assumption.
  - rewrite bool_decide_true by exact Hin.
    set (user := new_user (next_user_id (users (base s))) None (db_now env))
      in *.
    set (s0 := with_base
                 (with_users (<[tg_id := user]> (users (base s))) (base s))
                 s) in *.
    destruct (sync_role_consistent user s0)
      as (s1 & role & Hsync & Hbase & Hlog & Hg & Hidem);
      [exact Hcons|].
    rewrite Hsync, Hg. cbn [scalar_one_or_none].
    exists s1, user, role. split; [reflexivity|].
    assert (Hu1 : users (base s1) !! tg_id = Some user).
    { rewrite Hbase. unfold s0. cbn. apply lookup_insert_eq. }
    repeat split; auto. apply (Hagain s1 user role); assumption.
Qed.

(** X21. An identifier listed in [ADMIN_IDS] is an admin for good.  On
    consistent role tables [_is_admin] answers [True] for it, having made
    sure that the account, the role and the link exist; asking again
    changes nothing, and the answer stays [True] whatever [ADMIN_IDS]
    holds then: taking the identifier off the list does not take the
    role away. *)
Theorem listed_admin_is_granted_for_good (admin_ids : gset Z) (tg_id : Z)
    (s : Store) :
  tg_id ∈ admin_ids ->
  roles_consistent s (key_of s tg_id) ->
  exists s1,
    _is_admin admin_ids env tg_id s = Some (true, s1)
    /\ otps (base s1) = otps (base s)
    /\ auth_attempts (base s1) = auth_attempts (base s)
    /\ panel_log s1 = panel_log s
    /\ (forall k, k <> tg_id ->
                  users (base s1) !! k = users (base s) !! k)
    /\ forall ids, _is_admin ids env tg_id s1 = Some (true, s1).
Proof.
  intros Hin Hcons.
  destruct (_is_admin_listed admin_ids tg_id s Hin Hcons)
    as (s1 & user & role & Hrun & Hu & Hid & Hcase & Hlog & Hg & Hagain).
  exists s1. split; [exact Hrun|].
  destruct (_get_user s tg_id) as [stored|].
  - destruct Hcase as [_ ->]. repeat split; auto.
  - destruct Hcase as [_ ->]. repeat split; auto.
    intros k Hk. cbn. apply lookup_insert_ne. congruence.
Qed.

(** X22. Without admin rights nothing is decided.  For a sender who is not
    listed in [ADMIN_IDS] and whose account, if any, holds no grant of the
    role ["admin"], the callback handler leaves the store as it is and
    sends nothing but the refusal (for data that is not a decision, not
    even that), and [/admin] leaves the store as it is and refuses. *)
Theorem decisions_need_admin_rights (admin_ids : gset Z) (cq : Callback.t)
    (s : Store) :
  Callback.from_id cq ∉ admin_ids ->
  match _get_user s (Callback.from_id cq) with
  | Some user => admin_grants s (User.id user) = []
  | None => True
  end ->
  admin_callbacks admin_ids env cq s
  = (Done, s,
     if (Py.startswith (Callback.data cq) (str "admin:block:")
         || Py.startswith (Callback.data cq) (str "admin:unblock:"))%bool
     then [CallbackAnswer (Some no_rights)] else [])
  /\ forall message,
       Message.from_id message = Callback.from_id cq ->
       cmd_admin admin_ids env message s
       = (Done, s,
          [Answer
             match _get_user s (Callback.from_id cq) with
             | Some user =>
                 if bool_decide (User.status user = blocked)
                 then no_rights_blocked else no_rights
             | None => no_rights
             end]).
Proof.
  intros Hout Hgrants.
  assert (Hno : _is_admin admin_ids env (Callback.from_id cq) s
                = Some (false, s)).
  { unfold _is_admin.
    destruct (_get_user s (Callback.from_id cq)) as [user|].
    - rewrite bool_decide_false by exact Hout. rewrite Hgrants. reflexivity.
    - rewrite bool_decide_false by exact Hout. reflexivity. }
  split.
  - unfold admin_callbacks.
    destruct (Py.startswith _ _ || Py.startswith _ _)%bool; [|reflexivity].
    cbn [negb]. rewrite Hno. reflexivity.
  - intros message Hfrom. unfold cmd_admin. rewrite Hfrom.
    destruct (_get_user s (Callback.from_id cq)) as [user|].
    + destruct (bool_decide (User.status user = blocked)); [reflexivity|].
      rewrite Hno. reflexivity.
    + rewrite bool_decide_false by exact Hout. reflexivity.
Qed.


(** X24. [/admin] opens the panel for a listed identifier that is not blocked:
    the account is stored (created when it was missing) with
    [last_activity] at the time of the command, the opening is logged
    under the sender's identifier, and the answer is "panel opened";
    codes and ledger are untouched.  For a blocked account the answer is
    the refusal and nothing is stored, listed or not. *)
Theorem panel_opens_for_a_listed_admin (admin_ids : gset Z)
    (message : Message.t) (s : Store) :
  let from_id := Message.from_id message in
  (from_id ∈ admin_ids ->
   roles_consistent s (key_of s from_id) ->
   match _get_user s from_id with
   | Some user => User.status user <> blocked
   | None => True
   end ->
   exists s3 user,
     cmd_admin admin_ids env message s = (Done, s3, [Answer panel_opened])
     /\ users (base s3) !! from_id = Some user
     /\ User.id user = key_of s from_id
     /\ User.last_activity user = now_utc env
     /\ panel_log s3
        = panel_log s ++
          [{| PanelLog.admin_telegram_id := from_id;
              PanelLog.action := open_admin;
              PanelLog.user_id := User.id user;
              PanelLog.ts := db_now env |}]
     /\ otps (base s3) = otps (base s)
     /\ auth_attempts (base s3) = auth_attempts (base s))
  /\ (forall user,
        _get_user s from_id = Some user ->
        User.status user = blocked ->
        cmd_admin admin_ids env message s
        = (Done, s, [Answer no_rights_blocked])).
Proof.
  intros from_id. split.
  - intros Hin Hcons Hstatus. unfold cmd_admin. fold from_id.
    set (fetched :=
      match _get_user s from_id with
      | Some user => Some (user, s)
      | None =>
          if bool_decide (from_id ∈ admin_ids)
          then
            Some
              (new_user (next_user_id (users (base s)))
                 (Message.from_username message) (db_now env),
               with_base
                 (with_users
                    (<[from_id :=
                         new_user (next_user_id (users (base s)))
                           (Message.from_username message) (db_now env)]>
                       (users (base s)))
                    (base s)) s)
          else None
      end).
    assert (Hf : exists user s1,
      fetched = Some (user, s1)
      /\ users (base s1) !! from_id = Some user
      /\ User.id user = key_of s from_id
      /\ User.status user <> blocked
      /\ roles s1 = roles s /\ user_roles s1 = user_roles s
      /\ panel_log s1 = panel_log s
      /\ otps (base s1) = otps (base s)
      /\ auth_attempts (base s1) = auth_attempts (base s)).
    { unfold fetched, key_of. unfold _get_user in *.
      destruct (users (base s) !! from_id) as [user|] eqn:Hu.
      - exists user, s. repeat split; auto.
      - rewrite bool_decide_true by exact Hin.
        do 2 eexists. split; [reflexivity|]. cbn.
        rewrite lookup_insert_eq. repeat split; auto; discriminate. }
    destruct Hf as (user & s1 & -> & Hu & Hid & Hb & Hr & Hl & Hlog & Ho & Ha).
    rewrite bool_decide_false by exact Hb.
    assert (Hkey : key_of s1 from_id = key_of s from_id).
    { unfold key_of at 1, _get_user. rewrite Hu. exact Hid. }
    assert (Hcons1 : roles_consistent s1 (key_of s1 from_id)).
    { rewrite Hkey. destruct Hcons as [H1 H2].
      unfold roles_consistent, admin_roles, links. rewrite Hr, Hl.
      split; [exact H1|exact H2]. }
    destruct (_is_admin_listed admin_ids from_id s1 Hin Hcons1)
      as (s2 & user2 & role & Hrun & Hu2 & Hid2 & Hcase & Hlog2 & Hg & Hagain).
    unfold _get_user in Hcase. rewrite Hu in Hcase.
    destruct Hcase as [-> Hbase2].
    rewrite Hrun.
    eexists _, (User.set_last_activity (now_utc env) user).
    split; [reflexivity|].
    cbn [base with_panel_log with_base users with_users panel_log otps
         auth_attempts].
    rewrite lookup_insert_eq, Hlog2, Hlog, Hbase2, Ho, Ha.
    repeat split; auto.
  - intros user Hu Hb. unfold cmd_admin. fold from_id. rewrite Hu.
    rewrite bool_decide_true by exact Hb. reflexivity.
Qed.

End AdminPanel.

(** ** From an unblocking back to the registration *)

Section AfterUnblock.

Variable settings : Settings.

(** X25. After an unblocking the attempts start over.  Whatever the account
    was before, once an admin has unblocked it, a wrong address that it
    sends (one that no other account holds) is taken as the first attempt:
    the answer says that all [email_max_attempts] attempts are left, and
    the account is stored with status [new], at [verifying_email], with
    one e-mail attempt. *)
Theorem after_unblock_attempts_start_over (env env' : Env)
    (message : Message.t) (admin_tg : Z) (s1 : Admin.Store) (user : User.t)
    (err : Security.EmailError) :
  let tg_id := Message.from_id message in
  let text := Py.strip (Message.text message) in
  let d' :=
    Admin.base
      (decided env admin_tg Admin.unblock tg_id (unblocked user) s1) in
  plain_text message = true ->
  Registration.email_bound_elsewhere d' text tg_id = false ->
  Security.validate_email text (email_regex settings)
    (allowed_domains settings) = Some err ->
  0 < email_max_attempts settings ->
  exists s2 user2,
    handle settings env' (Text message) d' = (Done, s2)
    /\ trace s2
       = [Flush
            (AuthAttempt.create
               (next_id AuthAttempt.id (auth_attempts (Admin.base s1)))
               (User.id user) type_email text (db_now env'));
          Answer (email_invalid err (email_max_attempts settings))]
    /\ users (db s2) !! tg_id = Some user2
    /\ User.status user2 = status_new
    /\ User.stage user2 = verifying_email
    /\ User.email_attempts user2 = 1
    /\ User.otp_attempts user2 = 0.
Proof.
  intros tg_id text d' Hplain Hfree Hbad Hmax.
  assert (Hu : users d' !! tg_id = Some (unblocked user)).
  { unfold d', decided. cbn. apply lookup_insert_eq. }
  rewrite (handle_text_registration settings env' message d'
             (unblocked user) Hplain Hu) by reflexivity.
  destruct (_log_attempt_run env' (User.id user) type_email text d' [])
    as (ledger & Hlog & _ & _).
  cbn [app] in Hlog.
  unfold Registration.on_email_or_code, opened. unfold bind at 1.
  fold tg_id. rewrite (_user_found _ _ _ _ _ Hu).
  unfold unblocked. user_fields.
  cbn [Registration.email_stage Registration.code_stage orb negb].
  rewrite bool_decide_false by discriminate.
  fold text.
  unfold bind at 1. rewrite Hlog.
  unfold bind at 1, get_db at 1. cbn [db].
  rewrite (email_bound_elsewhere_users d') by reflexivity.
  rewrite Hfree, Hbad. user_fields.
  assert (Hlt : (email_max_attempts settings <? 0 + 1) = false)
    by (apply Z.ltb_ge; lia).
  rewrite Hlt.
  do 2 eexists. split; [reflexivity|].
  cbn [bind commit get_db put_db answer emit ret db trace snd app
       users with_users].
  rewrite lookup_insert_eq.
  split.
  - replace (email_max_attempts settings - (0 + 1) + 1)
      with (email_max_attempts settings) by lia.
    reflexivity.
  - repeat split.
Qed.

End AfterUnblock.

(** ** [app/config.py]: lists in the environment *)

Section ParseList.

Import Config.

Variable json_loads : pystr -> option (list pystr).

Lemma re_split_from_clean (in_run : bool) (cur s : pystr) :
  Forall (fun c => list_sep c = false) cur ->
  Forall (Forall (fun c => list_sep c = false)) (re_split_from in_run cur s).
Proof.
  revert in_run cur. induction s as [|c s IH]; intros in_run cur Hcur; simpl.
  - constructor; [apply Forall_rev, Hcur|constructor].
  - destruct (list_sep c) eqn:E.
    + destruct in_run; [apply IH, Hcur|].
      constructor; [apply Forall_rev, Hcur|apply IH; constructor].
    + apply IH. constructor; assumption.
Qed.

Lemma sep_free_no_space (x : pystr) :
  Forall (fun c => list_sep c = false) x ->
  Forall (fun c => Py.isspace c = false) x.
Proof.
  apply List.Forall_impl. intros c H. unfold list_sep in H.
  apply orb_false_iff in H. apply H.
Qed.

Lemma strip_no_space (x : pystr) :
  Forall (fun c => Py.isspace c = false) x -> Py.strip x = x.
Proof.
  intros H. apply strip_of_trimmed. split.
  - destruct H as [|c x Hc _]; [reflexivity|]. simpl. rewrite Hc. reflexivity.
  - apply Forall_rev in H.
    destruct H as [|c r Hc _]; [reflexivity|]. simpl. rewrite Hc. reflexivity.
Qed.

(** X26. What [_parse_list] returns.  No entry is empty and every entry is
    trimmed, whichever way the text was read; when it was read as a
    comma- or space-separated list (it does not start with a bracket, or
    it is no JSON list), no entry holds a comma or white space.  The
    empty text gives the empty list. *)
Theorem _parse_list_entries (raw : pystr) :
  Forall (fun x => x <> [] /\ Py.strip x = x) (_parse_list json_loads raw)
  /\ (Py.startswith (Py.strip raw) (str "[") = false
      \/ json_loads (Py.strip raw) = None ->
      Forall plain_entry (_parse_list json_loads raw))
  /\ _parse_list json_loads [] = [].
Proof.
  assert (Hany : forall l : list pystr,
    Forall (fun x => x <> [] /\ Py.strip x = x)
      (map Py.strip (List.filter (fun x => Py.truthy (Py.strip x)) l))).
  { intros l. apply List.Forall_forall. intros x Hx.
    apply in_map_iff in Hx. destruct Hx as (y & <- & Hy).
    apply filter_In in Hy. destruct Hy as [_ Hy].
    split; [apply truthy_true, Hy|apply strip_idem]. }
  assert (Hcsv : forall s,
    Forall plain_entry
      (map Py.strip
         (List.filter (fun x => Py.truthy (Py.strip x)) (re_split s)))).
  { intros s. apply List.Forall_forall. intros x Hx.
    apply in_map_iff in Hx. destruct Hx as (y & <- & Hy).
    apply filter_In in Hy. destruct Hy as [Hin Hy].
    pose proof (re_split_from_clean false [] s ltac:(constructor)) as Hclean.
    rewrite List.Forall_forall in Hclean. specialize (Hclean y Hin).
    rewrite (strip_no_space y (sep_free_no_space y Hclean)) in *.
    split; [apply truthy_true, Hy|exact Hclean]. }
  unfold _parse_list. split; [|split; [|reflexivity]].
  - destruct (negb (Py.truthy raw)); [constructor|]. cbv zeta.
    destruct (Py.startswith _ _); [destruct (json_loads _)|]; apply Hany.
  - intros Hcase. destruct (negb (Py.truthy raw)); [constructor|]. cbv zeta.
    destruct (Py.startswith _ _) eqn:Hs;
      [destruct Hcase as [Hc|Hc]; [discriminate|rewrite Hc]|]; apply Hcsv.
Qed.

Lemma re_split_skip (w s : pystr) :
  Forall (fun c => list_sep c = true) w ->
  re_split_from true [] (w ++ s) = re_split_from true [] s.
Proof.
  induction 1 as [|c w Hc _ IH]; simpl; [reflexivity|].
  rewrite Hc. exact IH.
Qed.

Lemma re_split_read (x cur s : pystr) (in_run : bool) :
  x <> [] ->
  Forall (fun c => list_sep c = false) x ->
  re_split_from in_run cur (x ++ s)
  = re_split_from false (rev x ++ cur) s.
Proof.
  intros Hne Hx. revert in_run cur.
  induction Hx as [|c x Hc Hx IH]; intros in_run cur; [congruence|].
  simpl. rewrite Hc.
  destruct x as [|c' x'].
  - reflexivity.
  - rewrite IH by discriminate. rewrite <- app_assoc. reflexivity.
Qed.

Lemma re_split_join (sep : pystr) (x : pystr) (xs : list pystr)
    (cur : pystr) (in_run : bool) :
  list_separator sep ->
  Forall plain_entry (x :: xs) ->
  re_split_from in_run cur (Py.join sep (x :: xs))
  = (rev cur ++ x) :: xs.
Proof.
  intros [Hne Hsep]. revert x cur in_run.
  induction xs as [|y xs IH]; intros x cur in_run Hall;
    inversion Hall as [|? ? [Hx1 Hx2] Hrest]; subst.
  - cbn [Py.join]. rewrite <- (app_nil_r x) at 1.
    rewrite re_split_read by assumption. simpl.
    rewrite rev_app_distr, rev_involutive. reflexivity.
  - change (Py.join sep (x :: y :: xs))
      with (x ++ sep ++ Py.join sep (y :: xs)).
    rewrite re_split_read by assumption.
    destruct sep as [|c w]; [congruence|].
    inversion Hsep as [|? ? Hc Hw]; subst.
    cbn [app re_split_from]. rewrite Hc.
    rewrite re_split_skip by exact Hw.
    rewrite IH by exact Hrest.
    rewrite rev_app_distr, rev_involutive. reflexivity.
Qed.

(** X27. A list written the plain way is read back as it is.  Entries that are
    not empty and hold neither comma nor white space, written one after
    the other with any mix of commas and white space between them, and the
    first of them not starting with a bracket, come back from
    [_parse_list] unchanged and in order. *)
Theorem _parse_list_reads_back (sep : pystr) (entries : list pystr) :
  list_separator sep ->
  Forall plain_entry entries ->
  Py.startswith (Py.join sep entries) (str "[") = false ->
  _parse_list json_loads (Py.join sep entries) = entries.
Proof.
  intros Hsep Hall Hbracket.
  destruct entries as [|x xs]; [reflexivity|].
  assert (Hfree : Forall (fun e => Forall (fun c => Py.isspace c = false) e)
                    (x :: xs)).
  { eapply List.Forall_impl; [|exact Hall].
    intros e [_ He]. apply sep_free_no_space, He. }
  assert (Hends : exists c rest c' rest',
    Py.join sep (x :: xs) = c :: rest /\ Py.isspace c = false
    /\ rev (Py.join sep (x :: xs)) = c' :: rest' /\ Py.isspace c' = false).
  { clear Hbracket. revert x Hall Hfree.
    induction xs as [|y xs IH]; intros x Hall Hfree.
    - inversion Hall as [|? ? [Hne _] _]; subst.
      inversion Hfree as [|? ? Hx _]; subst. cbn [Py.join].
      destruct x as [|c rest]; [congruence|].
      inversion Hx as [|? ? Hc _]; subst.
      apply Forall_rev in Hx.
      destruct (rev (c :: rest)) as [|c' rest'] eqn:E.
      { apply (f_equal (@rev ascii)) in E. rewrite rev_involutive in E.
        discriminate. }
      inversion Hx; subst. do 4 eexists. repeat split; eauto.
    - inversion Hall as [|? ? [Hne _] Hrest]; subst.
      inversion Hfree as [|? ? Hx Hfrest]; subst.
      destruct (IH y Hrest Hfrest) as (_ & _ & c' & rest' & _ & _ & Hr & Hc').
      change (Py.join sep (x :: y :: xs))
        with (x ++ sep ++ Py.join sep (y :: xs)).
      destruct x as [|c rest]; [congruence|].
      inversion Hx; subst.
      rewrite !rev_app_distr, Hr.
      do 4 eexists. repeat split; eauto. }
  destruct Hends as (c & rest & c' & rest' & Hj & Hc & Hr & Hc').
  assert (Hstrip : Py.strip (Py.join sep (x :: xs)) = Py.join sep (x :: xs)).
  { apply strip_of_trimmed. split.
    - rewrite Hj. simpl. rewrite Hc. reflexivity.
    - rewrite Hr. simpl. rewrite Hc'. reflexivity. }
  unfold _parse_list.
  assert (Htruthy : Py.truthy (Py.join sep (x :: xs)) = true)
    by (rewrite Hj; reflexivity).
  rewrite Htruthy. cbn [negb]. cbv zeta. rewrite Hstrip, Hbracket.
  unfold re_split. rewrite (re_split_join sep x xs [] false Hsep Hall).
  cbn [rev app].
  rewrite filter_all.
  - clear -Hfree. induction Hfree as [|e l He _ IH]; [reflexivity|].
    simpl. rewrite (strip_no_space e He), IH. reflexivity.
  - intros e He. rewrite List.Forall_forall in Hfree, Hall.
    rewrite (strip_no_space e (Hfree e He)).
    apply truthy_true, (Hall e He).
Qed.

End ParseList.

(** * Instances of the further properties *)

Section FurtherInstances.

Import Sample Cases Registration.

#[local] Ltac evaluated :=
  vm_compute; first [reflexivity | discriminate | exact I].

(** Instance of X3. The instance for ["go, Go, music"] with the banned word
    ["rust"]. *)
Lemma normalize_interests_result_valid_witness :
  Security.normalize_interests (str "go, Go, music") [str "rust"]
  = Security.Interests [str "go"; str "music"]
  /\ List.NoDup (map Py.lower [str "go"; str "music"])
  /\ (Py.sum_len [str "go"; str "music"] <= 300)%nat.
Proof.
  assert (H : Security.normalize_interests (str "go, Go, music") [str "rust"]
              = Security.Interests [str "go"; str "music"]) by evaluated.
  destruct (normalize_interests_result_valid _ _ _ H) as (_ & Hs & Hn & _).
  repeat split; assumption.
Defined.

(** Instance of X4. A code sent three times more, the maximum, asked for once
    again 50 seconds after the last sending: no mail goes out and the code
    stays as it is. *)
Lemma resend_at_limit_sends_nothing_witness :
  let out := cb_otp_resend brisk (at_second 150) 7 (opened (resent 3)) in
  trace out.2
  = [Answer (resend_done true (Some warn_resend_limit)); CallbackAnswer None]
  /\ otps (db out.2) = otps (resent 3).
Proof.
  cbv zeta.
  rewrite (resend_at_limit_sends_nothing brisk (at_second 150) 7 (resent 3)
             (account 1 (Some (str "a@corp.com")) status_new verifying_code
                0 0)
             (sent_again 3)).
  - split; reflexivity.
  - evaluated.
  - evaluated.
  - evaluated.
  - evaluated.
  - evaluated.
  - evaluated.
  - evaluated.
Defined.

(** Instance of X5. The same code sent once more: the mail carries ["123456"]
    again; and the same request when the mail server is down. *)
Lemma resend_mails_the_same_code_witness :
  trace (cb_otp_resend brisk (at_second 150) 7 (opened (resent 1))).2
  = [SendOtpEmail (Some (str "a@corp.com")) (str "123456");
     Answer (resend_done true (Some warn_resent));
     CallbackAnswer None]
  /\ cb_otp_resend brisk (smtp_down 150) 7 (opened (resent 1))
     = (Uncaught, opened (resent 1)).
Proof.
  split.
  - destruct (resend_mails_the_same_code brisk (at_second 150) 7 (resent 1)
                (account 1 (Some (str "a@corp.com")) status_new
                   verifying_code 0 0)
                (sent_again 1)) as (Hrun & _);
      [evaluated|evaluated|evaluated|evaluated|evaluated|evaluated
      |evaluated|].
    rewrite Hrun by reflexivity. reflexivity.
  - destruct (resend_mails_the_same_code brisk (smtp_down 150) 7 (resent 1)
                (account 1 (Some (str "a@corp.com")) status_new
                   verifying_code 0 0)
                (sent_again 1)) as (_ & Hrun & _);
      [evaluated|evaluated|evaluated|evaluated|evaluated|evaluated
      |evaluated|].
    apply Hrun. reflexivity.
Defined.

(** Instance of X7. A command is left to the command handlers, and the text of
    an account at the name step goes to the wizard. *)
Lemma text_goes_to_one_handler_witness :
  handle corp (at_second 150) (Text (says 7 "/help")) (waiting 0 None)
  = (SkipHandler, opened (waiting 0 None))
  /\ handle corp (at_second 150) (Text (says 7 "Ann"))
       (alone active profile_name)
     = Profile.on_profile_text corp (at_second 150) (says 7 "Ann")
         (opened (alone active profile_name)).
Proof.
  split.
  - apply (proj2 (text_goes_to_one_handler corp (at_second 150)
                    (says 7 "/help") (waiting 0 None))).
    evaluated.
  - rewrite (proj1 (text_goes_to_one_handler corp (at_second 150)
                      (says 7 "Ann") (alone active profile_name)))
      by evaluated.
    reflexivity.
Defined.

(** Instance of X8. The right code, 121 seconds after it was minted. *)
Lemma expired_code_is_refused_uncounted_witness :
  let out :=
    on_email_or_code corp (at_second 221) (says 7 "123456")
      (opened (waiting 0 None)) in
  filter is_answer (trace out.2)
  = [Answer (code_expired (Some (str "a@corp.com")))]
  /\ otps (db out.2) = otps (waiting 0 None).
Proof.
  cbv zeta.
  destruct (expired_code_is_refused_uncounted corp (at_second 221)
              (says 7 "123456") (waiting 0 None)
              (account 1 (Some (str "a@corp.com")) status_new verifying_code
                 0 0)
              (code_row 1 1 "123456" 100 None)) as [ledger ->].
  - evaluated.
  - evaluated.
  - evaluated.
  - evaluated.
  - evaluated.
  - evaluated.
  - split; reflexivity.
Defined.

(** Instance of X9. A new address 50 seconds after the code of the old one was
    sent. *)
Lemma new_address_within_cooldown_gets_no_mail_witness :
  let out :=
    on_email_or_code corp (at_second 150) (says 7 "b@corp.com")
      (opened changing) in
  filter is_answer (trace out.2) = [Answer (code_sent (Some warn_cooldown))]
  /\ otps (db out.2) = otps changing
  /\ option_map User.email (users (db out.2) !! 7)
     = Some (Some (str "b@corp.com")).
Proof.
  cbv zeta.
  destruct (new_address_within_cooldown_gets_no_mail corp (at_second 150)
              (says 7 "b@corp.com") changing
              (account 1 (Some (str "a@corp.com")) status_new verifying_email
                 0 0)
              (code_row 1 1 "123456" 100 None)) as [ledger ->].
  - evaluated.
  - evaluated.
  - evaluated.
  - evaluated.
  - evaluated.
  - evaluated.
  - evaluated.
  - evaluated.
  - repeat split; evaluated.
Defined.

(** Instance of X10. Account 7 sends a free address of the allowed domain at
    second 100 and the code it was mailed at second 150. *)
Lemma registration_round_trip_witness :
  let d := two_accounts status_new stage_new in
  let s1 := (handle corp (at_second 100) (Text (says 7 "b@corp.com")) d).2 in
  let s2 :=
    (handle corp (at_second 150) (Text (says 7 "424242")) (db s1)).2 in
  existsb is_auth_success (trace s2) = true
  /\ option_map (fun u => (User.status u, User.stage u, User.email u))
       (users (db s2) !! 7)
     = Some (active, authorized, Some (str "b@corp.com")).
Proof.
  cbv zeta.
  destruct (registration_round_trip corp (at_second 100) (at_second 150)
              (says 7 "b@corp.com") (says 7 "424242")
              (two_accounts status_new stage_new)
              (account 1 None status_new stage_new 0 0))
    as (s1 & s2 & row1 & row2 & -> & _ & Hcode & Htrace & Husers & _).
  - evaluated.
  - evaluated.
  - evaluated.
  - evaluated.
  - evaluated.
  - evaluated.
  - reflexivity.
  - intros o [].
  - evaluated.
  - evaluated.
  - evaluated.
  - evaluated.
  - evaluated.
  - cbn [snd]. rewrite Hcode. cbn [snd]. rewrite Htrace, Husers.
    split; evaluated.
Defined.

(** Instance of X11. Four wrong codes of account 1: all four rows are in the
    ledger afterwards, the oldest included. *)
Lemma ledger_is_never_pruned_witness :
  let d' :=
    db (for_each (_log_attempt (at_second 150) 1 type_otp)
          [str "0001"; str "0002"; str "0003"; str "0004"]
          (opened (waiting 0 None))).2 in
  map AuthAttempt.value (ledger_of d' 1 type_otp)
  = map AuthAttempt.value (ledger_of (waiting 0 None) 1 type_otp)
    ++ [str "0001"; str "0002"; str "0003"; str "0004"]
  /\ (length (ledger_of d' 1 type_otp) = 4)%nat.
Proof.
  cbv zeta.
  destruct (ledger_is_never_pruned (at_second 150) 1 type_otp
              [str "0001"; str "0002"; str "0003"; str "0004"]
              (waiting 0 None) [])
    as (rows & _ & Hvalues & _ & Hmine & _).
  unfold opened. rewrite Hmine, map_app, Hvalues.
  split; [reflexivity|].
  rewrite length_app, <- (length_map AuthAttempt.value rows), Hvalues.
  reflexivity.
Defined.

(** The events of the instances below: account 7 sends a wrong code, asks
    for the code again and sends the right one. *)
#[local] Abbreviation a_session :=
  [(at_second 110, Text (says 7 "000000"));
   (at_second 130, OtpResend 7);
   (at_second 140, Text (says 7 "123456"))].

(** Instance of X12. The code of second 100 through a wrong code, a resend and
    its use. *)
Lemma stored_codes_only_age_witness :
  List.NoDup (map Otp.id (otps (waiting 0 None)))
  /\ List.NoDup (map Otp.id (otps (run brisk a_session (waiting 0 None)))).
Proof.
  assert (H : List.NoDup (map Otp.id (otps (waiting 0 None)))).
  { simpl. constructor; [intros []|constructor]. }
  split; [exact H|].
  destruct (stored_codes_only_age brisk a_session (waiting 0 None) H)
    as (olds & news & _ & _ & Hnd).
  exact Hnd.
Defined.

(** Instance of X13. The same session keeps the code within the limits of
    [brisk]. *)
Lemma stored_codes_stay_within_limits_witness :
  Forall (within_limits brisk) (otps (waiting 0 None))
  /\ Forall (within_limits brisk)
       (otps (run brisk a_session (waiting 0 None))).
Proof.
  assert (H : Forall (within_limits brisk) (otps (waiting 0 None))).
  { repeat constructor. evaluated. }
  split; [exact H|].
  apply (stored_codes_stay_within_limits brisk a_session (waiting 0 None));
    [evaluated|exact H].
Defined.

(** Instance of X14. The age ["²"]. *)
Lemma age_of_superscripts_kills_the_handler_witness :
  Py.isdigit superscript_two = true
  /\ Py.int superscript_two = None
  /\ handle corp (at_second 150) (Text (writes 7 superscript_two))
       (alone active profile_age)
     = (Uncaught, opened (alone active profile_age)).
Proof.
  split; [evaluated|split; [evaluated|]].
  apply (age_of_superscripts_kills_the_handler corp (at_second 150)
           (writes 7 superscript_two) (alone active profile_age)
           (account 1 (Some (str "a@corp.com")) active profile_age 0 0)).
  - evaluated.
  - evaluated.
  - evaluated.
  - evaluated.
  - evaluated.
  - evaluated.
Defined.

(** Instance of X15. The age ["17"] is not stored, the age ["18"] is. *)
Lemma wizard_stores_only_valid_fields_witness :
  (exists user',
     users
       (db (Profile.on_profile_text corp (at_second 150) (says 7 "18")
              (opened (alone active profile_age))).2) !! 7
     = Some user'
     /\ User.status user' = active)
  /\ option_map User.age
       (users
          (db (Profile.on_profile_text corp (at_second 150) (says 7 "17")
                 (opened (alone active profile_age))).2) !! 7)
     = Some None
  /\ option_map User.age
       (users
          (db (Profile.on_profile_text corp (at_second 150) (says 7 "18")
                 (opened (alone active profile_age))).2) !! 7)
     = Some (Some 18).
Proof.
  split; [|split; evaluated].
  destruct (wizard_stores_only_valid_fields corp (at_second 150)
              (says 7 "18") (alone active profile_age)
              (account 1 (Some (str "a@corp.com")) active profile_age 0 0))
    as (user' & Hu & _ & _ & _ & _ & _ & Hst & _).
  - evaluated.
  - exists user'. split; [exact Hu|exact Hst].
Defined.

(** Instance of X16. A wrong code of account 7 leaves account 8 as it is. *)
Lemma an_event_touches_only_its_sender_witness :
  users
    (db (handle corp (at_second 150) (Text (says 7 "000000"))
           (two_accounts status_new verifying_code)).2) !! 8
  = users (two_accounts status_new verifying_code) !! 8.
Proof.
  apply (an_event_touches_only_its_sender corp (at_second 150)
           (Text (says 7 "000000"))
           (two_accounts status_new verifying_code) 8).
  evaluated.
Defined.

(** Instance of X17. A blocked account that tries everything it can. *)
Lemma no_event_unblocks_witness :
  exists user',
    users
      (run corp
         [(at_second 110, CommandStart (says 7 "/start"));
          (at_second 120, Text (says 7 "b@corp.com"));
          (at_second 130, OtpResend 7);
          (at_second 140, OtpChangeEmail 7);
          (at_second 150, ProfStart 7)]
         (alone blocked verifying_code_error)) !! 7
    = Some user'
    /\ User.status user' = blocked.
Proof.
  destruct (no_event_unblocks corp
              [(at_second 110, CommandStart (says 7 "/start"));
               (at_second 120, Text (says 7 "b@corp.com"));
               (at_second 130, OtpResend 7);
               (at_second 140, OtpChangeEmail 7);
               (at_second 150, ProfStart 7)]
              (alone blocked verifying_code_error) 7
              (account 1 (Some (str "a@corp.com")) blocked
                 verifying_code_error 0 0))
    as (user' & Hu & _ & Hst).
  - evaluated.
  - evaluated.
  - exists user'. split; [exact Hu|exact Hst].
Defined.

(** Instance of X18. Two newcomers on the empty store, the second asking for
    the address of the first. *)
Lemma accounts_stay_distinct_witness :
  let d :=
    run corp
      [(at_second 100, CommandStart (says 7 "/start"));
       (at_second 110, Text (says 7 "a@corp.com"));
       (at_second 120, Text (says 7 "424242"));
       (at_second 130, CommandStart (says 8 "/start"));
       (at_second 140, Text (says 8 "a@corp.com"))]
      (store [] []) in
  distinct_ids d /\ distinct_emails d.
Proof.
  cbv zeta.
  apply (accounts_stay_distinct corp _ (store [] [])).
  - intros k1 k2 u1 u2 H. simpl in H. rewrite lookup_empty in H.
    discriminate H.
  - intros k1 k2 u1 u2 e H. simpl in H. rewrite lookup_empty in H.
    discriminate H.
Defined.

(** Instance of X20. The button ["prof:edit:age"] of the review keyboard. *)
Lemma user_buttons_reach_their_handlers_witness :
  callback_event 7 [] (str "prof:edit:age") = Some (ProfEdit 7 (str "age"))
  /\ collection_stage (str "age") <> None.
Proof.
  assert (H : callback_event 7 [] (str "prof:edit:age")
              = Some (ProfEdit 7 (str "age"))) by evaluated.
  split; [exact H|].
  apply (proj2 (proj2 (proj2 (proj2 (proj2 (proj2
           (user_buttons_reach_their_handlers 7 []))))))
           (str "prof:edit:age") (str "age")); [|exact H].
  simpl. tauto.
Defined.

(** Instance of X21. The listed admin 7 before any role exists. *)
Lemma listed_admin_is_granted_for_good_witness :
  exists s1,
    Admin._is_admin {[7]} (at_second 150) 7 bare = Some (true, s1)
    /\ Admin._is_admin ∅ (at_second 150) 7 s1 = Some (true, s1)
    /\ Admin.panel_log s1 = [].
Proof.
  destruct (listed_admin_is_granted_for_good (at_second 150) {[7]} 7 bare)
    as (s1 & H1 & _ & _ & Hlog & _ & H2).
  - apply elem_of_singleton. reflexivity.
  - split; [simpl; lia|]. intros role_id. simpl. lia.
  - exists s1. split; [exact H1|split; [apply H2|exact Hlog]].
Defined.

(** Instance of X22. Account 8, which is not listed and holds no role, presses
    the button that would unblock it. *)
Lemma decisions_need_admin_rights_witness :
  Admin.admin_callbacks {[7]} (at_second 150) (press 8 "admin:unblock:2")
    (desk blocked)
  = (Done, desk blocked, [Admin.CallbackAnswer (Some Admin.no_rights)]).
Proof.
  destruct (decisions_need_admin_rights (at_second 150) {[7]}
              (press 8 "admin:unblock:2") (desk blocked)) as [H _].
  - apply not_elem_of_singleton. discriminate.
  - evaluated.
  - rewrite H. reflexivity.
Defined.


(** Instance of X24. The listed admin 7 opens the panel before any role
    exists. *)
Lemma panel_opens_for_a_listed_admin_witness :
  exists s3,
    Admin.cmd_admin {[7]} (at_second 150) (says 7 "/admin") bare
    = (Done, s3, [Admin.Answer Admin.panel_opened])
    /\ length (Admin.panel_log s3) = 1%nat.
Proof.
  destruct (proj1 (panel_opens_for_a_listed_admin (at_second 150) {[7]}
                     (says 7 "/admin") bare))
    as (s3 & user & H & _ & _ & _ & Hlog & _).
  - apply elem_of_singleton. reflexivity.
  - split; [simpl; lia|]. intros role_id. simpl. lia.
  - evaluated.
  - exists s3. split; [exact H|]. rewrite Hlog. reflexivity.
Defined.

(** Instance of X25. [bob], unblocked at second 150, sends a text that is no
    address at second 200. *)
Lemma after_unblock_attempts_start_over_witness :
  option_map
    (fun u => (User.status u, User.stage u, User.email_attempts u,
               User.otp_attempts u))
    (users
       (db (handle corp (at_second 200) (Text (says 8 "hello"))
              (Admin.base
                 (decided (at_second 150) 7 Admin.unblock 8
                    (unblocked (bob blocked)) (desk blocked)))).2) !! 8)
  = Some (status_new, verifying_email, 1, 0).
Proof.
  destruct (after_unblock_attempts_start_over corp (at_second 150)
              (at_second 200) (says 8 "hello") 7 (desk blocked) (bob blocked)
              Security.bad_format)
    as (s2 & user2 & Hh & _ & Hu & Hst & Hsg & He & Ho).
  - evaluated.
  - evaluated.
  - evaluated.
  - evaluated.
  - change (Message.from_id (says 8 "hello")) with 8 in Hh, Hu.
    rewrite Hh. cbn [snd]. rewrite Hu. cbn [option_map].
    rewrite Hst, Hsg, He, Ho.
    reflexivity.
Defined.

(** Instance of X26. The list ["corp.com, example.org"]. *)
Lemma _parse_list_entries_witness :
  Forall plain_entry (Config._parse_list no_json (str "corp.com, example.org")).
Proof.
  apply (proj1 (proj2 (_parse_list_entries no_json
                         (str "corp.com, example.org")))).
  right. reflexivity.
Defined.

(** Instance of X27. Two domains written with a comma and a space between
    them. *)
Lemma _parse_list_reads_back_witness :
  Config._parse_list no_json (str "corp.com, example.org")
  = [str "corp.com"; str "example.org"].
Proof.
  apply (_parse_list_reads_back no_json (str ", ")
           [str "corp.com"; str "example.org"]).
  - split; [discriminate|]. repeat constructor.
  - repeat (constructor; [split; [discriminate|repeat constructor]|]).
    constructor.
  - evaluated.
Defined.

End FurtherInstances.
